(** * Arc/Info ASCII grid codec of icepack: a shallow embedding

    This development embeds [icepack/grid/arcinfo.py] (the functions [write]
    and [read]) together with the parts of the Python run time they rely on:
    [str.split], [file.readline], [int], [float], [str.format] on integers and
    floats, numpy row assignment and the file objects of [open].

    Python floats are IEEE binary64 numbers; they are modelled by Rocq's
    primitive floats.  Text is modelled by [string]; a character is a code
    point below 256. *)

From Stdlib Require Import ZArith Ascii String List Lia Bool.
From Stdlib Require Import Decimal DecimalString DecimalPos DecimalZ.
From Stdlib Require Import PrimFloat FloatOps SpecFloat.
From stdpp Require Import base option list gmap strings.

Open Scope Z_scope.

(** ** Characters and strings *)

Module Str.

(** [str.isspace] on one character: TAB, LF, VT, FF, CR, the separators
    FS, GS, RS, US, the space, NEL and the no-break space. *)
Definition is_space (c : ascii) : bool :=
  match nat_of_ascii c with
  | 9 | 10 | 11 | 12 | 13 | 28 | 29 | 30 | 31 | 32 | 133 | 160 => true
  | _ => false
  end%nat.

Definition newline : ascii := "010"%char.

Fixpoint forallb (p : ascii -> bool) (s : string) : bool :=
  match s with
  | EmptyString => true
  | String c r => p c && forallb p r
  end.

Definition nonspace (c : ascii) : bool := negb (is_space c).

(** A token: a non-empty string without white space. *)
Definition is_token (s : string) : bool :=
  match s with
  | EmptyString => false
  | _ => forallb nonspace s
  end.

(** [s.split()]: the maximal runs of characters that are not white space. *)
Fixpoint split (s : string) : list string :=
  match s with
  | EmptyString => []
  | String c r =>
      if is_space c then split r
      else match r with
           | EmptyString => [String c EmptyString]
           | String c' _ =>
               if is_space c' then String c EmptyString :: split r
               else match split r with
                    | t :: ts => String c t :: ts
                    | [] => [String c EmptyString]
                    end
           end
  end.

Fixpoint lstrip (s : string) : string :=
  match s with
  | String c r => if is_space c then lstrip r else s
  | EmptyString => EmptyString
  end.

Fixpoint rstrip (s : string) : string :=
  match s with
  | EmptyString => EmptyString
  | String c r =>
      match rstrip r with
      | EmptyString => if is_space c then EmptyString else String c EmptyString
      | r' => String c r'
      end
  end.

(** [s.strip()] *)
Definition strip (s : string) : string := rstrip (lstrip s).

(** One line of a text: everything up to and including the first line feed,
    or the whole text when there is none; and what follows it. *)
Fixpoint readline (s : string) : string * string :=
  match s with
  | EmptyString => (EmptyString, EmptyString)
  | String c r =>
      if Ascii.eqb c newline then (String c EmptyString, r)
      else let '(l, rest) := readline r in (String c l, rest)
  end.

Definition lower_char (c : ascii) : ascii :=
  let n := nat_of_ascii c in
  if (65 <=? n)%nat && (n <=? 90)%nat then ascii_of_nat (n + 32) else c.

Fixpoint lower (s : string) : string :=
  match s with
  | EmptyString => EmptyString
  | String c r => String (lower_char c) (lower r)
  end.

(** The first position of a character satisfying [p] cuts the string in two;
    the character itself is dropped. *)
Fixpoint cut (p : ascii -> bool) (s : string) : string * option string :=
  match s with
  | EmptyString => (EmptyString, None)
  | String c r =>
      if p c then (EmptyString, Some r)
      else let '(a, b) := cut p r in (String c a, b)
  end.

Definition no_newline (s : string) : bool :=
  forallb (fun c => negb (Ascii.eqb c newline)) s.

(** A complete line: no line feed but the one that ends it. *)
Fixpoint is_line (s : string) : bool :=
  match s with
  | EmptyString => false
  | String c r =>
      if Ascii.eqb c newline then
        match r with EmptyString => true | _ => false end
      else is_line r
  end.

(** The concatenation of a list of strings. *)
Fixpoint cat (l : list string) : string :=
  match l with
  | [] => EmptyString
  | s :: r => s +:+ cat r
  end.

(** The first [n] lines of a text, as [readline] returns them, and what
    follows them. *)
Fixpoint readlines (n : nat) (s : string) : list string * string :=
  match n with
  | O => ([], s)
  | S k =>
      let '(l, rest) := readline s in
      let '(ls, rest') := readlines k rest in
      (l :: ls, rest')
  end.

(** The number of lines of a text; a last line need not end with a line
    feed. *)
Fixpoint count_lines (s : string) : nat :=
  match s with
  | EmptyString => O
  | String c r =>
      if Ascii.eqb c newline then S (count_lines r)
      else match r with
           | EmptyString => 1%nat
           | _ => count_lines r
           end
  end.

Fixpoint repeat (c : ascii) (n : nat) : string :=
  match n with
  | O => EmptyString
  | S k => String c (repeat c k)
  end.

(** [s.ljust(w)] *)
Definition ljust (s : string) (w : nat) : string :=
  s +:+ repeat " "%char (w - String.length s).

End Str.

(** ** Exceptions and numbers of the Python run time *)

Inductive exn : Type :=
| ValueError_int (literal : string)
    (* int(): invalid literal for int() with base 10 *)
| ValueError_float (literal : string)
    (* float(): could not convert string to float *)
| ValueError_negative_dimensions
    (* numpy.zeros: negative dimensions are not allowed *)
| ValueError_broadcast (k n : nat)
    (* numpy: could not broadcast input array from shape (k,) into shape (n,) *)
| ValueError_closed_file
    (* I/O operation on closed file *)
| IndexError
    (* list index out of range, index out of bounds *)
| UnsupportedOperation
    (* io: not readable, not writable *)
| FileNotFoundError (path : string)
| IsADirectoryError (path : string)
| AttributeError.
    (* the object is not a file object, or not a grid *)

Module Py.

Definition is_underscore (c : ascii) : bool := Ascii.eqb c "_".

(** A run of decimal digits in which single underscores may separate two
    digits (the grammar shared by [int] and [float]). *)
Fixpoint digits_go (after_digit : bool) (s : string) : option uint :=
  match s with
  | EmptyString => if after_digit then Some Nil else None
  | String c r =>
      if is_underscore c then
        (if after_digit then digits_go false r else None)
      else uint_of_char c (digits_go true r)
  end.

Definition digitpart (s : string) : option uint := digits_go false s.

Definition signed (s : string) : bool * string :=
  match s with
  | String "-" r => (true, r)
  | String "+" r => (false, r)
  | _ => (false, s)
  end.

(** [int(s)] for a string [s], base 10. *)
Definition int_of_string (s : string) : exn + Z :=
  let '(neg, body) := signed (Str.strip s) in
  match digitpart body with
  | Some d => inr (if neg then - Z.of_uint d else Z.of_uint d)
  | None => inl (ValueError_int s)
  end.

(** ["{0}".format(n)] for an integer [n]. *)
Definition format_int (n : Z) : string :=
  NilEmpty.string_of_int (Z.to_int n).

(** *** Floats *)

(** The binary64 number nearest to [N / D] (ties to even), for positive
    [N] and [D], with the sign [neg]. *)
Definition round_rat (neg : bool) (N D : Z) : float :=
  let '(q, e, l) := SFdiv_core_binary prec emax N 0 D 0 in
  SF2Prim (binary_round_aux prec emax neg q e l).

(** The binary64 number nearest to [M * 10 ^ E] for [M >= 0]. *)
Definition float_of_decimal (neg : bool) (M E : Z) : float :=
  if M =? 0 then (if neg then neg_zero else zero)
  else if 0 <=? E then round_rat neg (M * 10 ^ E) 1
  else round_rat neg M (10 ^ (- E)).

Definition is_dot (c : ascii) : bool := Ascii.eqb c ".".
Definition is_e (c : ascii) : bool := Ascii.eqb c "e" || Ascii.eqb c "E".

Definition optional_digits (s : string) : option uint :=
  match s with
  | EmptyString => Some Nil
  | _ => digitpart s
  end.

Definition parse_exponent (s : string) : option Z :=
  let '(neg, body) := signed s in
  d ← digitpart body;
  Some (if neg then - Z.of_uint d else Z.of_uint d).

(** A decimal literal [digits [. digits] [e [sign] digits]] as a pair
    [(M, E)] that stands for [M * 10 ^ E]. *)
Definition parse_decimal (s : string) : option (Z * Z) :=
  let '(mant, ex) := Str.cut is_e s in
  let '(ip, fp) := Str.cut is_dot mant in
  e ← match ex with None => Some 0 | Some x => parse_exponent x end;
  match fp with
  | None => d ← digitpart ip; Some (Z.of_uint d, e)
  | Some f =>
      di ← optional_digits ip;
      df ← optional_digits f;
      match ip, f with
      | EmptyString, EmptyString => None
      | _, _ => Some (Z.of_uint (Decimal.app di df),
                      e - Z.of_nat (Decimal.nb_digits df))
      end
  end.

(** [float(s)] for a string [s]. *)
Definition float_of_string (s : string) : exn + float :=
  let '(neg, body) := signed (Str.strip s) in
  let name := Str.lower body in
  if (String.eqb name "inf" || String.eqb name "infinity")%bool then
    inr (if neg then neg_infinity else infinity)
  else if String.eqb name "nan" then inr nan
  else match parse_decimal body with
       | Some (M, E) => inr (float_of_decimal neg M E)
       | None => inl (ValueError_float s)
       end.

(** The shortest decimal that reads back as the same float. *)

Definition nb_digits_Z (n : Z) : Z :=
  match n with
  | Zpos p => Z.of_nat (Decimal.nb_digits (Pos.to_uint p))
  | _ => 0
  end.

(** [floor (log10 (N / D))] for positive [N], [D] with
    [10 ^ -400 <= N / D]. *)
Definition ilog10 (N D : Z) : Z :=
  nb_digits_Z (N * 10 ^ 400 / D) - 1 - 400.

(** [N / D] scaled by [10 ^ - k], as a fraction. *)
Definition scale10 (N D k : Z) : Z * Z :=
  if 0 <=? k then (N, D * 10 ^ k) else (N * 10 ^ (- k), D).

(** The candidates with [p] significant digits for the positive finite
    float [x = N / D]: the decimals [c * 10 ^ k] just below and just above
    [x]; the result is the one that reads back as [x], the nearer one
    first. *)
Definition candidate (x : float) (N D : Z) (p : Z) : option (Z * Z) :=
  let k := ilog10 N D - p + 1 in
  let '(N', D') := scale10 N D k in
  let lo := N' / D' in
  let hi := lo + 1 in
  let r := N' - lo * D' in
  let ok c := (0 <? c) && PrimFloat.eqb (float_of_decimal false c k) x in
  let lo_first :=
    match 2 * r ?= D' with
    | Lt => true
    | Eq => Z.even lo
    | Gt => false
    end in
  let '(c1, c2) := if lo_first then (lo, hi) else (hi, lo) in
  if ok c1 then Some (c1, k)
  else if ok c2 then Some (c2, k)
  else None.

Fixpoint shortest (x : float) (N D : Z) (p : Z) (fuel : nat) : Z * Z :=
  match fuel with
  | O =>
      let k := ilog10 N D - 16 in
      let '(N', D') := scale10 N D k in
      ((2 * N' + D') / (2 * D'), k)
  | S fuel' =>
      match candidate x N D p with
      | Some ck => ck
      | None => shortest x N D (p + 1) fuel'
      end
  end.

Fixpoint rstrip_zeros (s : string) : string :=
  match s with
  | EmptyString => EmptyString
  | String c r =>
      match rstrip_zeros r with
      | EmptyString =>
          if Ascii.eqb c "0" then EmptyString else String c EmptyString
      | r' => String c r'
      end
  end.

Definition zeros (n : Z) : string := Str.repeat "0" (Z.to_nat n).

Definition format_exponent (e : Z) : string :=
  let a := format_int (Z.abs e) in
  String (if e <? 0 then "-"%char else "+"%char)
    (if Z.abs e <? 10 then String "0" a else a).

(** The layout of [repr]: [digits] are the significant digits and the
    decimal point stands after the first [decpt] of them. *)
Definition layout (digits : string) (decpt : Z) : string :=
  let nd := Z.of_nat (String.length digits) in
  if (decpt <=? -4) || (16 <? decpt) then
    match digits with
    | String d EmptyString => String d ("e" +:+ format_exponent (decpt - 1))
    | String d r =>
        String d ("." +:+ r +:+ "e" +:+ format_exponent (decpt - 1))
    | EmptyString => "0e" +:+ format_exponent (decpt - 1)
    end
  else if decpt <=? 0 then "0." +:+ zeros (- decpt) +:+ digits
  else if nd <=? decpt then digits +:+ zeros (decpt - nd) +:+ ".0"
  else substring 0 (Z.to_nat decpt) digits +:+ "." +:+
       substring (Z.to_nat decpt) (Z.to_nat (nd - decpt)) digits.

Definition repr_finite (x : float) (m : positive) (e : Z) : string :=
  let '(N, D) := if 0 <=? e then (Zpos m * 2 ^ e, 1) else (Zpos m, 2 ^ (- e)) in
  let '(c, k) := shortest x N D 1 17 in
  let ds := format_int c in
  layout (rstrip_zeros ds) (Z.of_nat (String.length ds) + k).

(** ["{0}".format(x)] for a float [x], that is [repr(x)]. *)
Definition format_float (x : float) : string :=
  match Prim2SF x with
  | S754_nan => "nan"
  | S754_infinity s => if s then "-inf" else "inf"
  | S754_zero s => if s then "-0.0" else "0.0"
  | S754_finite s m e =>
      let r := repr_finite (abs x) m e in
      if s then String "-" r else r
  end.

End Py.

(** ** numpy arrays and grids *)

(** A two-dimensional [float64] array: its shape [(rows, columns)] and its
    rows.  numpy keeps the shape apart from the contents, so that an array
    without rows still has a number of columns. *)
Record ndarray : Type := {
  nd_shape : nat * nat;
  nd_rows : list (list float)
}.

(** [numpy.zeros((ny, nx), dtype=numpy.float64)].  This definition has the
    check of the signs.  numpy also checks the size of the shape; that check
    is stated apart, as [allocatable] below, and it is a hypothesis of the
    statements that need the raster of [read]. *)
Definition np_zeros (ny nx : Z) : exn + ndarray :=
  if (ny <? 0) || (nx <? 0) then inl ValueError_negative_dimensions
  else inr {| nd_shape := (Z.to_nat ny, Z.to_nat nx);
              nd_rows := replicate (Z.to_nat ny) (replicate (Z.to_nat nx) zero) |}.

(** The shapes that [numpy.zeros] accepts for [float64] on a machine of 64
    bits: no dimension is negative, each dimension fits a signed integer of
    64 bits, and so does the size in bytes, which is eight times the product
    of the dimensions that are not zero.  For every other shape numpy raises
    a ValueError before any raster exists.  Whether the machine has the
    memory for the raster is another matter: exhaustion of memory, here as
    anywhere in the run time, is outside the model. *)
Definition allocatable (ny nx : Z) : bool :=
  (0 <=? ny) && (0 <=? nx) && (ny <? 2 ^ 63) && (nx <? 2 ^ 63) &&
  (8 * Z.max 1 ny * Z.max 1 nx <? 2 ^ 63).

(** [a[i, :] = vals] for a list [vals]: the list must have the length of a
    row, or the length one, in which case numpy broadcasts its element over
    the row. *)
Definition set_row (a : ndarray) (i : nat) (vals : list float) : exn + ndarray :=
  let n := snd (nd_shape a) in
  if negb (i <? fst (nd_shape a))%nat then inl IndexError
  else if (length vals =? n)%nat then
    inr {| nd_shape := nd_shape a; nd_rows := <[i := vals]> (nd_rows a) |}
  else match vals with
       | [v] => inr {| nd_shape := nd_shape a;
                       nd_rows := <[i := replicate n v]> (nd_rows a) |}
       | _ => inl (ValueError_broadcast (length vals) n)
       end.

(** A masked array: the stored numbers and, cell by cell, whether the cell
    is masked. *)
Record masked_array : Type := {
  ma_shape : nat * nat;
  ma_data : list (list float);
  ma_mask : list (list bool)
}.

(** Modelled from the spec: the class [GridData] of [icepack.grid], which
    [arcinfo.py] imports and whose source is not part of the sources at hand.
    The spec gives it an origin, a cell size and a raster with a mask of
    missing cells; the attribute names [_origin], [_delta] and [data] are the
    ones [write] reads. *)
Record GridData : Type := {
  _origin : float * float;
  _delta : float;
  data : masked_array
}.

(** Modelled from the spec: the constructor of [GridData].  "If
    [missing_data_value] is provided, every cell in [values] numerically
    equal to it is marked masked at construction time." *)
Definition GridData_init (origin : float * float) (delta : float)
    (values : ndarray) (missing_data_value : option float) : GridData :=
  {| _origin := origin;
     _delta := delta;
     data := {| ma_shape := nd_shape values;
                ma_data := nd_rows values;
                ma_mask :=
                  match missing_data_value with
                  | Some m => map (map (fun v => PrimFloat.eqb v m)) (nd_rows values)
                  | None => map (map (fun _ => false)) (nd_rows values)
                  end |} |}.

(** A raster as numpy has it: as many rows as the shape says, each of the
    width the shape says, and a mask of the same shape. *)
Definition rectangular {A} (shape : nat * nat) (rows : list (list A)) : Prop :=
  length rows = fst shape /\ Forall (fun r => length r = snd shape) rows.

Definition wf_grid (g : GridData) : Prop :=
  rectangular (ma_shape (data g)) (ma_data (data g)) /\
  rectangular (ma_shape (data g)) (ma_mask (data g)).

(** ** The store: disk, file objects and grid objects *)

Inductive mode : Type := ReadMode | WriteMode.

(** A text file object.  When it is read, [fo_text] is what has not been
    read yet; when it is written, [fo_text] is what has been written. *)
Record file_obj : Type := {
  fo_mode : mode;
  fo_text : string;
  fo_closed : bool
}.

(** What the disk holds under a name.  The text of a regular file is the
    text that a file object opened in text mode delivers: decoded, and with
    its line ends translated to line feeds. *)
Inductive node : Type := RegularFile (text : string) | Directory.

(** File objects and grids live in the store and are named by their index.
    The store after a call is the store at the moment the call hands control
    back, by a return or by an exception: what the run time does afterwards
    to a file object that nothing refers to any more (CPython closes it, and
    passes on what it holds, as soon as the last reference is gone) is not
    part of the call.  The disk holds what [open] finds under a name; what a
    stream that is open for writing has already passed on to its file is not
    recorded. *)
Record world : Type := {
  w_disk : gmap string node;
  w_files : list file_obj;
  w_grids : list GridData
}.

(** Computations that read and change the store and may raise an
    exception; what was done before the exception stays done. *)
Definition M (A : Type) : Type := world -> world * (exn + A).

Definition ret {A} (x : A) : M A := fun w => (w, inr x).
Definition raise {A} (e : exn) : M A := fun w => (w, inl e).
Definition bind {A B} (c : M A) (k : A -> M B) : M B :=
  fun w => match c w with
           | (w', inr x) => k x w'
           | (w', inl e) => (w', inl e)
           end.
Definition lift {A} (r : exn + A) : M A := fun w => (w, r).

Declare Scope M_scope.
Delimit Scope M_scope with M.
Notation "x <- c ;; k" := (bind c (fun x => k))
  (at level 20, c at level 99, k at level 200, only parsing) : M_scope.
Notation "' p <- c ;; k" := (bind c (fun '(p) => k))
  (at level 20, p pattern, c at level 99, k at level 200, only parsing) : M_scope.
Notation "c ;; k" := (bind c (fun _ => k))
  (at level 100, k at level 200, only parsing, right associativity) : M_scope.
Open Scope M_scope.

(** [for x in l: body] *)
Fixpoint for_ {A} (l : list A) (body : A -> M unit) : M unit :=
  match l with
  | [] => ret tt
  | x :: r => body x ;; for_ r body
  end.

(** [for x in l: body], where the body updates a local variable. *)
Fixpoint for_fold {A S} (l : list A) (s : S) (body : A -> S -> M S) : M S :=
  match l with
  | [] => ret s
  | x :: r => s' <- body x s ;; for_fold r s' body
  end.

(** [range(n)] and [range(n - 1, -1, -1)] *)
Definition range (n : nat) : list nat := seq 0 n.
Definition range_down (n : nat) : list nat := rev (seq 0 n).

Definition with_text (fo : file_obj) (t : string) : file_obj :=
  {| fo_mode := fo_mode fo; fo_text := t; fo_closed := fo_closed fo |}.

Definition set_file (h : nat) (fo : file_obj) (w : world) : world :=
  {| w_disk := w_disk w; w_files := <[h := fo]> (w_files w); w_grids := w_grids w |}.

(** [open(name, 'r')] and [open(name, 'w')]: a new file object.  Opening for
    writing empties the file.  The failures are those of a name that is
    absent or is a directory; the other ways in which [open] can fail (a
    directory of the path that is missing, permissions) are not modelled,
    and the statements about a call on a path take the result of [open] as a
    hypothesis or hold whatever it is. *)
Definition open_ (name : string) (m : mode) : M nat := fun w =>
  match m, w_disk w !! name with
  | _, Some Directory => (w, inl (IsADirectoryError name))
  | ReadMode, None => (w, inl (FileNotFoundError name))
  | ReadMode, Some (RegularFile t) =>
      ({| w_disk := w_disk w;
          w_files := w_files w ++ [{| fo_mode := ReadMode; fo_text := t; fo_closed := false |}];
          w_grids := w_grids w |}, inr (length (w_files w)))
  | WriteMode, _ =>
      ({| w_disk := <[name := RegularFile EmptyString]> (w_disk w);
          w_files := w_files w ++ [{| fo_mode := WriteMode; fo_text := EmptyString; fo_closed := false |}];
          w_grids := w_grids w |}, inr (length (w_files w)))
  end.

(** [f.readline()] *)
Definition file_readline (h : nat) : M string := fun w =>
  match w_files w !! h with
  | None => (w, inl AttributeError)
  | Some fo =>
      if fo_closed fo then (w, inl ValueError_closed_file)
      else match fo_mode fo with
           | WriteMode => (w, inl UnsupportedOperation)
           | ReadMode =>
               let '(line, rest) := Str.readline (fo_text fo) in
               (set_file h (with_text fo rest) w, inr line)
           end
  end.

(** [f.write(s)]: the text goes to the file object.  When it reaches the disk
    is up to the buffering of the run time and is not modelled. *)
Definition file_write (h : nat) (s : string) : M unit := fun w =>
  match w_files w !! h with
  | None => (w, inl AttributeError)
  | Some fo =>
      if fo_closed fo then (w, inl ValueError_closed_file)
      else match fo_mode fo with
           | ReadMode => (w, inl UnsupportedOperation)
           | WriteMode =>
               (set_file h (with_text fo (fo_text fo +:+ s)) w, inr tt)
           end
  end.

(** [f.close()].  Neither [read] nor [write] calls it. *)
Definition file_close (h : nat) : M unit := fun w =>
  match w_files w !! h with
  | None => (w, inl AttributeError)
  | Some fo =>
      (set_file h {| fo_mode := fo_mode fo; fo_text := fo_text fo; fo_closed := true |} w,
       inr tt)
  end.

(** Reading a grid object of the store. *)
Definition grid_get (q : nat) : M GridData := fun w =>
  match w_grids w !! q with
  | Some g => (w, inr g)
  | None => (w, inl AttributeError)
  end.

(** [GridData(origin, delta, values, missing_data_value=m)]: a new grid
    object. *)
Definition grid_new (g : GridData) : M nat := fun w =>
  ({| w_disk := w_disk w; w_files := w_files w; w_grids := w_grids w ++ [g] |},
   inr (length (w_grids w))).

Definition cell {A} (rows : list (list A)) (i j : nat) : option A :=
  rows !! i ≫= fun r => r !! j.

(** Modelled from the spec: [q.shape], "(rows, cols)". *)
Definition grid_shape (q : nat) : M (nat * nat) :=
  g <- grid_get q ;; ret (ma_shape (data g)).

(** Modelled from the spec: [q[i, j]], "the numeric value at that cell,
    regardless of mask state". *)
Definition grid_getitem (q : nat) (i j : nat) : M float :=
  g <- grid_get q ;;
  match cell (ma_data (data g)) i j with
  | Some v => ret v
  | None => raise IndexError
  end.

(** [q.data[i, j] is ma.masked] *)
Definition grid_is_masked (q : nat) (i j : nat) : M bool :=
  g <- grid_get q ;;
  match cell (ma_mask (data g)) i j with
  | Some b => ret b
  | None => raise IndexError
  end.

Definition grid_origin (q : nat) : M (float * float) :=
  g <- grid_get q ;; ret (_origin g).

Definition grid_delta (q : nat) : M float :=
  g <- grid_get q ;; ret (_delta g).

(** ** The codec: [icepack/grid/arcinfo.py] *)

Definition nl : string := String Str.newline EmptyString.

(** The argument [filename_or_file]: a string, or an opened file. *)
Inductive file_arg : Type := Path (name : string) | File (h : nat).

Definition write (filename_or_file : file_arg) (q : nat) (missing : float) : M unit :=
  '(ny, nx) <- grid_shape q ;;
  output_file <- match filename_or_file with
                 | Path name => open_ name WriteMode
                 | File h => ret h
                 end ;;
  file_write output_file ("ncols           " +:+ Py.format_int (Z.of_nat nx) +:+ nl) ;;
  file_write output_file ("nrows           " +:+ Py.format_int (Z.of_nat ny) +:+ nl) ;;
  o <- grid_origin q ;;
  file_write output_file ("xllcorner       " +:+ Py.format_float (fst o) +:+ nl) ;;
  o <- grid_origin q ;;
  file_write output_file ("yllcorner       " +:+ Py.format_float (snd o) +:+ nl) ;;
  d <- grid_delta q ;;
  file_write output_file ("cellsize        " +:+ Py.format_float d +:+ nl) ;;
  file_write output_file ("NODATA_value    " +:+ Py.format_float missing +:+ nl) ;;
  for_ (range_down ny) (fun i =>
    for_ (range nx) (fun j =>
      masked <- grid_is_masked q i j ;;
      value <- (if negb masked then grid_getitem q i j else ret missing) ;;
      file_write output_file (Py.format_float value +:+ " ")) ;;
    file_write output_file nl).

(** The local function [rd] of [read]. *)
Definition rd (input_file : nat) : M string :=
  line <- file_readline input_file ;;
  match Str.split line !! 1%nat with
  | Some t => ret t
  | None => raise IndexError
  end.

(** [[float(q) for q in tokens]] *)
Fixpoint floats (tokens : list string) : exn + list float :=
  match tokens with
  | [] => inr []
  | t :: r =>
      match Py.float_of_string t with
      | inl e => inl e
      | inr v => match floats r with
                 | inl e => inl e
                 | inr vs => inr (v :: vs)
                 end
      end
  end.

(** The allocation of the raster and the loop over the data lines of
    [read]. *)
Definition read_data (input_file : nat) (ny nx : Z) : M ndarray :=
  data0 <- lift (np_zeros ny nx) ;;
  for_fold (range_down (Z.to_nat ny)) data0 (fun i a =>
    line <- file_readline input_file ;;
    vals <- lift (floats (Str.split line)) ;;
    lift (set_row a i vals)).

Definition read (filename_or_file : file_arg) : M nat :=
  input_file <- match filename_or_file with
                | Path name => open_ name ReadMode
                | File h => ret h
                end ;;
  t <- rd input_file ;; nx <- lift (Py.int_of_string t) ;;
  t <- rd input_file ;; ny <- lift (Py.int_of_string t) ;;
  t <- rd input_file ;; xo <- lift (Py.float_of_string t) ;;
  t <- rd input_file ;; yo <- lift (Py.float_of_string t) ;;
  t <- rd input_file ;; dx <- lift (Py.float_of_string t) ;;
  t <- rd input_file ;; missing <- lift (Py.float_of_string t) ;;
  data1 <- read_data input_file ny nx ;;
  grid_new (GridData_init (xo, yo) dx data1 (Some missing)).

(** ** Notions used in the statements *)

(** The file object [h] exists, is open and was opened for reading. *)
Definition readable (w : world) (h : nat) : bool :=
  match w_files w !! h with
  | Some fo =>
      negb (fo_closed fo) && match fo_mode fo with ReadMode => true | WriteMode => false end
  | None => false
  end.

(** The file object [h] exists, is open and was opened for writing. *)
Definition writable (w : world) (h : nat) : bool :=
  match w_files w !! h with
  | Some fo =>
      negb (fo_closed fo) && match fo_mode fo with WriteMode => true | ReadMode => false end
  | None => false
  end.

Definition text_of (w : world) (h : nat) : string :=
  match w_files w !! h with
  | Some fo => fo_text fo
  | None => EmptyString
  end.

(** The store in which the text of the file object [h] is [t]. *)
Definition set_text (h : nat) (t : string) (w : world) : world :=
  match w_files w !! h with
  | Some fo => set_file h (with_text fo t) w
  | None => w
  end.

(** The keywords of the header, in the order of the format, and the width
    of the keyword column. *)
Definition keywords : list string :=
  ["ncols"; "nrows"; "xllcorner"; "yllcorner"; "cellsize"; "NODATA_value"].

Definition keyword_width : nat := 16.

Definition header_line (keyword value : string) : string :=
  Str.ljust keyword keyword_width +:+ value +:+ nl.

(** The six header lines for a raster of [ny] rows and [nx] columns. *)
Definition header_lines (ny nx : nat) (origin : float * float) (delta missing : float)
    : list string :=
  zip_with header_line keywords
    [Py.format_int (Z.of_nat nx); Py.format_int (Z.of_nat ny);
     Py.format_float (fst origin); Py.format_float (snd origin);
     Py.format_float delta; Py.format_float missing].

(** The number that stands for the cell [(i, j)] in the file: the sentinel
    when the cell is masked, its value otherwise. *)
Definition emit (g : GridData) (missing : float) (i j : nat) : float :=
  match cell (ma_mask (data g)) i j with
  | Some true => missing
  | _ => default zero (cell (ma_data (data g)) i j)
  end.

(** A data line: every value is followed by a space. *)
Definition row_line (vals : list float) : string :=
  Str.cat (map (fun v => Py.format_float v +:+ " ") vals) +:+ nl.

(** The values of the storage row [i], west to east. *)
Definition emit_row (g : GridData) (missing : float) (i : nat) : list float :=
  map (emit g missing i) (range (snd (ma_shape (data g)))).

(** The data lines, from the storage row [ny - 1] to the storage row [0]. *)
Definition body_lines (g : GridData) (missing : float) : list string :=
  map (fun i => row_line (emit_row g missing i))
      (range_down (fst (ma_shape (data g)))).

(** The whole text of a grid. *)
Definition grid_text (g : GridData) (missing : float) : string :=
  Str.cat (header_lines (fst (ma_shape (data g))) (snd (ma_shape (data g)))
             (_origin g) (_delta g) missing)
  +:+ Str.cat (body_lines g missing).

(** What [int(rd())] and [float(rd())] give on a header line: the
    conversion of its second token. *)
Definition header_field {A} (conv : string -> exn + A) (line : string) : exn + A :=
  match Str.split line !! 1%nat with
  | Some t => conv t
  | None => inl IndexError
  end.

(** The loop over the data lines of [read], as a function of the text that
    is left in the stream: the text that is left after the loop, and the
    raster or the exception. *)
Fixpoint rows_of_text (rows : list nat) (a : ndarray) (s : string)
    : string * (exn + ndarray) :=
  match rows with
  | [] => (s, inr a)
  | i :: r =>
      let '(line, rest) := Str.readline s in
      match floats (Str.split line) with
      | inl e => (rest, inl e)
      | inr vals =>
          match set_row a i vals with
          | inl e => (rest, inl e)
          | inr a' => rows_of_text r a' rest
          end
      end
  end.

(** The first step of [write] and [read]: the file object that the call
    works on is the one it is given, or a new one that it opens. *)
Definition resolve (filename_or_file : file_arg) (m : mode) : M nat :=
  match filename_or_file with
  | Path name => open_ name m
  | File h => ret h
  end.

(** The store with one more file object, opened for reading on the text [t]
    (an [io.StringIO(t)]). *)
Definition string_io (t : string) (w : world) : world :=
  {| w_disk := w_disk w;
     w_files := w_files w ++ [{| fo_mode := ReadMode; fo_text := t; fo_closed := false |}];
     w_grids := w_grids w |}.

Definition is_ValueError (e : exn) : bool :=
  match e with
  | ValueError_int _ | ValueError_float _ | ValueError_negative_dimensions
  | ValueError_broadcast _ _ | ValueError_closed_file => true
  | _ => false
  end.

(** The closed flags of the file objects that exist in [w] are the same in
    [w'], and the file objects that are new in [w'] are open. *)
Definition closes_nothing (w w' : world) : Prop :=
  (forall (h : nat) fo, w_files w !! h = Some fo ->
     exists fo', w_files w' !! h = Some fo' /\ fo_closed fo' = fo_closed fo) /\
  (forall (h : nat) fo', w_files w' !! h = Some fo' -> w_files w !! h = None ->
     fo_closed fo' = false).

(** A computation keeps the relation [R] when every run relates the store
    before to the store after, whether it returns or raises. *)
Definition keeps {A} (R : world -> world -> Prop) (c : M A) : Prop :=
  forall w, R w (c w).1.

(** The grid objects of [w'] are those of [w], unchanged. *)
Definition same_grids (w w' : world) : Prop := w_grids w' = w_grids w.

(** The text that [format] prints for [x] is read back by [float] as [x]
    itself. *)
Definition reads_back (x : float) : Prop :=
  Py.float_of_string (Py.format_float x) = inr x.

(** What a call of [read] returns: the grid object, or the exception. *)
Definition returned (c : M nat) (w : world) : exn + GridData :=
  match c w with
  | (w', inr q) =>
      match w_grids w' !! q with
      | Some g => inr g
      | None => inl AttributeError
      end
  | (_, inl e) => inl e
  end.

(** ** Stores and texts of the examples *)

Definition empty_world : world :=
  {| w_disk := ∅; w_files := []; w_grids := [] |}.

(** A store whose only object is the grid [g]. *)
Definition grid_world (g : GridData) : world :=
  {| w_disk := ∅; w_files := []; w_grids := [g] |}.

(** A store with one file object, opened for writing and still empty (an
    [io.StringIO()]), and the grid [g]. *)
Definition writer_world (g : GridData) : world :=
  {| w_disk := ∅;
     w_files := [{| fo_mode := WriteMode; fo_text := EmptyString; fo_closed := false |}];
     w_grids := [g] |}.

(** A store whose disk holds one file. *)
Definition disk_world (name text : string) : world :=
  {| w_disk := {[ name := RegularFile text ]}; w_files := []; w_grids := [] |}.

Definition lines (l : list string) : string :=
  Str.cat (map (fun s => s +:+ nl) l).

(** The grid of the examples of [write]: two rows and two columns, the origin
    [(0, 0)], the cell size [1]; the cell [(1, 0)] holds [3.5] and is
    masked. *)
Definition example_grid : GridData :=
  {| _origin := (0%float, 0%float);
     _delta := 1%float;
     data := {| ma_shape := (2%nat, 2%nat);
                ma_data := [[1%float; 2.5%float]; [3.5%float; 4%float]];
                ma_mask := [[false; false]; [true; false]] |} |}.

(** The text of the scenario of the spec: a raster of two rows and two
    columns. *)
Definition scenario_text : string :=
  lines ["ncols 2"; "nrows 2"; "xllcorner 0.0"; "yllcorner 0.0";
         "cellsize 10.0"; "NODATA_value -1.0"; "5.0 6.0"; "1.0 2.0"].

(** A text whose second header line does not convert. *)
Definition malformed_text : string :=
  lines ["ncols 2"; "nrows two"].

(** The scenario with other words in the place of the keywords. *)
Definition permuted_text : string :=
  lines ["NODATA_value 2"; "cellsize 2"; "nrows 0.0"; "ncols 0.0";
         "anything 10.0"; "x -1.0"; "5.0 6.0"; "1.0 2.0"].

(** A header that declares three rows and no column, and two data lines. *)
Definition no_column_text : string :=
  lines ["ncols 0"; "nrows 3"; "xllcorner 0.0"; "yllcorner 0.0";
         "cellsize 10.0"; "NODATA_value -1.0"; EmptyString; EmptyString].

(** A header that declares three rows and two columns, and two data lines. *)
Definition truncated_text : string :=
  lines ["ncols 2"; "nrows 3"; "xllcorner 0.0"; "yllcorner 0.0";
         "cellsize 10.0"; "NODATA_value -1.0"; "5.0 6.0"; "1.0 2.0"].

(** A header that declares one row and two columns, and a data line of one
    token. *)
Definition one_token_text : string :=
  lines ["ncols 2"; "nrows 1"; "xllcorner 0.0"; "yllcorner 0.0";
         "cellsize 10.0"; "NODATA_value -1.0"; "5.0"].

(** A header that declares two rows and two columns, and a second data line
    of three tokens. *)
Definition three_token_text : string :=
  lines ["ncols 2"; "nrows 2"; "xllcorner 0.0"; "yllcorner 0.0";
         "cellsize 10.0"; "NODATA_value -1.0"; "5.0 6.0"; "1.0 2.0 3.0"].

(** A raster of three rows and one column. *)
Definition three_rows_text : string :=
  lines ["ncols 1"; "nrows 3"; "xllcorner 0.0"; "yllcorner 0.0";
         "cellsize 10.0"; "NODATA_value -1.0"; "7.0"; "8.0"; "9.0"].

(** A grid of one row: the cell [(0, 0)] holds [5.0] and is not masked, the
    cell [(0, 1)] holds [7.0] and is masked. *)
Definition small_grid : GridData :=
  {| _origin := (0%float, 0%float);
     _delta := 1%float;
     data := {| ma_shape := (1%nat, 2%nat);
                ma_data := [[5%float; 7%float]];
                ma_mask := [[false; true]] |} |}.

(** The scenario of the spec with other white space: spaces and tabs before,
    between and after the tokens, and lines that end with a carriage return
    and a line feed. *)
Definition spaced_text : string :=
  lines ["  ncols   2"; "nrows" +:+ String "009"%char "2" +:+ String "013"%char EmptyString;
         "xllcorner 0.0  "; "yllcorner        0.0"; "cellsize 10.0";
         "NODATA_value -1.0"; " 5.0   6.0" +:+ String "013"%char EmptyString;
         "1.0" +:+ String "009"%char "2.0"].


(** A store with one file object, opened for writing and still empty, and
    two grids. *)
Definition two_grids_world : world :=
  {| w_disk := ∅;
     w_files := [{| fo_mode := WriteMode; fo_text := EmptyString; fo_closed := false |}];
     w_grids := [example_grid; small_grid] |}.

(** A header that declares three rows and no column, and nothing after it. *)
Definition header_only_text : string :=
  lines ["ncols 0"; "nrows 3"; "xllcorner 0.0"; "yllcorner 0.0";
         "cellsize 10.0"; "NODATA_value -1.0"].

(** ** Notions used in the further properties *)

(** The conversion that [read] applies to the header line at the position
    [k]: [int] for the first two lines and [float] for the four others.  Only
    the exception is kept. *)
Definition header_check (k : nat) (line : string) : exn + unit :=
  if (k <? 2)%nat then
    match header_field Py.int_of_string line with
    | inl e => inl e
    | inr _ => inr tt
    end
  else
    match header_field Py.float_of_string line with
    | inl e => inl e
    | inr _ => inr tt
    end.

(** The header lines [ls], which stand at the positions [k], [k + 1], ...,
    all convert. *)
Fixpoint header_prefix_ok (k : nat) (ls : list string) : bool :=
  match ls with
  | [] => true
  | l :: r =>
      match header_check k l with
      | inr _ => header_prefix_ok (S k) r
      | inl _ => false
      end
  end.

(** The row that [a[i, :] = vals] stores in a raster of [n] columns, when it
    stores one. *)
Definition row_of (n : nat) (vals : list float) : option (list float) :=
  if (length vals =? n)%nat then Some vals
  else match vals with
       | [v] => Some (replicate n v)
       | _ => None
       end.

(** What the body of the loop of [read] makes of a data line for a raster of
    [n] columns: the row that it stores, or the exception of the conversions
    or of the assignment. *)
Definition data_row (n : nat) (line : string) : exn + list float :=
  match floats (Str.split line) with
  | inl e => inl e
  | inr vals =>
      match row_of n vals with
      | Some r => inr r
      | None => inl (ValueError_broadcast (length vals) n)
      end
  end.

(** The tokens of a text, line by line. *)
Definition token_lines (s : string) : list (list string) :=
  map Str.split (fst (Str.readlines (Str.count_lines s) s)).

(** The file objects [h] of [w] and [h'] of [w'] are open for reading and
    what is left to read in them has the same tokens, line by line. *)
Definition same_tokens (w : world) (h : nat) (w' : world) (h' : nat) : Prop :=
  readable w h = true /\ readable w' h' = true /\
  token_lines (text_of w h) = token_lines (text_of w' h').

(** What a run shows of its result: the exception, or [obs] of the store and
    of the value. *)
Definition outcome {A B} (obs : world -> A -> B) (r : world * (exn + A)) : exn + B :=
  match r.2 with
  | inl e => inl e
  | inr x => inr (obs r.1 x)
  end.

(** Two computations, one on the file object [h] and one on [h'], that show
    the same whenever the two file objects hold the same tokens, and leave
    them holding the same tokens. *)
Definition alike {A B} (h h' : nat) (obs : world -> A -> B) (c c' : M A) : Prop :=
  forall w w', same_tokens w h w' h' ->
    outcome obs (c w) = outcome obs (c' w') /\ same_tokens (c w).1 h (c' w').1 h'.

(** A run of [c] from [w] that returns has appended one grid to the grids of
    the store and returns its index; a run that raises has left the grids as
    they were. *)
Definition appends_one_grid (c : M nat) (w : world) : Prop :=
  match (c w).2 with
  | inl _ => w_grids (c w).1 = w_grids w
  | inr q => q = length (w_grids w) /\ exists g, w_grids (c w).1 = w_grids w ++ [g]
  end.

(** The grid that [read] makes of the text that [write] prints for the grid
    [g] with the sentinel [missing]: the numbers are those of the text, and
    the mask is the one of the constructor. *)
Definition reread (g : GridData) (missing : float) : GridData :=
  GridData_init (_origin g) (_delta g)
    {| nd_shape := ma_shape (data g);
       nd_rows := map (emit_row g missing) (range (fst (ma_shape (data g)))) |}
    (Some missing).

(** The numbers that [write] prints for the grid [g] with the sentinel
    [missing]. *)
Definition printed (g : GridData) (missing : float) : list float :=
  fst (_origin g) :: snd (_origin g) :: _delta g :: missing ::
  concat (map (emit_row g missing) (range (fst (ma_shape (data g))))).

(** A decimal digit, and a string that begins with one. *)
Definition is_digit (c : ascii) : bool :=
  (48 <=? nat_of_ascii c)%nat && (nat_of_ascii c <=? 57)%nat.

Definition starts_with_digit (s : string) : bool :=
  match s with
  | String c _ => is_digit c
  | EmptyString => false
  end.

(** The number that [float] reads from the text that [format] prints for
    [x]. *)
Definition reparse (x : float) : float :=
  match Py.float_of_string (Py.format_float x) with
  | inr y => y
  | inl _ => x
  end.

(** The grid that [read] makes of the text that [write] prints for the grid
    [g] with the sentinel [missing], whatever the numbers are. *)
Definition reread_any (g : GridData) (missing : float) : GridData :=
  GridData_init (reparse (fst (_origin g)), reparse (snd (_origin g)))
    (reparse (_delta g))
    {| nd_shape := ma_shape (data g);
       nd_rows := map (fun i => map reparse (emit_row g missing i))
                      (range (fst (ma_shape (data g)))) |}
    (Some (reparse missing)).



(** * Properties *)

(** ** Strings *)

Module StrFacts.
#[local] Arguments String.append !_ _ / : simpl nomatch.
Import Str.

Lemma app_nil_r (s : string) : s +:+ EmptyString = s.
Proof. induction s as [|c s IH]; simpl; [done | by rewrite IH]. Qed.

Lemma app_assoc (a b c : string) : (a +:+ b) +:+ c = a +:+ (b +:+ c).
Proof. induction a as [|x a IH]; simpl; [done | by rewrite IH]. Qed.

Lemma length_app (a b : string) :
  String.length (a +:+ b) = (String.length a + String.length b)%nat.
Proof. induction a as [|x a IH]; simpl; [done | by rewrite IH]. Qed.

Lemma forallb_app p (a b : string) :
  forallb p (a +:+ b) = forallb p a && forallb p b.
Proof.
  induction a as [|x a IH]; simpl; [done |].
  by rewrite IH, andb_assoc.
Qed.

Lemma forallb_impl (p q : ascii -> bool) (s : string) :
  (forall c, p c = true -> q c = true) ->
  forallb p s = true -> forallb q s = true.
Proof.
  intros Hpq. induction s as [|c s IH]; simpl; [done |].
  intros [Hc Hs]%andb_true_iff. rewrite (Hpq _ Hc). simpl. auto.
Qed.

Lemma forallb_repeat p c n : p c = true -> forallb p (repeat c n) = true.
Proof. intros Hc. induction n as [|n IH]; simpl; [done | by rewrite Hc, IH]. Qed.

Lemma forallb_substring p n m (s : string) :
  forallb p s = true -> forallb p (substring n m s) = true.
Proof.
  revert n m. induction s as [|c s IH]; intros n m; simpl.
  - by destruct n, m.
  - intros [Hc Hs]%andb_true_iff. destruct n as [|n].
    + destruct m as [|m]; simpl; [done |]. rewrite Hc. simpl. by apply IH.
    + by apply IH.
Qed.

Lemma is_token_spec (s : string) :
  is_token s = true <-> s <> EmptyString /\ forallb nonspace s = true.
Proof.
  destruct s as [|c s]; unfold is_token.
  - split; [done | by intros [? _]].
  - split; [by intros H; split | by intros [_ H]].
Qed.

Lemma is_token_app (a b : string) :
  is_token a = true -> forallb nonspace b = true -> is_token (a +:+ b) = true.
Proof.
  intros [Ha1 Ha2]%is_token_spec Hb. apply is_token_spec. split.
  - by destruct a.
  - by rewrite forallb_app, Ha2, Hb.
Qed.

Lemma is_token_String c (s : string) :
  nonspace c = true -> forallb nonspace s = true -> is_token (String c s) = true.
Proof. intros Hc Hs. simpl. by rewrite Hc, Hs. Qed.

(** [split] on a token followed by white space. *)
Lemma split_token_space (t : string) c (r : string) :
  is_token t = true -> is_space c = true ->
  split (t +:+ String c r) = t :: split r.
Proof.
  intros [Hne Hall]%is_token_spec Hc.
  induction t as [|a t IH]; [done |].
  simpl in Hall. apply andb_true_iff in Hall as [Ha Ht].
  unfold nonspace in Ha. apply negb_true_iff in Ha.
  destruct t as [|b t].
  - simpl. by rewrite Ha, Hc.
  - assert (Hb : is_space b = false).
    { simpl in Ht. apply andb_true_iff in Ht as [Hb _].
      by apply negb_true_iff in Hb. }
    specialize (IH ltac:(done) Ht).
    change (String a (String b t) +:+ String c r)
      with (String a (String b t +:+ String c r)).
    remember (String b t +:+ String c r) as u eqn:Hu.
    simpl. rewrite Ha. rewrite Hu at 1. simpl. rewrite Hb.
    by rewrite IH.
Qed.

Lemma split_token (t : string) : is_token t = true -> split t = [t].
Proof.
  intros [Hne Hall]%is_token_spec.
  induction t as [|a t IH]; [done |].
  simpl in Hall. apply andb_true_iff in Hall as [Ha Ht].
  unfold nonspace in Ha. apply negb_true_iff in Ha.
  destruct t as [|b t].
  - simpl. by rewrite Ha.
  - assert (Hb : is_space b = false).
    { simpl in Ht. apply andb_true_iff in Ht as [Hb _].
      by apply negb_true_iff in Hb. }
    specialize (IH ltac:(done) Ht).
    remember (String b t) as u eqn:Hu.
    simpl. rewrite Ha. rewrite Hu at 1. rewrite Hb.
    by rewrite IH.
Qed.

Lemma split_space c (r : string) : is_space c = true -> split (String c r) = split r.
Proof. intros Hc. simpl. by rewrite Hc. Qed.

Lemma split_spaces (a r : string) :
  forallb is_space a = true -> split (a +:+ r) = split r.
Proof.
  induction a as [|c a IH]; simpl; [done |].
  intros [Hc Ha]%andb_true_iff. rewrite Hc. by apply IH.
Qed.

Lemma split_nl : split nl = [].
Proof. done. Qed.

Lemma lstrip_token (t : string) : forallb nonspace t = true -> lstrip t = t.
Proof.
  destruct t as [|c t]; simpl; [done |].
  intros [Hc _]%andb_true_iff. unfold nonspace in Hc.
  apply negb_true_iff in Hc. by rewrite Hc.
Qed.

Lemma rstrip_token (t : string) : forallb nonspace t = true -> rstrip t = t.
Proof.
  induction t as [|c t IH]; simpl; [done |].
  intros [Hc Ht]%andb_true_iff. rewrite (IH Ht).
  unfold nonspace in Hc. apply negb_true_iff in Hc. rewrite Hc.
  by destruct t.
Qed.

Lemma strip_token (t : string) : forallb nonspace t = true -> strip t = t.
Proof. intros H. unfold strip. by rewrite lstrip_token, rstrip_token. Qed.

(** [readline] on a complete line followed by anything. *)
Lemma readline_line (l r : string) :
  is_line l = true -> readline (l +:+ r) = (l, r).
Proof.
  induction l as [|c l IH]; simpl; [done |].
  destruct (Ascii.eqb c newline) eqn:Hc.
  - by destruct l.
  - intros Hl. by rewrite (IH Hl).
Qed.

Lemma readlines_lines (ls : list string) (r : string) :
  Forall (fun l => is_line l = true) ls ->
  readlines (length ls) (cat ls +:+ r) = (ls, r).
Proof.
  induction 1 as [|l ls Hl _ IH]; simpl; [done |].
  by rewrite app_assoc, (readline_line _ _ Hl), IH.
Qed.

Lemma is_line_nl (b : string) : no_newline b = true -> is_line (b +:+ nl) = true.
Proof.
  induction b as [|c b IH]; simpl; [done |].
  intros [Hc Hb]%andb_true_iff. apply negb_true_iff in Hc. rewrite Hc. by apply IH.
Qed.

Lemma nonspace_no_newline (s : string) :
  forallb nonspace s = true -> no_newline s = true.
Proof.
  apply forallb_impl. intros c Hc.
  destruct (Ascii.eqb c newline) eqn:E; [|done].
  apply Ascii.eqb_eq in E. by subst c.
Qed.

End StrFacts.

(** ** Numbers and their text *)

Module PyFacts.
Import Str StrFacts Py.
#[local] Arguments String.append !_ _ / : simpl nomatch.

Lemma string_of_uint_nonspace (d : uint) :
  forallb nonspace (NilEmpty.string_of_uint d) = true.
Proof. induction d; simpl; auto. Qed.

Lemma string_of_uint_nonempty (d : uint) :
  d <> Nil -> NilEmpty.string_of_uint d <> EmptyString.
Proof. by destruct d. Qed.

Lemma format_int_nonspace (n : Z) : forallb nonspace (format_int n) = true.
Proof.
  unfold format_int. destruct n as [|p|p]; simpl; [done | |];
    apply string_of_uint_nonspace.
Qed.

Lemma format_int_token (n : Z) : is_token (format_int n) = true.
Proof.
  apply is_token_spec. split; [| apply format_int_nonspace].
  unfold format_int. destruct n as [|p|p]; simpl; [done | | done].
  apply string_of_uint_nonempty, DecimalPos.Unsigned.to_uint_nonnil.
Qed.

Lemma digits_go_string_of_uint (d : uint) :
  digits_go true (NilEmpty.string_of_uint d) = Some d /\
  (d <> Nil -> digits_go false (NilEmpty.string_of_uint d) = Some d).
Proof.
  induction d as [|d [IH _]|d [IH _]|d [IH _]|d [IH _]|d [IH _]
                  |d [IH _]|d [IH _]|d [IH _]|d [IH _]|d [IH _]];
    simpl; [by split | ..]; rewrite IH; by split.
Qed.

Lemma signed_digits (d : uint) :
  signed (NilEmpty.string_of_uint d) = (false, NilEmpty.string_of_uint d).
Proof. by destruct d. Qed.

(** [int] reads back what [format] prints. *)
Lemma int_of_format (n : Z) : int_of_string (format_int n) = inr n.
Proof.
  unfold int_of_string.
  rewrite (strip_token _ (format_int_nonspace n)).
  unfold format_int. destruct n as [|p|p]; simpl; [done | |].
  - rewrite signed_digits. unfold digitpart.
    destruct (digits_go_string_of_uint (Pos.to_uint p)) as [_ ->];
      [| apply DecimalPos.Unsigned.to_uint_nonnil].
    unfold Z.of_uint. by rewrite DecimalPos.Unsigned.of_to.
  - unfold digitpart.
    destruct (digits_go_string_of_uint (Pos.to_uint p)) as [_ ->];
      [| apply DecimalPos.Unsigned.to_uint_nonnil].
    unfold Z.of_uint. by rewrite DecimalPos.Unsigned.of_to.
Qed.

Lemma rstrip_zeros_nonspace (s : string) :
  forallb nonspace s = true -> forallb nonspace (rstrip_zeros s) = true.
Proof.
  induction s as [|c s IH]; simpl; [done |].
  intros [Hc Hs]%andb_true_iff. specialize (IH Hs).
  destruct (rstrip_zeros s) as [|c' s'].
  - destruct (Ascii.eqb c "0"); simpl; [done | by rewrite Hc].
  - simpl in *. by rewrite Hc, IH.
Qed.

Lemma format_exponent_nonspace (e : Z) :
  forallb nonspace (format_exponent e) = true.
Proof.
  unfold format_exponent.
  destruct (e <? 0), (Z.abs e <? 10); simpl;
    by rewrite format_int_nonspace.
Qed.

Lemma layout_token (digits : string) (decpt : Z) :
  forallb nonspace digits = true -> is_token (layout digits decpt) = true.
Proof.
  intros Hd. unfold layout, zeros.
  pose proof (format_exponent_nonspace (decpt - 1)) as He.
  destruct ((decpt <=? -4) || (16 <? decpt)).
  - destruct digits as [|d [|d' r]]; cbn [forallb] in Hd.
    + apply is_token_app; done.
    + apply andb_true_iff in Hd as [Hd _].
      apply is_token_String; [done |]. by rewrite forallb_app, He.
    + apply andb_true_iff in Hd as [Hd Hr].
      apply is_token_String; [done |].
      rewrite !forallb_app, He. cbn [forallb]. by rewrite Hr.
  - destruct (decpt <=? 0).
    + apply is_token_app; [done |].
      by rewrite forallb_app, forallb_repeat, Hd.
    + destruct (_ <=? decpt).
      * apply is_token_spec. split.
        -- destruct digits; [| done].
           by destruct (Str.repeat _ _).
        -- by rewrite !forallb_app, Hd, forallb_repeat.
      * apply is_token_spec. split.
        -- by destruct (substring 0 _ _).
        -- rewrite !forallb_app, !forallb_substring by done. done.
Qed.

Lemma repr_finite_token (x : float) (m : positive) (e : Z) :
  is_token (repr_finite x m e) = true.
Proof.
  unfold repr_finite.
  destruct (if 0 <=? e then _ else _) as [N D].
  destruct (shortest x N D 1 17) as [c k].
  apply layout_token, rstrip_zeros_nonspace, format_int_nonspace.
Qed.

(** What [format] prints for a float is one token. *)
Lemma format_float_token (x : float) : is_token (format_float x) = true.
Proof.
  unfold format_float.
  destruct (Prim2SF x) as [[]|[]| |[] m e]; try done.
  - apply is_token_String; [done |].
    by apply is_token_spec, repr_finite_token.
  - apply repr_finite_token.
Qed.

Lemma format_float_nonspace (x : float) :
  forallb nonspace (format_float x) = true.
Proof. by apply is_token_spec, format_float_token. Qed.

End PyFacts.

(** ** The store *)

Module StoreFacts.
#[local] Arguments String.append !_ _ / : simpl nomatch.

Lemma bind_inr {A B} (c : M A) (k : A -> M B) w w' x :
  c w = (w', inr x) -> bind c k w = k x w'.
Proof. intros H. unfold bind. by rewrite H. Qed.

Lemma bind_inl {A B} (c : M A) (k : A -> M B) w w' e :
  c w = (w', inl e) -> bind c k w = (w', inl e).
Proof. intros H. unfold bind. by rewrite H. Qed.

Lemma readable_spec w h :
  readable w h = true <->
  exists fo, w_files w !! h = Some fo /\ fo_closed fo = false /\ fo_mode fo = ReadMode.
Proof.
  unfold readable. destruct (w_files w !! h) as [fo|]; split.
  - destruct fo as [[] t []]; simpl; intros; try done. by eexists.
  - intros (fo' & [= <-] & Hc & Hm). by rewrite Hc, Hm.
  - done.
  - by intros (? & ? & _).
Qed.

Lemma writable_spec w h :
  writable w h = true <->
  exists fo, w_files w !! h = Some fo /\ fo_closed fo = false /\ fo_mode fo = WriteMode.
Proof.
  unfold writable. destruct (w_files w !! h) as [fo|]; split.
  - destruct fo as [[] t []]; simpl; intros; try done. by eexists.
  - intros (fo' & [= <-] & Hc & Hm). by rewrite Hc, Hm.
  - done.
  - by intros (? & ? & _).
Qed.

Lemma lookup_set_file h fo w fo0 :
  w_files w !! h = Some fo0 -> w_files (set_file h fo w) !! h = Some fo.
Proof.
  intros H. simpl. apply list_lookup_insert_eq. by eapply lookup_lt_Some.
Qed.

Lemma set_file_set_file h fo fo' w :
  set_file h fo (set_file h fo' w) = set_file h fo w.
Proof. unfold set_file. simpl. by rewrite list_insert_insert_eq. Qed.

Lemma text_of_set_text h t w :
  is_Some (w_files w !! h) -> text_of (set_text h t w) h = t.
Proof.
  intros [fo H]. unfold text_of, set_text. rewrite H.
  by rewrite (lookup_set_file _ _ _ _ H).
Qed.

Lemma set_text_set_text h t t' w :
  set_text h t (set_text h t' w) = set_text h t w.
Proof.
  unfold set_text. destruct (w_files w !! h) as [fo|] eqn:H.
  - rewrite (lookup_set_file _ _ _ _ H). by rewrite set_file_set_file.
  - by rewrite H.
Qed.

Lemma set_text_id h w : set_text h (text_of w h) w = w.
Proof.
  unfold set_text, text_of. destruct (w_files w !! h) as [fo|] eqn:H; [| done].
  destruct w as [d fs gs]. unfold set_file. simpl in *. f_equal.
  apply list_insert_id. by destruct fo.
Qed.

Lemma readable_set_text h t w : readable (set_text h t w) h = readable w h.
Proof.
  unfold readable, set_text. destruct (w_files w !! h) as [fo|] eqn:H.
  - by rewrite (lookup_set_file _ _ _ _ H).
  - by rewrite H.
Qed.

Lemma writable_set_text h t w : writable (set_text h t w) h = writable w h.
Proof.
  unfold writable, set_text. destruct (w_files w !! h) as [fo|] eqn:H.
  - by rewrite (lookup_set_file _ _ _ _ H).
  - by rewrite H.
Qed.

Lemma w_grids_set_text h t w : w_grids (set_text h t w) = w_grids w.
Proof. unfold set_text. by destruct (w_files w !! h). Qed.

Lemma w_disk_set_text h t w : w_disk (set_text h t w) = w_disk w.
Proof. unfold set_text. by destruct (w_files w !! h). Qed.

Lemma length_files_set_text h t w :
  length (w_files (set_text h t w)) = length (w_files w).
Proof.
  unfold set_text. destruct (w_files w !! h); [| done].
  simpl. by rewrite length_insert.
Qed.

Lemma readable_is_Some w h : readable w h = true -> is_Some (w_files w !! h).
Proof. intros (fo & H & _)%readable_spec. by exists fo. Qed.

Lemma writable_is_Some w h : writable w h = true -> is_Some (w_files w !! h).
Proof. intros (fo & H & _)%writable_spec. by exists fo. Qed.

(** [readline] on a readable file object. *)
Lemma file_readline_run w h :
  readable w h = true ->
  file_readline h w =
    (set_text h (snd (Str.readline (text_of w h))) w,
     inr (fst (Str.readline (text_of w h)))).
Proof.
  intros (fo & H & Hc & Hm)%readable_spec.
  unfold file_readline, set_text, text_of. rewrite H, Hc, Hm.
  by destruct (Str.readline (fo_text fo)).
Qed.

(** [write] on a writable file object. *)
Lemma file_write_run w h s :
  writable w h = true ->
  file_write h s w = (set_text h (text_of w h +:+ s) w, inr tt).
Proof.
  intros (fo & H & Hc & Hm)%writable_spec.
  unfold file_write, set_text, text_of. by rewrite H, Hc, Hm.
Qed.

Lemma grid_get_run w q g : w_grids w !! q = Some g -> grid_get q w = (w, inr g).
Proof. intros H. unfold grid_get. by rewrite H. Qed.

End StoreFacts.

(** ** What [write] writes *)

Module WriteFacts.
Import StrFacts PyFacts StoreFacts.
#[local] Arguments String.append !_ _ / : simpl nomatch.

Lemma file_write_at w h t s :
  writable w h = true ->
  file_write h s (set_text h t w) = (set_text h (t +:+ s) w, inr tt).
Proof.
  intros Hw. rewrite file_write_run by by rewrite writable_set_text.
  rewrite text_of_set_text by by apply writable_is_Some.
  by rewrite set_text_set_text.
Qed.

Lemma grid_get_at w h t q g :
  w_grids w !! q = Some g -> grid_get q (set_text h t w) = (set_text h t w, inr g).
Proof. intros H. apply grid_get_run. by rewrite w_grids_set_text. Qed.

Lemma wf_cell (g : GridData) (i j : nat) :
  wf_grid g ->
  (i < fst (ma_shape (data g)))%nat -> (j < snd (ma_shape (data g)))%nat ->
  exists b v, cell (ma_mask (data g)) i j = Some b /\
              cell (ma_data (data g)) i j = Some v.
Proof.
  intros [[Hd1 Hd2] [Hm1 Hm2]] Hi Hj. unfold cell.
  destruct (lookup_lt_is_Some_2 (ma_mask (data g)) i) as [mr Hmr]; [lia |].
  destruct (lookup_lt_is_Some_2 (ma_data (data g)) i) as [dr Hdr]; [lia |].
  rewrite Hmr, Hdr. simpl.
  rewrite Forall_forall in Hd2. rewrite Forall_forall in Hm2.
  pose proof (Hm2 _ (list_elem_of_lookup_2 _ _ _ Hmr)) as Hlm.
  pose proof (Hd2 _ (list_elem_of_lookup_2 _ _ _ Hdr)) as Hld.
  destruct (lookup_lt_is_Some_2 mr j) as [b Hb]; [lia |].
  destruct (lookup_lt_is_Some_2 dr j) as [v Hv]; [lia |].
  by exists b, v.
Qed.

Section Write.
Variables (h q : nat) (g : GridData) (missing : float).
Variable w : world.
Hypothesis Hw : writable w h = true.
Hypothesis Hq : w_grids w !! q = Some g.
Hypothesis Hwf : wf_grid g.

Variables ny nx : nat.
Hypothesis Hshape : ma_shape (data g) = (ny, nx).

(** One cell. *)
Lemma write_cell_at (t : string) (i j : nat) :
  (i < ny)%nat -> (j < nx)%nat ->
  (masked <- grid_is_masked q i j ;;
   value <- (if negb masked then grid_getitem q i j else ret missing) ;;
   file_write h (Py.format_float value +:+ " ")) (set_text h t w)
  = (set_text h (t +:+ (Py.format_float (emit g missing i j) +:+ " ")) w, inr tt).
Proof.
  intros Hi Hj.
  destruct (wf_cell g i j Hwf) as (b & v & Hb & Hv);
    [by rewrite Hshape | by rewrite Hshape |].
  unfold grid_is_masked, grid_getitem, emit.
  rewrite Hb, Hv.
  erewrite bind_inr;
    [| erewrite bind_inr by (by apply grid_get_at); rewrite Hb; reflexivity].
  destruct b; simpl negb; cbv iota.
  - erewrite bind_inr by reflexivity. by apply file_write_at.
  - erewrite bind_inr;
      [| erewrite bind_inr by (by apply grid_get_at); rewrite Hv; reflexivity].
    by apply file_write_at.
Qed.

(** The cells of one row. *)
Lemma write_cells_at (i : nat) (js : list nat) (t : string) :
  (i < ny)%nat -> Forall (fun j => (j < nx)%nat) js ->
  for_ js (fun j =>
    masked <- grid_is_masked q i j ;;
    value <- (if negb masked then grid_getitem q i j else ret missing) ;;
    file_write h (Py.format_float value +:+ " ")) (set_text h t w)
  = (set_text h (t +:+ Str.cat (map (fun j => Py.format_float (emit g missing i j) +:+ " ") js)) w,
     inr tt).
Proof.
  intros Hi Hjs. revert t.
  induction Hjs as [|j js Hj _ IH]; intros t; simpl.
  - by rewrite app_nil_r.
  - erewrite bind_inr by (by apply write_cell_at).
    rewrite IH. by rewrite !app_assoc.
Qed.

Lemma range_lt (n : nat) : Forall (fun j => (j < n)%nat) (range n).
Proof. apply Forall_forall. intros j Hj%elem_of_seq. lia. Qed.

Lemma range_down_lt (n : nat) : Forall (fun j => (j < n)%nat) (range_down n).
Proof.
  apply Forall_forall. intros j Hj. unfold range_down in Hj.
  apply list_elem_of_In, in_rev, list_elem_of_In, elem_of_seq in Hj. lia.
Qed.

(** One row and its line feed. *)
Lemma write_row_at (i : nat) (t : string) :
  (i < ny)%nat ->
  (for_ (range nx) (fun j =>
     masked <- grid_is_masked q i j ;;
     value <- (if negb masked then grid_getitem q i j else ret missing) ;;
     file_write h (Py.format_float value +:+ " ")) ;;
   file_write h nl) (set_text h t w)
  = (set_text h (t +:+ row_line (emit_row g missing i)) w, inr tt).
Proof.
  intros Hi.
  erewrite bind_inr by (apply write_cells_at; [done | apply range_lt]).
  rewrite file_write_at by done.
  unfold row_line, emit_row. rewrite Hshape. simpl snd.
  by rewrite map_map, !app_assoc.
Qed.

(** The rows. *)
Lemma write_rows_at (rows : list nat) (t : string) :
  Forall (fun i => (i < ny)%nat) rows ->
  for_ rows (fun i =>
    for_ (range nx) (fun j =>
      masked <- grid_is_masked q i j ;;
      value <- (if negb masked then grid_getitem q i j else ret missing) ;;
      file_write h (Py.format_float value +:+ " ")) ;;
    file_write h nl) (set_text h t w)
  = (set_text h (t +:+ Str.cat (map (fun i => row_line (emit_row g missing i)) rows)) w,
     inr tt).
Proof.
  intros Hrows. revert t.
  induction Hrows as [|i rows Hi _ IH]; intros t; simpl.
  - by rewrite app_nil_r.
  - erewrite bind_inr by (by apply write_row_at).
    rewrite IH. by rewrite !app_assoc.
Qed.

(** [write] into an opened file appends the text of the grid. *)
Lemma write_file_at (t : string) :
  write (File h) q missing (set_text h t w)
  = (set_text h (t +:+ grid_text g missing) w, inr tt).
Proof.
  unfold write.
  erewrite bind_inr;
    [| unfold grid_shape; erewrite bind_inr by (by apply grid_get_at); reflexivity].
  rewrite Hshape.
  erewrite bind_inr by reflexivity.
  erewrite bind_inr by (by apply file_write_at).
  erewrite bind_inr by (by apply file_write_at).
  erewrite bind_inr;
    [| unfold grid_origin; erewrite bind_inr by (by apply grid_get_at); reflexivity].
  erewrite bind_inr by (by apply file_write_at).
  erewrite bind_inr;
    [| unfold grid_origin; erewrite bind_inr by (by apply grid_get_at); reflexivity].
  erewrite bind_inr by (by apply file_write_at).
  erewrite bind_inr;
    [| unfold grid_delta; erewrite bind_inr by (by apply grid_get_at); reflexivity].
  erewrite bind_inr by (by apply file_write_at).
  erewrite bind_inr by (by apply file_write_at).
  rewrite write_rows_at by apply range_down_lt.
  unfold grid_text, body_lines. rewrite Hshape. simpl fst. simpl snd.
  f_equal. f_equal.
  unfold header_lines, header_line, keywords. cbn [zip_with Str.cat].
  rewrite !app_assoc. reflexivity.
Qed.

End Write.

Lemma write_file_run h q g missing w :
  writable w h = true -> w_grids w !! q = Some g -> wf_grid g ->
  write (File h) q missing w
  = (set_text h (text_of w h +:+ grid_text g missing) w, inr tt).
Proof.
  intros Hw Hq Hwf.
  rewrite <- (set_text_id h w) at 1.
  by apply (write_file_at h q g missing w Hw Hq Hwf _ _ (surjective_pairing _)).
Qed.

End WriteFacts.

(** ** What [read] reads *)

Module ReadFacts.
Import StrFacts PyFacts StoreFacts.
#[local] Arguments String.append !_ _ / : simpl nomatch.

Lemma file_readline_at w h t :
  readable w h = true ->
  file_readline h (set_text h t w) =
    (set_text h (snd (Str.readline t)) w, inr (fst (Str.readline t))).
Proof.
  intros Hr. rewrite file_readline_run by by rewrite readable_set_text.
  rewrite text_of_set_text by by apply readable_is_Some.
  by rewrite set_text_set_text.
Qed.

Lemma rd_at w h (l r : string) :
  readable w h = true -> Str.is_line l = true ->
  rd h (set_text h (l +:+ r) w) =
    (set_text h r w,
     match Str.split l !! 1%nat with Some t => inr t | None => inl IndexError end).
Proof.
  intros Hr Hl. unfold rd.
  erewrite bind_inr by (by apply file_readline_at).
  rewrite (readline_line _ _ Hl). cbn [fst snd].
  by destruct (Str.split l !! 1%nat).
Qed.

(** One header field. *)
Lemma field_at {A B} (conv : string -> exn + A) (k : A -> M B) w h (l r : string) v :
  readable w h = true -> Str.is_line l = true ->
  header_field conv l = inr v ->
  (t <- rd h ;; x <- lift (conv t) ;; k x) (set_text h (l +:+ r) w) = k v (set_text h r w).
Proof.
  intros Hr Hl Hv. unfold header_field in Hv.
  destruct (Str.split l !! 1%nat) as [t|] eqn:Ht; [| done].
  erewrite bind_inr by (rewrite rd_at by done; rewrite Ht; reflexivity).
  by erewrite bind_inr by (unfold lift; rewrite Hv; reflexivity).
Qed.

(** The loop over the data lines. *)
Lemma read_rows_at w h (rows : list nat) (a : ndarray) (t : string) :
  readable w h = true ->
  for_fold rows a (fun i a =>
    line <- file_readline h ;;
    vals <- lift (floats (Str.split line)) ;;
    lift (set_row a i vals)) (set_text h t w)
  = (set_text h (fst (rows_of_text rows a t)) w, snd (rows_of_text rows a t)).
Proof.
  intros Hr. revert a t. induction rows as [|i rows IH]; intros a t; [done |].
  cbn [for_fold rows_of_text].
  destruct (Str.readline t) as [line rest] eqn:Hline.
  assert (Hstep : file_readline h (set_text h t w) = (set_text h rest w, inr line)).
  { rewrite file_readline_at by done. by rewrite Hline. }
  destruct (floats (Str.split line)) as [e|vals] eqn:Hvals.
  { erewrite bind_inl; [done |].
    erewrite bind_inr by exact Hstep.
    erewrite bind_inl; [done |]. unfold lift. rewrite Hvals. reflexivity. }
  destruct (set_row a i vals) as [e|a'] eqn:Hset.
  { erewrite bind_inl; [done |].
    erewrite bind_inr by exact Hstep.
    erewrite bind_inr by (unfold lift; rewrite Hvals; reflexivity).
    unfold lift. rewrite Hset. reflexivity. }
  erewrite bind_inr.
  2:{ erewrite bind_inr by exact Hstep.
      erewrite bind_inr by (unfold lift; rewrite Hvals; reflexivity).
      unfold lift. rewrite Hset. reflexivity. }
  apply IH.
Qed.

Lemma read_data_at w h (ny nx : Z) (t : string) :
  readable w h = true ->
  read_data h ny nx (set_text h t w) =
    match np_zeros ny nx with
    | inl e => (set_text h t w, inl e)
    | inr a0 =>
        (set_text h (fst (rows_of_text (range_down (Z.to_nat ny)) a0 t)) w,
         snd (rows_of_text (range_down (Z.to_nat ny)) a0 t))
    end.
Proof.
  intros Hr. unfold read_data.
  destruct (np_zeros ny nx) as [e|a0] eqn:Hz.
  - by erewrite bind_inl by reflexivity.
  - erewrite bind_inr by reflexivity. by apply read_rows_at.
Qed.

(** [read] on an opened file whose six header lines are complete and
    convert: the rest of the work is done on the text after them. *)
Lemma read_file_at w h (l1 l2 l3 l4 l5 l6 body : string) nx ny xo yo dx missing :
  readable w h = true ->
  Forall (fun l => Str.is_line l = true) [l1; l2; l3; l4; l5; l6] ->
  header_field Py.int_of_string l1 = inr nx ->
  header_field Py.int_of_string l2 = inr ny ->
  header_field Py.float_of_string l3 = inr xo ->
  header_field Py.float_of_string l4 = inr yo ->
  header_field Py.float_of_string l5 = inr dx ->
  header_field Py.float_of_string l6 = inr missing ->
  read (File h) (set_text h (l1 +:+ l2 +:+ l3 +:+ l4 +:+ l5 +:+ l6 +:+ body) w) =
    (data1 <- read_data h ny nx ;;
     grid_new (GridData_init (xo, yo) dx data1 (Some missing))) (set_text h body w).
Proof.
  intros Hr Hl H1 H2 H3 H4 H5 H6.
  repeat (apply Forall_cons in Hl as [? Hl]).
  unfold read. erewrite bind_inr by reflexivity.
  rewrite (field_at _ _ _ _ l1 _ nx) by done.
  rewrite (field_at _ _ _ _ l2 _ ny) by done.
  rewrite (field_at _ _ _ _ l3 _ xo) by done.
  rewrite (field_at _ _ _ _ l4 _ yo) by done.
  rewrite (field_at _ _ _ _ l5 _ dx) by done.
  by rewrite (field_at _ _ _ _ l6 _ missing) by done.
Qed.

End ReadFacts.

(** ** What a call leaves as it is *)

Module FrameFacts.
Import StoreFacts.

Section Keeps.
Variable R : world -> world -> Prop.
Hypothesis R_refl : forall w, R w w.
Hypothesis R_trans : forall w1 w2 w3, R w1 w2 -> R w2 w3 -> R w1 w3.
Hypothesis R_set_file : forall w h fo t,
  w_files w !! h = Some fo -> R w (set_file h (with_text fo t) w).
Hypothesis R_open : forall name m w, R w (open_ name m w).1.
Hypothesis R_grid_new : forall g w, R w (grid_new g w).1.

Lemma keeps_ret {A} (x : A) : keeps R (ret x).
Proof. intros w. apply R_refl. Qed.

Lemma keeps_raise {A} (e : exn) : keeps R (raise (A := A) e).
Proof. intros w. apply R_refl. Qed.

Lemma keeps_lift {A} (r : exn + A) : keeps R (lift r).
Proof. intros w. apply R_refl. Qed.

Lemma keeps_bind {A B} (c : M A) (k : A -> M B) :
  keeps R c -> (forall x, keeps R (k x)) -> keeps R (bind c k).
Proof.
  intros Hc Hk w. unfold bind. specialize (Hc w).
  destruct (c w) as [w' [e|x]]; [done |].
  eapply R_trans; [exact Hc | apply Hk].
Qed.

Lemma keeps_for {A} (l : list A) (body : A -> M unit) :
  (forall x, keeps R (body x)) -> keeps R (for_ l body).
Proof.
  intros Hb. induction l as [|x l IH]; simpl.
  - apply keeps_ret.
  - apply keeps_bind; [apply Hb | by intros _].
Qed.

Lemma keeps_for_fold {A S} (l : list A) (s : S) (body : A -> S -> M S) :
  (forall x s, keeps R (body x s)) -> keeps R (for_fold l s body).
Proof.
  intros Hb. revert s. induction l as [|x l IH]; intros s; simpl.
  - apply keeps_ret.
  - apply keeps_bind; [apply Hb | apply IH].
Qed.

Lemma keeps_grid_get q : keeps R (grid_get q).
Proof. intros w. unfold grid_get. destruct (w_grids w !! q); apply R_refl. Qed.

Lemma keeps_file_readline h : keeps R (file_readline h).
Proof.
  intros w. unfold file_readline.
  destruct (w_files w !! h) as [fo|] eqn:H; [| apply R_refl].
  destruct (fo_closed fo); [apply R_refl |].
  destruct (fo_mode fo); [| apply R_refl].
  destruct (Str.readline (fo_text fo)). by apply R_set_file.
Qed.

Lemma keeps_file_write h s : keeps R (file_write h s).
Proof.
  intros w. unfold file_write.
  destruct (w_files w !! h) as [fo|] eqn:H; [| apply R_refl].
  destruct (fo_closed fo); [apply R_refl |].
  destruct (fo_mode fo); [apply R_refl |]. by apply R_set_file.
Qed.

Lemma keeps_grid_shape q : keeps R (grid_shape q).
Proof. apply keeps_bind; [apply keeps_grid_get | intros g; apply keeps_ret]. Qed.

Lemma keeps_grid_origin q : keeps R (grid_origin q).
Proof. apply keeps_bind; [apply keeps_grid_get | intros g; apply keeps_ret]. Qed.

Lemma keeps_grid_delta q : keeps R (grid_delta q).
Proof. apply keeps_bind; [apply keeps_grid_get | intros g; apply keeps_ret]. Qed.

Lemma keeps_grid_is_masked q i j : keeps R (grid_is_masked q i j).
Proof.
  apply keeps_bind; [apply keeps_grid_get | intros g].
  destruct (cell _ i j); [apply keeps_ret | apply keeps_raise].
Qed.

Lemma keeps_grid_getitem q i j : keeps R (grid_getitem q i j).
Proof.
  apply keeps_bind; [apply keeps_grid_get | intros g].
  destruct (cell _ i j); [apply keeps_ret | apply keeps_raise].
Qed.

Lemma keeps_write arg q missing : keeps R (write arg q missing).
Proof.
  unfold write.
  apply keeps_bind; [apply keeps_grid_shape | intros [ny nx]].
  apply keeps_bind;
    [destruct arg; [intros w; apply R_open | apply keeps_ret] | intros h].
  repeat (apply keeps_bind;
          [first [apply keeps_file_write | apply keeps_grid_origin
                 | apply keeps_grid_delta] | intros ?]).
  apply keeps_for. intros i.
  apply keeps_bind; [| intros _; apply keeps_file_write].
  apply keeps_for. intros j.
  apply keeps_bind; [apply keeps_grid_is_masked | intros masked].
  apply keeps_bind; [| intros v; apply keeps_file_write].
  destruct masked; [apply keeps_ret | apply keeps_grid_getitem].
Qed.

Lemma keeps_rd h : keeps R (rd h).
Proof.
  unfold rd. apply keeps_bind; [apply keeps_file_readline | intros line].
  destruct (_ !! _); [apply keeps_ret | apply keeps_raise].
Qed.

Lemma keeps_read_data h ny nx : keeps R (read_data h ny nx).
Proof.
  unfold read_data. apply keeps_bind; [apply keeps_lift | intros a0].
  apply keeps_for_fold. intros i a.
  repeat (apply keeps_bind; [| intros ?]);
    auto using keeps_file_readline, keeps_lift.
Qed.

Lemma keeps_read arg : keeps R (read arg).
Proof.
  unfold read.
  apply keeps_bind;
    [destruct arg; [intros w; apply R_open | apply keeps_ret] | intros h].
  repeat (apply keeps_bind;
          [first [apply keeps_rd | apply keeps_lift | apply keeps_read_data]
          | intros ?]).
  intros w. apply R_grid_new.
Qed.

End Keeps.

(** *** The grids *)

Lemma write_same_grids arg q missing : keeps same_grids (write arg q missing).
Proof.
  apply keeps_write; unfold same_grids.
  - done.
  - intros w1 w2 w3 H1 H2. by rewrite H2.
  - done.
  - intros name m w. unfold open_.
    destruct m, (w_disk w !! name) as [[]|]; done.
Qed.

(** *** The closed flags *)

Lemma closes_nothing_refl w : closes_nothing w w.
Proof.
  split.
  - intros h fo H. by exists fo.
  - intros h fo H1 H2. congruence.
Qed.

Lemma closes_nothing_trans w1 w2 w3 :
  closes_nothing w1 w2 -> closes_nothing w2 w3 -> closes_nothing w1 w3.
Proof.
  intros [A1 B1] [A2 B2]. split.
  - intros h fo H. destruct (A1 _ _ H) as (fo2 & H2 & E2).
    destruct (A2 _ _ H2) as (fo3 & H3 & E3). exists fo3. split; [done | congruence].
  - intros h fo3 H3 H1. destruct (w_files w2 !! h) as [fo2|] eqn:H2.
    + destruct (A2 _ _ H2) as (fo3' & H3' & E3).
      assert (fo3' = fo3) by congruence. subst fo3'.
      rewrite E3. by eapply B1.
    + by eapply B2.
Qed.

Lemma closes_nothing_set_file w h fo t :
  w_files w !! h = Some fo -> closes_nothing w (set_file h (with_text fo t) w).
Proof.
  intros H. split.
  - intros h' fo' H'. simpl. destruct (decide (h' = h)) as [->|Hne].
    + exists (with_text fo t). split.
      * apply list_lookup_insert_eq. by eapply lookup_lt_Some.
      * assert (fo' = fo) by congruence. by subst.
    + exists fo'. split; [| done]. by rewrite list_lookup_insert_ne.
  - intros h' fo' H1 H2. simpl in H1. destruct (decide (h' = h)) as [->|Hne].
    + congruence.
    + rewrite list_lookup_insert_ne in H1 by done. congruence.
Qed.

Lemma closes_nothing_append w fo d gs :
  fo_closed fo = false ->
  closes_nothing w {| w_disk := d; w_files := w_files w ++ [fo]; w_grids := gs |}.
Proof.
  intros Hfo. split; simpl.
  - intros h fo' H. exists fo'. split; [| done]. by apply lookup_app_l_Some.
  - intros h fo' H1 H2. apply lookup_ge_None in H2.
    rewrite lookup_app_r in H1 by done.
    destruct (h - length (w_files w))%nat; simpl in H1; [| done].
    congruence.
Qed.

Lemma open_closes_nothing name m w : closes_nothing w (open_ name m w).1.
Proof.
  unfold open_.
  destruct m, (w_disk w !! name) as [[]|]; simpl;
    first [apply closes_nothing_refl | by apply closes_nothing_append].
Qed.

Lemma grid_new_closes_nothing g w : closes_nothing w (grid_new g w).1.
Proof.
  unfold grid_new. simpl. split; simpl.
  - intros h fo H. by exists fo.
  - intros h fo H1 H2. congruence.
Qed.

Lemma write_closes_nothing arg q missing : keeps closes_nothing (write arg q missing).
Proof.
  apply keeps_write;
    auto using closes_nothing_refl, closes_nothing_set_file, open_closes_nothing,
      grid_new_closes_nothing.
  apply closes_nothing_trans.
Qed.

Lemma read_closes_nothing arg : keeps closes_nothing (read arg).
Proof.
  apply keeps_read;
    auto using closes_nothing_refl, closes_nothing_set_file, open_closes_nothing,
      grid_new_closes_nothing.
  apply closes_nothing_trans.
Qed.

(** A computation that closes a stream does not keep [closes_nothing]. *)
Lemma file_close_closes w h fo :
  w_files w !! h = Some fo -> fo_closed fo = false ->
  ~ closes_nothing w (file_close h w).1.
Proof.
  intros Hfo Hopen [Hold _]. destruct (Hold h fo Hfo) as (fo' & Hfo' & Hc).
  unfold file_close in Hfo'. rewrite Hfo in Hfo'. cbn [fst] in Hfo'.
  rewrite (lookup_set_file _ _ _ _ Hfo) in Hfo'. injection Hfo' as <-.
  cbn in Hc. congruence.
Qed.

End FrameFacts.

(** ** Lines of numbers *)

Module RowFacts.
Import Str StrFacts PyFacts StoreFacts.
#[local] Arguments String.append !_ _ / : simpl nomatch.

Lemma is_space_space : is_space " " = true.
Proof. done. Qed.

Lemma is_space_newline : is_space newline = true.
Proof. done. Qed.

(** The tokens of a data line are the texts of its values. *)
Lemma split_row_line (vals : list float) :
  split (row_line vals) = map Py.format_float vals.
Proof.
  unfold row_line. induction vals as [|v vals IH]; [done |].
  cbn [map cat]. rewrite !app_assoc.
  change (" " +:+ cat (map (fun v => Py.format_float v +:+ " ") vals) +:+ nl)
    with (String " " (cat (map (fun v => Py.format_float v +:+ " ") vals) +:+ nl)).
  rewrite split_token_space by (done || apply format_float_token).
  by rewrite IH.
Qed.

Lemma no_newline_app (a b : string) :
  no_newline (a +:+ b) = no_newline a && no_newline b.
Proof. apply forallb_app. Qed.

Lemma is_line_row_line (vals : list float) : is_line (row_line vals) = true.
Proof.
  unfold row_line. apply is_line_nl.
  induction vals as [|v vals IH]; [done |].
  cbn [map cat]. rewrite !no_newline_app, IH.
  by rewrite (nonspace_no_newline _ (format_float_nonspace v)).
Qed.

Lemma split_header_line (kw v : string) :
  is_token kw = true -> (String.length kw < keyword_width)%nat ->
  is_token v = true ->
  split (header_line kw v) = [kw; v].
Proof.
  intros Hkw Hlen Hv. unfold header_line, ljust.
  destruct (keyword_width - String.length kw)%nat as [|n] eqn:Hn; [lia |].
  cbn [repeat]. rewrite !app_assoc.
  change (String " " (repeat " " n) +:+ v +:+ nl)
    with (String " " (repeat " " n +:+ v +:+ nl)).
  rewrite split_token_space by done.
  rewrite split_spaces by (by apply forallb_repeat).
  unfold nl. rewrite split_token_space by done. done.
Qed.

Lemma is_line_header_line (kw v : string) :
  is_token kw = true -> is_token v = true ->
  is_line (header_line kw v) = true.
Proof.
  intros [_ Hkw]%is_token_spec [_ Hv]%is_token_spec.
  unfold header_line, ljust. rewrite <- !app_assoc.
  apply is_line_nl. rewrite !no_newline_app.
  rewrite (nonspace_no_newline _ Hkw), (nonspace_no_newline _ Hv).
  unfold no_newline. by rewrite forallb_repeat.
Qed.

Lemma header_field_header_line {A} (conv : string -> exn + A) (kw v : string) :
  is_token kw = true -> (String.length kw < keyword_width)%nat ->
  is_token v = true ->
  header_field conv (header_line kw v) = conv v.
Proof.
  intros Hkw Hlen Hv. unfold header_field.
  by rewrite split_header_line.
Qed.

(** [floats] on the texts of values that read back. *)
Lemma floats_format (vals : list float) :
  Forall reads_back vals -> floats (map Py.format_float vals) = inr vals.
Proof.
  induction 1 as [|v vals Hv _ IH]; [done |].
  cbn [map floats]. unfold reads_back in Hv. by rewrite Hv, IH.
Qed.

Lemma floats_length (tokens : list string) (vals : list float) :
  floats tokens = inr vals -> length vals = length tokens.
Proof.
  revert vals. induction tokens as [|t tokens IH]; intros vals; simpl.
  - by intros [= <-].
  - destruct (Py.float_of_string t) as [e|v]; [done |].
    destruct (floats tokens) as [e|vs]; [done |].
    intros [= <-]. simpl. f_equal. by apply IH.
Qed.

Lemma float_of_string_error (t : string) e :
  Py.float_of_string t = inl e -> is_ValueError e = true.
Proof.
  unfold Py.float_of_string.
  destruct (Py.signed (strip t)) as [neg body].
  destruct (_ || _); [done |].
  destruct (String.eqb _ _); [done |].
  destruct (Py.parse_decimal body) as [[M E]|]; [done |].
  by intros [= <-].
Qed.

Lemma floats_error (tokens : list string) e :
  floats tokens = inl e -> is_ValueError e = true.
Proof.
  induction tokens as [|t tokens IH]; simpl; [done |].
  destruct (Py.float_of_string t) as [e'|v] eqn:Ht.
  - intros [= <-]. by eapply float_of_string_error.
  - destruct (floats tokens) as [e'|vs]; [| done].
    intros [= <-]. by apply IH.
Qed.

Lemma range_down_S (n : nat) : range_down (S n) = n :: range_down n.
Proof.
  unfold range_down. rewrite seq_S. simpl.
  by rewrite rev_app_distr.
Qed.

Lemma set_row_shape a i vals a' :
  set_row a i vals = inr a' -> nd_shape a' = nd_shape a.
Proof.
  unfold set_row. destruct (negb _); [done |].
  destruct (_ =? _)%nat; [by intros [= <-] |].
  destruct vals as [|v [|]]; try done. by intros [= <-].
Qed.

Lemma set_row_length a i vals a' :
  set_row a i vals = inr a' -> length (nd_rows a') = length (nd_rows a).
Proof.
  unfold set_row. destruct (negb _); [done |].
  destruct (_ =? _)%nat; [intros [= <-]; simpl; by rewrite length_insert |].
  destruct vals as [|v [|]]; try done.
  intros [= <-]. simpl. by rewrite length_insert.
Qed.

Lemma set_row_fit a i vals :
  (i < fst (nd_shape a))%nat -> length vals = snd (nd_shape a) ->
  set_row a i vals =
    inr {| nd_shape := nd_shape a; nd_rows := <[i := vals]> (nd_rows a) |}.
Proof.
  intros Hi Hlen. unfold set_row.
  apply Nat.ltb_lt in Hi. rewrite Hi. simpl.
  apply Nat.eqb_eq in Hlen. by rewrite Hlen.
Qed.

Lemma drop_insert_here {A} (l : list A) (n : nat) (x : A) :
  (n < length l)%nat -> drop n (<[n := x]> l) = x :: drop (S n) l.
Proof.
  revert n. induction l as [|y l IH]; intros n Hn; simpl in Hn; [lia |].
  destruct n as [|n]; simpl; [done |]. apply IH. lia.
Qed.

(** The loop of [read] on data lines that fit: the line [k] goes to the
    storage row [n - 1 - k]. *)
Lemma rows_of_text_fit (n : nat) :
  forall (ds : list string) (vs : list (list float)) (a : ndarray) (rest : string),
  Forall2 (fun d v => is_line d = true /\ floats (split d) = inr v /\
                      length v = snd (nd_shape a)) ds vs ->
  length ds = n ->
  (n <= fst (nd_shape a))%nat -> length (nd_rows a) = fst (nd_shape a) ->
  rows_of_text (range_down n) a (cat ds +:+ rest) =
    (rest, inr {| nd_shape := nd_shape a;
                  nd_rows := rev vs ++ drop n (nd_rows a) |}).
Proof.
  induction n as [|n IH]; intros ds vs a rest Hfit Hlen Hn Hrows.
  - destruct ds; [| done]. apply Forall2_nil_inv_l in Hfit as ->.
    simpl. rewrite drop_0. by destruct a.
  - destruct Hfit as [|d v ds vs (Hd & Hv & Hlv) Hfit]; [done |].
    rewrite range_down_S. cbn [rows_of_text cat].
    rewrite app_assoc, (readline_line _ _ Hd), Hv.
    rewrite set_row_fit by (done || lia).
    rewrite (IH ds vs) by (simpl in *; first [done | lia | by rewrite length_insert]).
    simpl. rewrite drop_insert_here by lia.
    by rewrite <- List.app_assoc.
Qed.

(** The loop of [read] when a data line has neither the width of the raster
    nor one token. *)
Lemma rows_of_text_bad (rs : list nat) :
  forall (ds : list string) (a : ndarray) (rest : string) (k : nat) (d : string),
  Forall (fun l => is_line l = true) ds ->
  length ds = length rs ->
  Forall (fun i => (i < fst (nd_shape a))%nat) rs ->
  ds !! k = Some d ->
  length (split d) <> snd (nd_shape a) -> length (split d) <> 1%nat ->
  exists e, snd (rows_of_text rs a (cat ds +:+ rest)) = inl e /\
            is_ValueError e = true.
Proof.
  induction rs as [|i rs IH]; intros ds a rest k d Hds Hlen Hrs Hk Hbad1 Hbad2.
  - destruct ds; [| done]. by rewrite lookup_nil in Hk.
  - destruct ds as [|d0 ds]; [done |].
    apply Forall_cons in Hds as [Hd0 Hds].
    apply Forall_cons in Hrs as [Hi Hrs].
    cbn [rows_of_text cat]. rewrite app_assoc, (readline_line _ _ Hd0).
    destruct (floats (split d0)) as [e|vals] eqn:Hvals.
    { exists e. split; [done | by eapply floats_error]. }
    pose proof (floats_length _ _ Hvals) as Hlv.
    destruct (set_row a i vals) as [e|a'] eqn:Hset.
    { exists e. split; [done |]. unfold set_row in Hset.
      apply Nat.ltb_lt in Hi. rewrite Hi in Hset. simpl in Hset.
      destruct (_ =? _)%nat; [done |].
      destruct vals as [|v [|]]; try done; by injection Hset as <-. }
    destruct k as [|k].
    { exfalso. injection Hk as ->. unfold set_row in Hset.
      destruct (negb _); [done |].
      destruct (length vals =? snd (nd_shape a))%nat eqn:E.
      - apply Nat.eqb_eq in E. congruence.
      - destruct vals as [|v [|]]; done. }
    pose proof (set_row_shape _ _ _ _ Hset) as Hshape.
    apply (IH ds a' rest k d); try done.
    + simpl in Hlen. lia.
    + by rewrite Hshape.
    + by rewrite Hshape.
Qed.

Lemma count_lines_readline (s : string) :
  s <> EmptyString -> count_lines s = S (count_lines (snd (readline s))).
Proof.
  induction s as [|c s IH]; [done |]. intros _. simpl.
  destruct (Ascii.eqb c newline); [done |].
  destruct s as [|c' s']; [done |].
  rewrite IH by done. by destruct (readline (String c' s')).
Qed.

(** The loop of [read] when the text has fewer lines than the raster has
    rows, and the raster has columns. *)
Lemma rows_of_text_truncated (rs : list nat) :
  forall (a : ndarray) (s : string),
  (count_lines s < length rs)%nat ->
  Forall (fun i => (i < fst (nd_shape a))%nat) rs ->
  snd (nd_shape a) <> 0%nat ->
  exists e, snd (rows_of_text rs a s) = inl e /\ is_ValueError e = true.
Proof.
  induction rs as [|i rs IH]; intros a s Hcount Hrs Hnx; [simpl in Hcount; lia |].
  apply Forall_cons in Hrs as [Hi Hrs].
  cbn [rows_of_text].
  destruct (readline s) as [line rest] eqn:Hline.
  destruct (floats (split line)) as [e|vals] eqn:Hvals.
  { exists e. split; [done | by eapply floats_error]. }
  destruct (set_row a i vals) as [e|a'] eqn:Hset.
  { exists e. split; [done |]. unfold set_row in Hset.
    apply Nat.ltb_lt in Hi. rewrite Hi in Hset. simpl in Hset.
    destruct (_ =? _)%nat; [done |].
    destruct vals as [|v [|]]; try done; by injection Hset as <-. }
  pose proof (set_row_shape _ _ _ _ Hset) as Hshape.
  destruct s as [|c s'].
  { exfalso. simpl in Hline. injection Hline as <- <-. simpl in Hvals.
    injection Hvals as <-. unfold set_row in Hset.
    destruct (negb _); [done |].
    destruct (length [] =? snd (nd_shape a))%nat eqn:E; [| done].
    apply Nat.eqb_eq in E. simpl in E. congruence. }
  apply IH.
  - rewrite count_lines_readline in Hcount by done.
    rewrite Hline in Hcount. simpl in *. lia.
  - by rewrite Hshape.
  - by rewrite Hshape.
Qed.

(** The loop of [read] reads as many lines as the raster has rows; what
    follows them has no part in the result, and is left in the stream when
    the loop ends normally. *)
Lemma rows_of_text_rest (rs : list nat) :
  forall (ds : list string) (a : ndarray) (rest : string),
  Forall (fun l => is_line l = true) ds ->
  length ds = length rs ->
  snd (rows_of_text rs a (cat ds +:+ rest)) = snd (rows_of_text rs a (cat ds)) /\
  (forall a', snd (rows_of_text rs a (cat ds)) = inr a' ->
              fst (rows_of_text rs a (cat ds +:+ rest)) = rest).
Proof.
  induction rs as [|i rs IH]; intros ds a rest Hds Hlen.
  - destruct ds; [| done]. by simpl.
  - destruct ds as [|d ds]; [done |].
    apply Forall_cons in Hds as [Hd Hds].
    cbn [rows_of_text cat]. rewrite app_assoc, !(readline_line _ _ Hd).
    destruct (floats (split d)) as [e|vals]; [done |].
    destruct (set_row a i vals) as [e|a']; [done |].
    apply IH; [done | simpl in Hlen; lia].
Qed.

End RowFacts.

(** ** The two functions as a whole *)

Module CodecFacts.
Import Str StrFacts PyFacts StoreFacts WriteFacts ReadFacts RowFacts.
#[local] Arguments String.append !_ _ / : simpl nomatch.

Lemma resolve_grids arg m w w1 r :
  resolve arg m w = (w1, r) -> w_grids w1 = w_grids w.
Proof.
  destruct arg as [name|h]; simpl.
  - unfold open_. destruct m, (w_disk w !! name) as [[]|]; by intros [= <- <-].
  - by intros [= <- <-].
Qed.

Lemma write_via arg q missing w w1 h :
  resolve arg WriteMode w = (w1, inr h) -> is_Some (w_grids w !! q) ->
  write arg q missing w = write (File h) q missing w1.
Proof.
  intros Hres [g Hg]. unfold write.
  pose proof (resolve_grids _ _ _ _ _ Hres) as Hgrids.
  erewrite bind_inr;
    [| unfold grid_shape; erewrite bind_inr by (by apply grid_get_run); reflexivity].
  symmetry.
  erewrite bind_inr;
    [| unfold grid_shape; erewrite bind_inr
         by (apply grid_get_run; rewrite Hgrids; exact Hg); reflexivity].
  destruct (ma_shape (data g)) as [ny nx].
  erewrite bind_inr by reflexivity. symmetry.
  by erewrite bind_inr by exact Hres.
Qed.

Lemma read_via arg w w1 h :
  resolve arg ReadMode w = (w1, inr h) -> read arg w = read (File h) w1.
Proof.
  intros Hres. unfold read.
  erewrite bind_inr by exact Hres.
  by erewrite (bind_inr (ret h)) by reflexivity.
Qed.

(** [write] appends the text of the grid to the stream it works on. *)
Lemma write_run arg q g missing w w1 h :
  resolve arg WriteMode w = (w1, inr h) -> writable w1 h = true ->
  w_grids w !! q = Some g -> wf_grid g ->
  write arg q missing w =
    (set_text h (text_of w1 h +:+ grid_text g missing) w1, inr tt).
Proof.
  intros Hres Hw Hq Hwf.
  rewrite (write_via _ _ _ _ _ _ Hres) by by exists g.
  apply write_file_run; [done | | done].
  by rewrite (resolve_grids _ _ _ _ _ Hres).
Qed.

Section Read.
Variables (arg : file_arg) (w w1 : world) (h : nat).
Variables (l1 l2 l3 l4 l5 l6 body : string).
Variables (nx ny : Z) (xo yo dx missing : float).
Hypothesis Hres : resolve arg ReadMode w = (w1, inr h).
Hypothesis Hr : readable w1 h = true.
Hypothesis Htext : text_of w1 h = l1 +:+ l2 +:+ l3 +:+ l4 +:+ l5 +:+ l6 +:+ body.
Hypothesis Hlines : Forall (fun l => is_line l = true) [l1; l2; l3; l4; l5; l6].
Hypothesis H1 : header_field Py.int_of_string l1 = inr nx.
Hypothesis H2 : header_field Py.int_of_string l2 = inr ny.
Hypothesis H3 : header_field Py.float_of_string l3 = inr xo.
Hypothesis H4 : header_field Py.float_of_string l4 = inr yo.
Hypothesis H5 : header_field Py.float_of_string l5 = inr dx.
Hypothesis H6 : header_field Py.float_of_string l6 = inr missing.

(** After the header, [read] goes on with the values of the six fields. *)
Lemma read_run :
  read arg w =
    (data1 <- read_data h ny nx ;;
     grid_new (GridData_init (xo, yo) dx data1 (Some missing))) (set_text h body w1).
Proof.
  rewrite (read_via _ _ _ _ Hres).
  rewrite <- (set_text_id h w1) at 1. rewrite Htext.
  by apply read_file_at.
Qed.

(** What [read] returns and what it leaves in the stream. *)
Lemma read_result :
  let rows := fun a0 => rows_of_text (range_down (Z.to_nat ny)) a0 body in
  returned (read arg) w =
    match np_zeros ny nx with
    | inl e => inl e
    | inr a0 =>
        match snd (rows a0) with
        | inl e => inl e
        | inr a => inr (GridData_init (xo, yo) dx a (Some missing))
        end
    end /\
  (forall a0, np_zeros ny nx = inr a0 ->
     text_of (read arg w).1 h = fst (rows a0)) /\
  (forall e, returned (read arg) w = inl e ->
     w_grids (read arg w).1 = w_grids w /\ (read arg w).2 = inl e).
Proof.
  intros rows. unfold returned. rewrite read_run.
  pose proof (resolve_grids _ _ _ _ _ Hres) as Hgrids.
  pose proof (read_data_at w1 h ny nx body Hr) as Hdata.
  destruct (np_zeros ny nx) as [e|a0] eqn:Hz.
  { erewrite bind_inl by exact Hdata. cbn [fst snd].
    rewrite w_grids_set_text. split; [done | split].
    - by intros a0.
    - by intros e' [= <-]. }
  fold (rows a0) in Hdata.
  destruct (snd (rows a0)) as [e|a] eqn:Hrows.
  { erewrite bind_inl by exact Hdata. cbn [fst snd].
    rewrite w_grids_set_text. split; [done | split].
    - intros a [= <-]. by rewrite text_of_set_text by by apply readable_is_Some.
    - by intros e' [= <-]. }
  erewrite bind_inr by exact Hdata.
  unfold grid_new. cbn [fst snd w_grids].
  rewrite lookup_app_r by done. rewrite Nat.sub_diag. cbn [lookup list_lookup].
  split; [done | split; [| done]].
  intros a' [= <-]. unfold text_of. cbn [w_files].
  fold (text_of (set_text h (rows a0).1 w1) h).
  by rewrite text_of_set_text by by apply readable_is_Some.
Qed.

End Read.

Lemma np_zeros_ok (ny nx : Z) :
  0 <= ny -> 0 <= nx ->
  np_zeros ny nx =
    inr {| nd_shape := (Z.to_nat ny, Z.to_nat nx);
           nd_rows := replicate (Z.to_nat ny) (replicate (Z.to_nat nx) zero) |}.
Proof.
  intros Hy Hx. unfold np_zeros.
  destruct (ny <? 0) eqn:E1; [apply Z.ltb_lt in E1; lia |].
  destruct (nx <? 0) eqn:E2; [apply Z.ltb_lt in E2; lia |]. done.
Qed.

Lemma np_zeros_error (ny nx : Z) e :
  np_zeros ny nx = inl e -> is_ValueError e = true.
Proof. unfold np_zeros. destruct (_ || _); [by intros [= <-] | done]. Qed.

Lemma np_zeros_shape (ny nx : Z) a :
  np_zeros ny nx = inr a ->
  nd_shape a = (Z.to_nat ny, Z.to_nat nx) /\ length (nd_rows a) = Z.to_nat ny /\
  0 <= ny /\ 0 <= nx.
Proof.
  unfold np_zeros. destruct (ny <? 0) eqn:E1; [done |].
  destruct (nx <? 0) eqn:E2; [done |]. simpl. intros [= <-]. simpl.
  rewrite length_replicate. apply Z.ltb_ge in E1, E2. done.
Qed.

Lemma allocatable_nonneg (ny nx : Z) : allocatable ny nx = true -> 0 <= ny /\ 0 <= nx.
Proof.
  unfold allocatable. rewrite !andb_true_iff.
  intros [[[[Hy Hx] _] _] _]. apply Z.leb_le in Hy, Hx. done.
Qed.

End CodecFacts.

(** * The claims *)

Module Claims.
Import Str StrFacts PyFacts StoreFacts WriteFacts ReadFacts RowFacts CodecFacts FrameFacts.
#[local] Arguments String.append !_ _ / : simpl nomatch.

Lemma header_lines_are_lines ny nx origin delta missing :
  Forall (fun l => is_line l = true) (header_lines ny nx origin delta missing).
Proof.
  unfold header_lines, keywords. cbn [zip_with].
  repeat constructor; apply is_line_header_line;
    first [done | apply format_int_token | apply format_float_token].
Qed.

Lemma body_lines_are_lines g missing :
  Forall (fun l => is_line l = true) (body_lines g missing).
Proof.
  unfold body_lines. apply Forall_forall. intros l Hl.
  apply list_elem_of_fmap in Hl as (i & -> & _). apply is_line_row_line.
Qed.

Lemma range_down_lookup (n i : nat) :
  (i < n)%nat -> range_down n !! (n - 1 - i)%nat = Some i.
Proof.
  induction n as [|n IH]; [lia |]. intros Hi. rewrite range_down_S.
  destruct (decide (i = n)) as [->|Hne].
  - by replace (S n - 1 - n)%nat with 0%nat by lia.
  - replace (S n - 1 - i)%nat with (S (n - 1 - i)) by lia.
    simpl. apply IH. lia.
Qed.

Lemma emit_cell g missing i j b v :
  cell (ma_mask (data g)) i j = Some b -> cell (ma_data (data g)) i j = Some v ->
  emit g missing i j = if b then missing else v.
Proof. intros Hb Hv. unfold emit. rewrite Hb, Hv. by destruct b. Qed.

Lemma cell_lt {A} shape (rows : list (list A)) i j x :
  rectangular shape rows -> cell rows i j = Some x ->
  (i < fst shape)%nat /\ (j < snd shape)%nat.
Proof.
  intros [Hlen Hall] Hc. unfold cell in Hc.
  destruct (rows !! i) as [r|] eqn:Hr; [| done]. simpl in Hc.
  split.
  - rewrite <- Hlen. by eapply lookup_lt_Some.
  - rewrite Forall_forall in Hall.
    rewrite <- (Hall r) by by eapply list_elem_of_lookup_2.
    by eapply lookup_lt_Some.
Qed.

(** C8. Header emission: on every grid and sentinel, [write] returns
    normally after appending a text whose first six lines are, in this order,
    the keywords ncols, nrows, xllcorner, yllcorner, cellsize and
    NODATA_value, each left-justified in a column of sixteen characters and
    followed by its value: the number of columns, the number of rows, the two
    coordinates of the origin, the cell size and the sentinel.  Each of these
    lines has exactly two tokens, the keyword and the value, and what follows
    the six lines is the data. *)
Theorem write_emits_header (arg : file_arg) (q : nat) (g : GridData) (missing : float)
    (w w1 : world) (h ny nx : nat) :
  resolve arg WriteMode w = (w1, inr h) -> writable w1 h = true ->
  w_grids w !! q = Some g -> wf_grid g -> ma_shape (data g) = (ny, nx) ->
  exists written header,
    write arg q missing w = (set_text h (text_of w1 h +:+ written) w1, inr tt) /\
    Str.readlines 6 written = (header, Str.cat (body_lines g missing)) /\
    header =
      [Str.ljust "ncols" 16 +:+ Py.format_int (Z.of_nat nx) +:+ nl;
       Str.ljust "nrows" 16 +:+ Py.format_int (Z.of_nat ny) +:+ nl;
       Str.ljust "xllcorner" 16 +:+ Py.format_float (fst (_origin g)) +:+ nl;
       Str.ljust "yllcorner" 16 +:+ Py.format_float (snd (_origin g)) +:+ nl;
       Str.ljust "cellsize" 16 +:+ Py.format_float (_delta g) +:+ nl;
       Str.ljust "NODATA_value" 16 +:+ Py.format_float missing +:+ nl] /\
    map Str.split header =
      [["ncols"; Py.format_int (Z.of_nat nx)];
       ["nrows"; Py.format_int (Z.of_nat ny)];
       ["xllcorner"; Py.format_float (fst (_origin g))];
       ["yllcorner"; Py.format_float (snd (_origin g))];
       ["cellsize"; Py.format_float (_delta g)];
       ["NODATA_value"; Py.format_float missing]].
Proof.
  intros Hres Hw Hq Hwf Hshape.
  exists (grid_text g missing), (header_lines ny nx (_origin g) (_delta g) missing).
  split; [by apply write_run |]. split; [| split].
  - unfold grid_text. rewrite Hshape. cbn [fst snd].
    apply (readlines_lines (header_lines ny nx (_origin g) (_delta g) missing)).
    apply header_lines_are_lines.
  - reflexivity.
  - unfold header_lines, keywords. cbn [zip_with map].
    rewrite !split_header_line;
      first [done | apply format_int_token | apply format_float_token
            | (unfold keyword_width; simpl; lia)].
Qed.

(** C3. Layout of the data: on every grid of [ny] rows and [nx] columns,
    [write] returns normally after appending the six header lines and exactly
    [ny] data lines.  The data line at position [ny - 1 - i] stands for the
    storage row [i], so the first data line is the storage row [ny - 1] and
    the last one the storage row [0].  A data line is the texts of its [nx]
    values from column [0] to column [nx - 1], each followed by a space, and
    the line feed; its token at position [j] is the sentinel when the cell
    [(i, j)] is masked, whatever number is stored there, and the stored
    number otherwise. *)
Theorem write_body_layout (arg : file_arg) (q : nat) (g : GridData) (missing : float)
    (w w1 : world) (h ny nx : nat) :
  resolve arg WriteMode w = (w1, inr h) -> writable w1 h = true ->
  w_grids w !! q = Some g -> wf_grid g -> ma_shape (data g) = (ny, nx) ->
  exists body,
    write arg q missing w =
      (set_text h (text_of w1 h +:+
                   Str.cat (header_lines ny nx (_origin g) (_delta g) missing) +:+
                   Str.cat body) w1, inr tt) /\
    length body = ny /\
    Str.readlines ny (Str.cat body) = (body, EmptyString) /\
    forall i, (i < ny)%nat ->
      exists line vals,
        body !! (ny - 1 - i)%nat = Some line /\
        line = Str.cat (map (fun v => Py.format_float v +:+ " ") vals) +:+ nl /\
        Str.split line = map Py.format_float vals /\
        length vals = nx /\
        forall j b v,
          cell (ma_mask (data g)) i j = Some b ->
          cell (ma_data (data g)) i j = Some v ->
          vals !! j = Some (if b then missing else v).
Proof.
  intros Hres Hw Hq Hwf Hshape.
  exists (body_lines g missing).
  assert (Hlen : length (body_lines g missing) = ny).
  { unfold body_lines, range_down. rewrite Hshape. cbn [fst].
    by rewrite length_map, length_rev, length_seq. }
  split; [| split; [done | split]].
  - rewrite (write_run _ _ _ _ _ _ _ Hres Hw Hq Hwf).
    unfold grid_text. rewrite Hshape. by cbn [fst snd].
  - rewrite <- Hlen at 1. rewrite <- (app_nil_r (Str.cat _)).
    apply readlines_lines, body_lines_are_lines.
  - intros i Hi. exists (row_line (emit_row g missing i)), (emit_row g missing i).
    split; [| split; [done | split; [apply split_row_line | split]]].
    + unfold body_lines. rewrite Hshape. cbn [fst].
      by rewrite list_lookup_fmap, range_down_lookup.
    + unfold emit_row, range. rewrite Hshape. cbn [snd].
      by rewrite length_map, length_seq.
    + intros j b v Hb Hv. unfold emit_row, range. rewrite Hshape. cbn [snd].
      destruct Hwf as [Hd _].
      destruct (cell_lt _ _ _ _ _ Hd Hv) as [_ Hj]. rewrite Hshape in Hj.
      rewrite list_lookup_fmap, lookup_seq_lt by done. simpl.
      by rewrite (emit_cell _ _ _ _ _ _ Hb Hv).
Qed.


Lemma write_emits_header_witness :
  resolve (File 0) WriteMode (writer_world example_grid)
    = (writer_world example_grid, inr 0%nat) /\
  writable (writer_world example_grid) 0 = true /\
  w_grids (writer_world example_grid) !! 0%nat = Some example_grid /\
  wf_grid example_grid /\
  ma_shape (data example_grid) = (2%nat, 2%nat) /\
  exists written header,
    write (File 0) 0 (-9999)%float (writer_world example_grid) =
      (set_text 0 (text_of (writer_world example_grid) 0 +:+ written)
         (writer_world example_grid), inr tt) /\
    Str.readlines 6 written = (header, Str.cat (body_lines example_grid (-9999)%float)) /\
    header =
      [Str.ljust "ncols" 16 +:+ Py.format_int (Z.of_nat 2) +:+ nl;
       Str.ljust "nrows" 16 +:+ Py.format_int (Z.of_nat 2) +:+ nl;
       Str.ljust "xllcorner" 16 +:+ Py.format_float (fst (_origin example_grid)) +:+ nl;
       Str.ljust "yllcorner" 16 +:+ Py.format_float (snd (_origin example_grid)) +:+ nl;
       Str.ljust "cellsize" 16 +:+ Py.format_float (_delta example_grid) +:+ nl;
       Str.ljust "NODATA_value" 16 +:+ Py.format_float (-9999)%float +:+ nl] /\
    map Str.split header =
      [["ncols"; Py.format_int (Z.of_nat 2)];
       ["nrows"; Py.format_int (Z.of_nat 2)];
       ["xllcorner"; Py.format_float (fst (_origin example_grid))];
       ["yllcorner"; Py.format_float (snd (_origin example_grid))];
       ["cellsize"; Py.format_float (_delta example_grid)];
       ["NODATA_value"; Py.format_float (-9999)%float]].
Proof.
  assert (Hwf : wf_grid example_grid) by (repeat constructor).
  repeat (split; [first [reflexivity | exact Hwf] |]).
  apply (write_emits_header (File 0) 0 example_grid (-9999)%float
           (writer_world example_grid) (writer_world example_grid) 0 2 2);
    first [reflexivity | exact Hwf].
Defined.


(** C9. [write] leaves its input as it is: whatever the destination, the
    grid and the sentinel, and whether [write] returns or raises, the grid
    objects of the store after the call are those before the call; so the
    values, the mask, the origin and the cell size of the grid that was
    written are what they were. *)
Theorem write_leaves_grid (arg : file_arg) (q : nat) (missing : float) (w : world) :
  w_grids (write arg q missing w).1 = w_grids w /\
  forall g, w_grids w !! q = Some g ->
            w_grids (write arg q missing w).1 !! q = Some g.
Proof.
  pose proof (write_same_grids arg q missing w) as H. unfold same_grids in H.
  split; [done |]. intros g Hg. by rewrite H.
Qed.

(** C7, as the code has it.  Neither [read] nor [write] closes a stream.
    When a stream that is already open is passed in, every file object that
    existed before the call has the closed flag it had, on a return and on
    an exception, so the stream is not closed.  When a path is passed in and
    the call raises, every file object that existed has the closed flag it
    had, and the file object that the call has opened, if it has opened one,
    is still open when the exception leaves the call.  What becomes of the
    file object of a path after a return is left to the run time. *)
Theorem codec_closes_nothing (name : string) (h q : nat) (missing : float) (w : world) :
  (closes_nothing w (read (File h) w).1 /\
   closes_nothing w (write (File h) q missing w).1) /\
  (forall e, (read (Path name) w).2 = inl e ->
     closes_nothing w (read (Path name) w).1) /\
  (forall e, (write (Path name) q missing w).2 = inl e ->
     closes_nothing w (write (Path name) q missing w).1).
Proof.
  split; [split |]; [apply read_closes_nothing | apply write_closes_nothing |].
  split; intros e _; [apply read_closes_nothing | apply write_closes_nothing].
Qed.

Lemma codec_closes_nothing_witness :
  (read (Path "bad.asc") (disk_world "bad.asc" malformed_text)).2
    = inl (ValueError_int "two") /\
  closes_nothing (disk_world "bad.asc" malformed_text)
    (read (Path "bad.asc") (disk_world "bad.asc" malformed_text)).1.
Proof.
  assert (H : (read (Path "bad.asc") (disk_world "bad.asc" malformed_text)).2
              = inl (ValueError_int "two")) by (vm_compute; reflexivity).
  split; [exact H |].
  exact (proj1 (proj2 (codec_closes_nothing "bad.asc" 0 0 0%float
                         (disk_world "bad.asc" malformed_text))) _ H).
Defined.

(** C7 fails as it is stated: on a file whose second header line does not
    convert, [read] on the path raises, and the stream that it has opened is
    open when the exception leaves the call. *)
Lemma path_streams_stay_open :
  exists fo,
    (read (Path "bad.asc") (disk_world "bad.asc" malformed_text)).2
      = inl (ValueError_int "two") /\
    w_files (disk_world "bad.asc" malformed_text) !! 0%nat = None /\
    w_files (read (Path "bad.asc") (disk_world "bad.asc" malformed_text)).1 !! 0%nat
      = Some fo /\
    fo_closed fo = false.
Proof. eexists. vm_compute. repeat split; reflexivity. Qed.

Lemma all_lines (ls : list string) :
  List.forallb is_line ls = true -> Forall (fun l => is_line l = true) ls.
Proof.
  intros H. apply Forall_forall. intros l Hl.
  rewrite forallb_forall in H. by apply H, list_elem_of_In.
Qed.

Lemma header_field_token {A} (conv : string -> exn + A) (l t : string) v :
  Str.split l !! 1%nat = Some t -> conv t = inr v -> header_field conv l = inr v.
Proof. intros Ht Hv. unfold header_field. by rewrite Ht. Qed.

(** C4. Permissive header: [read] takes from each of the six header lines
    its second token and nothing else.  Whatever the first token of a line is
    (the keyword of the format, another keyword of the format, any other
    word), when the second tokens of the six lines convert, the first two as
    integers and the other four as floats, [read] goes on exactly as it does
    with these six values: the number of columns, the number of rows, the two
    coordinates of the origin, the cell size and the sentinel, in this
    order. *)
Theorem read_header_by_position (arg : file_arg) (w w1 : world) (h : nat)
    (l1 l2 l3 l4 l5 l6 t1 t2 t3 t4 t5 t6 body : string)
    (nx ny : Z) (xo yo dx missing : float) :
  resolve arg ReadMode w = (w1, inr h) -> readable w1 h = true ->
  text_of w1 h = l1 +:+ l2 +:+ l3 +:+ l4 +:+ l5 +:+ l6 +:+ body ->
  List.forallb Str.is_line [l1; l2; l3; l4; l5; l6] = true ->
  map (fun l => Str.split l !! 1%nat) [l1; l2; l3; l4; l5; l6]
    = [Some t1; Some t2; Some t3; Some t4; Some t5; Some t6] ->
  Py.int_of_string t1 = inr nx -> Py.int_of_string t2 = inr ny ->
  Py.float_of_string t3 = inr xo -> Py.float_of_string t4 = inr yo ->
  Py.float_of_string t5 = inr dx -> Py.float_of_string t6 = inr missing ->
  read arg w =
    (data1 <- read_data h ny nx ;;
     grid_new (GridData_init (xo, yo) dx data1 (Some missing))) (set_text h body w1).
Proof.
  intros Hres Hr Htext Hlines Htok Hnx Hny Hxo Hyo Hdx Hm.
  injection Htok as T1 T2 T3 T4 T5 T6.
  apply all_lines in Hlines.
  eapply read_run; eauto using header_field_token.
Qed.

Lemma read_header_by_position_witness :
  resolve (File 0) ReadMode (string_io permuted_text empty_world)
    = (string_io permuted_text empty_world, inr 0%nat) /\
  readable (string_io permuted_text empty_world) 0 = true /\
  text_of (string_io permuted_text empty_world) 0
    = ("NODATA_value 2" +:+ nl) +:+ ("cellsize 2" +:+ nl) +:+ ("nrows 0.0" +:+ nl) +:+
      ("ncols 0.0" +:+ nl) +:+ ("anything 10.0" +:+ nl) +:+ ("x -1.0" +:+ nl) +:+
      lines ["5.0 6.0"; "1.0 2.0"] /\
  read (File 0) (string_io permuted_text empty_world) =
    (data1 <- read_data 0 2 2 ;;
     grid_new (GridData_init (0%float, 0%float) 10%float data1 (Some (-1)%float)))
      (set_text 0 (lines ["5.0 6.0"; "1.0 2.0"]) (string_io permuted_text empty_world)).
Proof.
  repeat (split; [reflexivity |]).
  apply (read_header_by_position (File 0)
           (string_io permuted_text empty_world) (string_io permuted_text empty_world) 0
           ("NODATA_value 2" +:+ nl) ("cellsize 2" +:+ nl) ("nrows 0.0" +:+ nl)
           ("ncols 0.0" +:+ nl) ("anything 10.0" +:+ nl) ("x -1.0" +:+ nl)
           "2" "2" "0.0" "0.0" "10.0" "-1.0");
    reflexivity.
Defined.

Lemma readable_resolve_grids arg w w1 h :
  resolve arg ReadMode w = (w1, inr h) -> w_grids w1 = w_grids w.
Proof. apply resolve_grids. Qed.

(** C5, as the code has it.  When the six header lines convert, the header
    declares at least one column and [nrows] rows, and fewer than [nrows]
    lines follow the header, [read] raises an exception of the class
    ValueError and makes no grid.  The exception is the one of the
    conversions and of the assignment of a row; the code has no exception of
    its own for a text that ends too early. *)
Theorem read_truncated_raises (arg : file_arg) (w w1 : world) (h : nat)
    (l1 l2 l3 l4 l5 l6 body : string) (nx ny : Z) (xo yo dx missing : float) :
  resolve arg ReadMode w = (w1, inr h) -> readable w1 h = true ->
  text_of w1 h = l1 +:+ l2 +:+ l3 +:+ l4 +:+ l5 +:+ l6 +:+ body ->
  List.forallb Str.is_line [l1; l2; l3; l4; l5; l6] = true ->
  header_field Py.int_of_string l1 = inr nx ->
  header_field Py.int_of_string l2 = inr ny ->
  header_field Py.float_of_string l3 = inr xo ->
  header_field Py.float_of_string l4 = inr yo ->
  header_field Py.float_of_string l5 = inr dx ->
  header_field Py.float_of_string l6 = inr missing ->
  1 <= nx -> Z.of_nat (Str.count_lines body) < ny ->
  exists e,
    (read arg w).2 = inl e /\ is_ValueError e = true /\
    w_grids (read arg w).1 = w_grids w.
Proof.
  intros Hres Hr Htext Hlines H1 H2 H3 H4 H5 H6 Hnx Hny.
  apply all_lines in Hlines.
  destruct (read_result arg w w1 h l1 l2 l3 l4 l5 l6 body nx ny xo yo dx missing
              Hres Hr Htext Hlines H1 H2 H3 H4 H5 H6) as (Hret & _ & Herr).
  rewrite np_zeros_ok in Hret by lia.
  destruct (rows_of_text_truncated (range_down (Z.to_nat ny))
              {| nd_shape := (Z.to_nat ny, Z.to_nat nx);
                 nd_rows := replicate (Z.to_nat ny) (replicate (Z.to_nat nx) zero) |}
              body) as (e & He & Hve).
  - unfold range_down. rewrite length_rev, length_seq. lia.
  - apply range_down_lt.
  - simpl. lia.
  - rewrite He in Hret. destruct (Herr e Hret) as [Hg Hr2]. by exists e.
Qed.

(** C5 fails as it is stated: the header declares three rows and no column,
    two data lines follow, and [read] returns a grid of three rows. *)
Lemma read_truncated_without_columns :
  exists g,
    Str.count_lines (snd (Str.readlines 6 no_column_text)) = 2%nat /\
    returned (read (File 0)) (string_io no_column_text empty_world) = inr g /\
    ma_shape (data g) = (3%nat, 0%nat) /\
    ma_data (data g) = [[]; []; []].
Proof. eexists. vm_compute. repeat split; reflexivity. Qed.

Lemma read_truncated_raises_witness :
  resolve (File 0) ReadMode (string_io truncated_text empty_world)
    = (string_io truncated_text empty_world, inr 0%nat) /\
  readable (string_io truncated_text empty_world) 0 = true /\
  text_of (string_io truncated_text empty_world) 0
    = ("ncols 2" +:+ nl) +:+ ("nrows 3" +:+ nl) +:+ ("xllcorner 0.0" +:+ nl) +:+
      ("yllcorner 0.0" +:+ nl) +:+ ("cellsize 10.0" +:+ nl) +:+
      ("NODATA_value -1.0" +:+ nl) +:+ lines ["5.0 6.0"; "1.0 2.0"] /\
  1 <= 2 /\ Z.of_nat (Str.count_lines (lines ["5.0 6.0"; "1.0 2.0"])) < 3 /\
  exists e,
    (read (File 0) (string_io truncated_text empty_world)).2 = inl e /\
    is_ValueError e = true /\
    w_grids (read (File 0) (string_io truncated_text empty_world)).1
      = w_grids (string_io truncated_text empty_world).
Proof.
  repeat (split; [first [reflexivity | lia] |]).
  apply (read_truncated_raises (File 0)
           (string_io truncated_text empty_world) (string_io truncated_text empty_world) 0
           ("ncols 2" +:+ nl) ("nrows 3" +:+ nl) ("xllcorner 0.0" +:+ nl)
           ("yllcorner 0.0" +:+ nl) ("cellsize 10.0" +:+ nl)
           ("NODATA_value -1.0" +:+ nl) (lines ["5.0 6.0"; "1.0 2.0"])
           2 3 0%float 0%float 10%float (-1)%float);
    first [reflexivity | lia].
Defined.

(** C6, as the code has it.  When the six header lines convert and one of
    the [nrows] data lines has a number of tokens that is neither [ncols] nor
    one, [read] raises an exception of the class ValueError and makes no
    grid: the line is neither padded nor cut.  A data line of exactly one
    token is accepted whatever [ncols] is: its value fills the row. *)
Theorem read_row_width_raises (arg : file_arg) (w w1 : world) (h : nat)
    (l1 l2 l3 l4 l5 l6 rest : string) (ds : list string) (k : nat) (d : string)
    (nx ny : Z) (xo yo dx missing : float) :
  resolve arg ReadMode w = (w1, inr h) -> readable w1 h = true ->
  text_of w1 h = l1 +:+ l2 +:+ l3 +:+ l4 +:+ l5 +:+ l6 +:+ Str.cat ds +:+ rest ->
  List.forallb Str.is_line [l1; l2; l3; l4; l5; l6] = true ->
  header_field Py.int_of_string l1 = inr nx ->
  header_field Py.int_of_string l2 = inr ny ->
  header_field Py.float_of_string l3 = inr xo ->
  header_field Py.float_of_string l4 = inr yo ->
  header_field Py.float_of_string l5 = inr dx ->
  header_field Py.float_of_string l6 = inr missing ->
  1 <= nx ->
  List.forallb Str.is_line ds = true -> length ds = Z.to_nat ny ->
  ds !! k = Some d ->
  length (Str.split d) <> Z.to_nat nx -> length (Str.split d) <> 1%nat ->
  exists e,
    (read arg w).2 = inl e /\ is_ValueError e = true /\
    w_grids (read arg w).1 = w_grids w.
Proof.
  intros Hres Hr Htext Hlines H1 H2 H3 H4 H5 H6 Hnx Hds Hlen Hk Hbad1 Hbad2.
  apply all_lines in Hlines. apply all_lines in Hds.
  destruct (read_result arg w w1 h l1 l2 l3 l4 l5 l6 (Str.cat ds +:+ rest)
              nx ny xo yo dx missing
              Hres Hr Htext Hlines H1 H2 H3 H4 H5 H6) as (Hret & _ & Herr).
  assert (0 <= ny).
  { destruct (Z.le_gt_cases 0 ny) as [|Hneg]; [done |].
    rewrite Z2Nat.nonpos in Hlen by lia. destruct ds; [| done].
    by rewrite lookup_nil in Hk. }
  rewrite np_zeros_ok in Hret by lia.
  destruct (rows_of_text_bad (range_down (Z.to_nat ny)) ds
              {| nd_shape := (Z.to_nat ny, Z.to_nat nx);
                 nd_rows := replicate (Z.to_nat ny) (replicate (Z.to_nat nx) zero) |}
              rest k d) as (e & He & Hve); try done.
  - unfold range_down. by rewrite length_rev, length_seq.
  - apply range_down_lt.
  - rewrite He in Hret. destruct (Herr e Hret) as [Hg Hr2]. by exists e.
Qed.

(** C6 fails as it is stated: the header declares two columns, the data line
    has one token, and [read] returns a grid whose row holds the value of
    this token twice. *)
Lemma read_broadcasts_one_token :
  exists g,
    map (fun l => length (Str.split l)) (fst (Str.readlines 1 (snd (Str.readlines 6 one_token_text))))
      = [1%nat] /\
    returned (read (File 0)) (string_io one_token_text empty_world) = inr g /\
    ma_shape (data g) = (1%nat, 2%nat) /\
    ma_data (data g) = [[5%float; 5%float]].
Proof. eexists. vm_compute. repeat split; reflexivity. Qed.

Lemma read_row_width_raises_witness :
  resolve (File 0) ReadMode (string_io three_token_text empty_world)
    = (string_io three_token_text empty_world, inr 0%nat) /\
  readable (string_io three_token_text empty_world) 0 = true /\
  text_of (string_io three_token_text empty_world) 0
    = ("ncols 2" +:+ nl) +:+ ("nrows 2" +:+ nl) +:+ ("xllcorner 0.0" +:+ nl) +:+
      ("yllcorner 0.0" +:+ nl) +:+ ("cellsize 10.0" +:+ nl) +:+
      ("NODATA_value -1.0" +:+ nl) +:+
      Str.cat ["5.0 6.0" +:+ nl; "1.0 2.0 3.0" +:+ nl] +:+ EmptyString /\
  length (Str.split ("1.0 2.0 3.0" +:+ nl)) = 3%nat /\
  exists e,
    (read (File 0) (string_io three_token_text empty_world)).2 = inl e /\
    is_ValueError e = true /\
    w_grids (read (File 0) (string_io three_token_text empty_world)).1
      = w_grids (string_io three_token_text empty_world).
Proof.
  repeat (split; [reflexivity |]).
  apply (read_row_width_raises (File 0)
           (string_io three_token_text empty_world)
           (string_io three_token_text empty_world) 0
           ("ncols 2" +:+ nl) ("nrows 2" +:+ nl) ("xllcorner 0.0" +:+ nl)
           ("yllcorner 0.0" +:+ nl) ("cellsize 10.0" +:+ nl)
           ("NODATA_value -1.0" +:+ nl) EmptyString
           ["5.0 6.0" +:+ nl; "1.0 2.0 3.0" +:+ nl] 1 ("1.0 2.0 3.0" +:+ nl)
           2 2 0%float 0%float 10%float (-1)%float);
    first [reflexivity | lia | (vm_compute; lia) | (vm_compute; congruence)].
Defined.

(** C10. [read] reads the six header lines and [nrows] data lines, and
    nothing of what follows.  Take two streams whose texts begin with the
    same six header lines, which convert, and the same [nrows] complete data
    lines, and go on with any texts [rest] and [rest'].  [read] returns the
    same on both, the same grid or the same exception.  And when the input
    is well formed, that is when numpy accepts the shape and each data line
    converts to [ncols] floats, [read] raises nothing: on both streams it
    returns the same grid, and what it leaves unread in them is exactly
    [rest] and [rest'], so that it has read the six header lines and the
    [nrows] data lines and no more. *)
Theorem read_ignores_what_follows (arg arg' : file_arg) (w w1 w' w1' : world) (h h' : nat)
    (l1 l2 l3 l4 l5 l6 rest rest' : string) (ds : list string)
    (nx ny : Z) (xo yo dx missing : float) :
  resolve arg ReadMode w = (w1, inr h) -> readable w1 h = true ->
  resolve arg' ReadMode w' = (w1', inr h') -> readable w1' h' = true ->
  text_of w1 h = l1 +:+ l2 +:+ l3 +:+ l4 +:+ l5 +:+ l6 +:+ Str.cat ds +:+ rest ->
  text_of w1' h' = l1 +:+ l2 +:+ l3 +:+ l4 +:+ l5 +:+ l6 +:+ Str.cat ds +:+ rest' ->
  List.forallb Str.is_line [l1; l2; l3; l4; l5; l6] = true ->
  header_field Py.int_of_string l1 = inr nx ->
  header_field Py.int_of_string l2 = inr ny ->
  header_field Py.float_of_string l3 = inr xo ->
  header_field Py.float_of_string l4 = inr yo ->
  header_field Py.float_of_string l5 = inr dx ->
  header_field Py.float_of_string l6 = inr missing ->
  List.forallb Str.is_line ds = true -> length ds = Z.to_nat ny ->
  returned (read arg) w = returned (read arg') w' /\
  (allocatable ny nx = true ->
   forall vs,
     Forall2 (fun d v => floats (Str.split d) = inr v /\ length v = Z.to_nat nx) ds vs ->
     exists g,
       returned (read arg) w = inr g /\ returned (read arg') w' = inr g /\
       ma_shape (data g) = (Z.to_nat ny, Z.to_nat nx) /\
       ma_data (data g) = rev vs /\
       text_of (read arg w).1 h = rest /\ text_of (read arg' w').1 h' = rest').
Proof.
  intros Hres Hr Hres' Hr' Htext Htext' Hlines H1 H2 H3 H4 H5 H6 Hds Hlen.
  apply all_lines in Hlines. apply all_lines in Hds.
  destruct (read_result arg w w1 h l1 l2 l3 l4 l5 l6 (Str.cat ds +:+ rest)
              nx ny xo yo dx missing
              Hres Hr Htext Hlines H1 H2 H3 H4 H5 H6) as (Hret & Hleft & _).
  destruct (read_result arg' w' w1' h' l1 l2 l3 l4 l5 l6 (Str.cat ds +:+ rest')
              nx ny xo yo dx missing
              Hres' Hr' Htext' Hlines H1 H2 H3 H4 H5 H6) as (Hret' & Hleft' & _).
  split.
  - rewrite Hret, Hret'.
    destruct (np_zeros ny nx) as [e|a0] eqn:Hz; [done |].
    assert (Hn : length ds = length (range_down (Z.to_nat ny))).
    { unfold range_down. by rewrite length_rev, length_seq. }
    destruct (rows_of_text_rest _ ds a0 rest Hds Hn) as [E1 _].
    destruct (rows_of_text_rest _ ds a0 rest' Hds Hn) as [E2 _].
    by rewrite E1, E2.
  - intros Hshape vs Hvs.
    destruct (allocatable_nonneg _ _ Hshape) as [Hny Hnx].
    assert (Hfit : Forall2 (fun d v => is_line d = true /\ floats (split d) = inr v /\
                                       length v = Z.to_nat nx) ds vs).
    { clear -Hds Hvs. induction Hvs as [|d v ds vs Hd Hvs IH]; [constructor |].
      apply Forall_cons in Hds as [Hl Hds]. constructor; [done | by apply IH]. }
    pose proof (np_zeros_ok ny nx Hny Hnx) as Hz.
    rewrite Hz in Hret, Hret'.
    specialize (Hleft _ Hz). specialize (Hleft' _ Hz).
    pose proof (fun r => rows_of_text_fit (Z.to_nat ny) ds vs
                 {| nd_shape := (Z.to_nat ny, Z.to_nat nx);
                    nd_rows := replicate (Z.to_nat ny) (replicate (Z.to_nat nx) zero) |}
                 r Hfit Hlen (Nat.le_refl _)) as Hrows.
    cbn [fst snd nd_shape nd_rows] in Hrows.
    rewrite Hrows in Hret, Hleft by (by rewrite length_replicate).
    rewrite Hrows in Hret', Hleft' by (by rewrite length_replicate).
    cbn [fst snd] in Hret, Hret', Hleft, Hleft'.
    rewrite drop_ge, List.app_nil_r in Hret, Hret' by (by rewrite length_replicate).
    eexists. split; [exact Hret |]. split; [exact Hret' |]. by cbn.
Qed.

Lemma read_ignores_what_follows_witness :
  returned (read (File 0)) (string_io (scenario_text +:+ "7.0 8.0 9.0") empty_world)
    = returned (read (Path "dem.asc")) (disk_world "dem.asc" scenario_text) /\
  allocatable 2 2 = true /\
  exists g,
    returned (read (File 0)) (string_io (scenario_text +:+ "7.0 8.0 9.0") empty_world)
      = inr g /\
    returned (read (Path "dem.asc")) (disk_world "dem.asc" scenario_text) = inr g /\
    ma_shape (data g) = (Z.to_nat 2, Z.to_nat 2) /\
    ma_data (data g) = rev [[5%float; 6%float]; [1%float; 2%float]] /\
    text_of (read (File 0) (string_io (scenario_text +:+ "7.0 8.0 9.0") empty_world)).1 0
      = "7.0 8.0 9.0" /\
    text_of (read (Path "dem.asc") (disk_world "dem.asc" scenario_text)).1 0
      = EmptyString.
Proof.
  destruct (read_ignores_what_follows (File 0) (Path "dem.asc")
           (string_io (scenario_text +:+ "7.0 8.0 9.0") empty_world)
           (string_io (scenario_text +:+ "7.0 8.0 9.0") empty_world)
           (disk_world "dem.asc" scenario_text)
           (open_ "dem.asc" ReadMode (disk_world "dem.asc" scenario_text)).1
           0 0
           ("ncols 2" +:+ nl) ("nrows 2" +:+ nl) ("xllcorner 0.0" +:+ nl)
           ("yllcorner 0.0" +:+ nl) ("cellsize 10.0" +:+ nl)
           ("NODATA_value -1.0" +:+ nl) "7.0 8.0 9.0" EmptyString
           ["5.0 6.0" +:+ nl; "1.0 2.0" +:+ nl]
           2 2 0%float 0%float 10%float (-1)%float
           eq_refl eq_refl eq_refl eq_refl eq_refl eq_refl eq_refl eq_refl eq_refl
           eq_refl eq_refl eq_refl eq_refl eq_refl eq_refl) as [Hsame Hgrid].
  split; [exact Hsame |]. split; [reflexivity |].
  apply (Hgrid eq_refl [[5%float; 6%float]; [1%float; 2%float]]).
  repeat constructor.
Defined.

Lemma rev_lookup_flip {A} (l : list A) (k : nat) (x : A) :
  l !! k = Some x -> rev l !! (length l - 1 - k)%nat = Some x.
Proof.
  intros Hk. pose proof (lookup_lt_Some _ _ _ Hk) as Hlt.
  rewrite rev_alt. fold (reverse l). rewrite reverse_lookup by lia.
  by replace (length l - S (length l - 1 - k))%nat with k by lia.
Qed.

(** C2. The scenario of the spec and the order of the rows.  On the header
    ncols 2, nrows 2, xllcorner 0.0, yllcorner 0.0, cellsize 10.0,
    NODATA_value -1.0 and the data lines 5.0 6.0 and 1.0 2.0, [read] returns
    the grid whose storage row 0 is 1.0 2.0 and whose storage row 1 is
    5.0 6.0, with no cell masked, the origin (0.0, 0.0) and the cell size
    10.0.  In general, when the header converts to a shape that numpy
    accepts and each of the [nrows] data lines converts to [ncols] floats,
    [read] returns a grid of this shape, this origin and this cell
    size in which the data line at position [k] is the storage row
    [nrows - 1 - k]: the first data line is the last storage row and the last
    data line is the storage row 0. *)
Theorem read_rows_bottom_up :
  returned (read (File 0)) (string_io scenario_text empty_world) =
    inr {| _origin := (0%float, 0%float);
           _delta := 10%float;
           data := {| ma_shape := (2%nat, 2%nat);
                      ma_data := [[1%float; 2%float]; [5%float; 6%float]];
                      ma_mask := [[false; false]; [false; false]] |} |} /\
  forall (arg : file_arg) (w w1 : world) (h : nat)
         (l1 l2 l3 l4 l5 l6 rest : string) (ds : list string) (vs : list (list float))
         (nx ny : Z) (xo yo dx missing : float),
    resolve arg ReadMode w = (w1, inr h) -> readable w1 h = true ->
    text_of w1 h = l1 +:+ l2 +:+ l3 +:+ l4 +:+ l5 +:+ l6 +:+ Str.cat ds +:+ rest ->
    List.forallb Str.is_line [l1; l2; l3; l4; l5; l6] = true ->
    header_field Py.int_of_string l1 = inr nx ->
    header_field Py.int_of_string l2 = inr ny ->
    header_field Py.float_of_string l3 = inr xo ->
    header_field Py.float_of_string l4 = inr yo ->
    header_field Py.float_of_string l5 = inr dx ->
    header_field Py.float_of_string l6 = inr missing ->
    allocatable ny nx = true -> length ds = Z.to_nat ny ->
    Forall2 (fun d v => Str.is_line d = true /\ floats (Str.split d) = inr v /\
                        length v = Z.to_nat nx) ds vs ->
    exists g,
      returned (read arg) w = inr g /\
      ma_shape (data g) = (Z.to_nat ny, Z.to_nat nx) /\
      _origin g = (xo, yo) /\ _delta g = dx /\
      forall k v, vs !! k = Some v ->
        ma_data (data g) !! (Z.to_nat ny - 1 - k)%nat = Some v.
Proof.
  split; [vm_compute; reflexivity |].
  intros arg w w1 h l1 l2 l3 l4 l5 l6 rest ds vs nx ny xo yo dx missing
    Hres Hr Htext Hlines H1 H2 H3 H4 H5 H6 Hshape Hlen Hfit.
  destruct (allocatable_nonneg _ _ Hshape) as [Hny Hnx].
  apply all_lines in Hlines.
  destruct (read_result arg w w1 h l1 l2 l3 l4 l5 l6 (Str.cat ds +:+ rest)
              nx ny xo yo dx missing
              Hres Hr Htext Hlines H1 H2 H3 H4 H5 H6) as (Hret & _ & _).
  rewrite np_zeros_ok in Hret by done.
  rewrite (rows_of_text_fit (Z.to_nat ny) ds vs) in Hret;
    [| done | done | done | simpl; by rewrite length_replicate].
  cbn [snd nd_shape nd_rows] in Hret.
  rewrite drop_ge, List.app_nil_r in Hret by (by rewrite length_replicate).
  eexists. split; [exact Hret |]. cbn. repeat split.
  intros k v Hk.
  rewrite <- Hlen, (Forall2_length _ _ _ Hfit). by apply rev_lookup_flip.
Qed.

Lemma read_rows_bottom_up_witness :
  allocatable 3 1 = true /\
  exists g,
    returned (read (File 0)) (string_io three_rows_text empty_world) = inr g /\
    ma_shape (data g) = (Z.to_nat 3, Z.to_nat 1) /\
    _origin g = (0%float, 0%float) /\ _delta g = 10%float /\
    forall k v, [[7%float]; [8%float]; [9%float]] !! k = Some v ->
      ma_data (data g) !! (Z.to_nat 3 - 1 - k)%nat = Some v.
Proof.
  split; [reflexivity |].
  apply (proj2 read_rows_bottom_up (File 0)
           (string_io three_rows_text empty_world)
           (string_io three_rows_text empty_world) 0%nat
           ("ncols 1" +:+ nl) ("nrows 3" +:+ nl) ("xllcorner 0.0" +:+ nl)
           ("yllcorner 0.0" +:+ nl) ("cellsize 10.0" +:+ nl)
           ("NODATA_value -1.0" +:+ nl) EmptyString
           ["7.0" +:+ nl; "8.0" +:+ nl; "9.0" +:+ nl]
           [[7%float]; [8%float]; [9%float]]
           1 3 0%float 0%float 10%float (-1)%float);
    first [reflexivity | lia | (repeat constructor)].
Defined.

Lemma reads_back_row g missing ny i :
  Forall reads_back (concat (map (emit_row g missing) (range ny))) ->
  (i < ny)%nat -> Forall reads_back (emit_row g missing i).
Proof.
  intros H Hi. apply Forall_forall. intros x Hx.
  rewrite Forall_forall in H. apply H.
  apply list_elem_of_In, in_concat. exists (emit_row g missing i).
  split; [| by apply list_elem_of_In].
  apply in_map, in_seq. lia.
Qed.

Lemma length_emit_row g missing i :
  length (emit_row g missing i) = snd (ma_shape (data g)).
Proof. unfold emit_row, range. by rewrite length_map, length_seq. Qed.

Lemma body_lines_fit g missing ny nx :
  ma_shape (data g) = (ny, nx) ->
  Forall reads_back (concat (map (emit_row g missing) (range ny))) ->
  Forall2 (fun d v => is_line d = true /\ floats (split d) = inr v /\ length v = nx)
    (body_lines g missing) (map (emit_row g missing) (range_down ny)).
Proof.
  intros Hshape Hrb. unfold body_lines. rewrite Hshape. cbn [fst].
  apply Forall2_fmap, Forall_Forall2_diag, Forall_forall.
  intros i Hi.
  assert (i < ny)%nat.
  { pose proof (range_down_lt ny) as Hlt. rewrite Forall_forall in Hlt. by apply Hlt. }
  split; [apply is_line_row_line | split].
  - rewrite split_row_line. apply floats_format. by eapply reads_back_row.
  - by rewrite length_emit_row, Hshape.
Qed.

Lemma cell_emit_rows g missing ny nx i j :
  ma_shape (data g) = (ny, nx) -> (i < ny)%nat -> (j < nx)%nat ->
  cell (map (emit_row g missing) (range ny)) i j = Some (emit g missing i j).
Proof.
  intros Hshape Hi Hj. unfold cell, range.
  rewrite list_lookup_fmap, lookup_seq_lt by done. cbn.
  unfold emit_row, range. rewrite Hshape. cbn [snd].
  by rewrite list_lookup_fmap, lookup_seq_lt.
Qed.

Lemma cell_fmap {A B} (f : A -> B) (rows : list (list A)) i j :
  cell (map (map f) rows) i j = f <$> cell rows i j.
Proof.
  unfold cell. rewrite list_lookup_fmap.
  destruct (rows !! i) as [r|]; [| done]. cbn. by rewrite list_lookup_fmap.
Qed.

(** C1, as the code has it.  Take a grid [g] of [ny] rows and [nx] columns
    and a sentinel [m] such that the texts of the origin, of the cell size,
    of [m] and of the numbers that stand for the cells read back as these
    numbers.  Then [write] returns normally after appending a text, and
    [read] on any stream that begins with this text returns a grid [g'],
    leaving what follows the text unread.  [g'] has the shape, the origin and
    the cell size of [g].  A cell that is not masked in [g] holds in [g'] the
    value it has in [g], and a cell that is masked in [g] holds [m].  A cell
    of [g'] is masked exactly when the number it holds equals [m]: a masked
    cell of [g] is masked in [g'] when [m] equals itself (it is not a NaN),
    and a cell of [g] that is not masked is masked in [g'] when its value
    equals [m]. *)
Theorem write_then_read (argw : file_arg) (q : nat) (g : GridData) (missing : float)
    (w w1 : world) (hw ny nx : nat) :
  resolve argw WriteMode w = (w1, inr hw) -> writable w1 hw = true ->
  w_grids w !! q = Some g -> wf_grid g -> ma_shape (data g) = (ny, nx) ->
  Forall reads_back
    (fst (_origin g) :: snd (_origin g) :: _delta g :: missing ::
     concat (map (emit_row g missing) (range ny))) ->
  exists written g',
    write argw q missing w = (set_text hw (text_of w1 hw +:+ written) w1, inr tt) /\
    (forall argr w2 w3 hr rest,
       resolve argr ReadMode w2 = (w3, inr hr) -> readable w3 hr = true ->
       text_of w3 hr = written +:+ rest ->
       returned (read argr) w2 = inr g' /\ text_of (read argr w2).1 hr = rest) /\
    ma_shape (data g') = ma_shape (data g) /\
    _origin g' = _origin g /\ _delta g' = _delta g /\
    forall i j b v,
      cell (ma_mask (data g)) i j = Some b ->
      cell (ma_data (data g)) i j = Some v ->
      cell (ma_data (data g')) i j = Some (if b then missing else v) /\
      cell (ma_mask (data g')) i j
        = Some (PrimFloat.eqb (if b then missing else v) missing).
Proof.
  intros Hres Hw Hq Hwf Hshape Hrb.
  apply Forall_cons in Hrb as [Hxo Hrb]. apply Forall_cons in Hrb as [Hyo Hrb].
  apply Forall_cons in Hrb as [Hdx Hrb]. apply Forall_cons in Hrb as [Hm Hrb].
  exists (grid_text g missing),
    (GridData_init (_origin g) (_delta g)
       {| nd_shape := (ny, nx); nd_rows := map (emit_row g missing) (range ny) |}
       (Some missing)).
  split; [by apply write_run |]. split; [| split; [| split; [| split]]].
  - intros argr w2 w3 hr rest Hres2 Hr2 Htext.
    assert (Htext' : text_of w3 hr =
      header_line "ncols" (Py.format_int (Z.of_nat nx)) +:+
      header_line "nrows" (Py.format_int (Z.of_nat ny)) +:+
      header_line "xllcorner" (Py.format_float (fst (_origin g))) +:+
      header_line "yllcorner" (Py.format_float (snd (_origin g))) +:+
      header_line "cellsize" (Py.format_float (_delta g)) +:+
      header_line "NODATA_value" (Py.format_float missing) +:+
      Str.cat (body_lines g missing) +:+ rest).
    { rewrite Htext. unfold grid_text, header_lines, keywords.
      rewrite Hshape. cbn [fst snd zip_with Str.cat].
      rewrite !app_assoc. reflexivity. }
    destruct (read_result argr w2 w3 hr _ _ _ _ _ _ _
                (Z.of_nat nx) (Z.of_nat ny) (fst (_origin g)) (snd (_origin g))
                (_delta g) missing Hres2 Hr2 Htext') as (Hret & Hleft & _).
    + repeat constructor; apply is_line_header_line;
        first [done | apply format_int_token | apply format_float_token].
    + rewrite header_field_header_line;
        first [apply int_of_format | done | apply format_int_token
              | (unfold keyword_width; simpl; lia)].
    + rewrite header_field_header_line;
        first [apply int_of_format | done | apply format_int_token
              | (unfold keyword_width; simpl; lia)].
    + rewrite header_field_header_line;
        first [done | apply format_float_token | (unfold keyword_width; simpl; lia)].
    + rewrite header_field_header_line;
        first [done | apply format_float_token | (unfold keyword_width; simpl; lia)].
    + rewrite header_field_header_line;
        first [done | apply format_float_token | (unfold keyword_width; simpl; lia)].
    + rewrite header_field_header_line;
        first [done | apply format_float_token | (unfold keyword_width; simpl; lia)].
    + rewrite np_zeros_ok in Hret by lia.
      specialize (Hleft _ (np_zeros_ok (Z.of_nat ny) (Z.of_nat nx) ltac:(lia) ltac:(lia))).
      rewrite !Nat2Z.id in Hret, Hleft.
      pose proof (rows_of_text_fit ny (body_lines g missing)
                 (map (emit_row g missing) (range_down ny))
                 {| nd_shape := (ny, nx);
                    nd_rows := replicate ny (replicate nx zero) |} rest) as Hfit.
      rewrite Hfit in Hret;
        [| by apply body_lines_fit
         | unfold body_lines, range_down; rewrite Hshape; cbn [fst];
           by rewrite length_map, length_rev, length_seq
         | done
         | simpl; by rewrite length_replicate ].
      rewrite Hfit in Hleft;
        [| by apply body_lines_fit
         | unfold body_lines, range_down; rewrite Hshape; cbn [fst];
           by rewrite length_map, length_rev, length_seq
         | done
         | simpl; by rewrite length_replicate ].
      cbn [fst snd nd_shape nd_rows] in Hret, Hleft.
      rewrite drop_ge, List.app_nil_r in Hret by (by rewrite length_replicate).
      unfold range_down in Hret. rewrite map_rev, rev_involutive in Hret.
      rewrite <- surjective_pairing in Hret. by split.
  - by cbn.
  - by cbn.
  - by cbn.
  - intros i j b v Hb Hv. cbn [GridData_init data ma_data ma_mask nd_rows].
    destruct Hwf as [Hd _].
    destruct (cell_lt _ _ _ _ _ Hd Hv) as [Hi Hj]. rewrite Hshape in Hi, Hj.
    rewrite cell_fmap, (cell_emit_rows _ _ _ _ _ _ Hshape Hi Hj).
    by rewrite (emit_cell _ _ _ _ _ _ Hb Hv).
Qed.

(** C1 fails as it is stated.  With the sentinel [5.0], the cell [(0, 0)] of
    the grid, which holds [5.0] and is not masked, is masked in the grid that
    is read back.  With a NaN as the sentinel, the cell [(0, 1)], which is
    masked, is not masked in the grid that is read back. *)
Lemma roundtrip_changes_mask :
  (exists written g',
     write (File 0) 0 5%float (writer_world small_grid)
       = (set_text 0 written (writer_world small_grid), inr tt) /\
     returned (read (File 0)) (string_io written empty_world) = inr g' /\
     cell (ma_mask (data small_grid)) 0 0 = Some false /\
     cell (ma_mask (data g')) 0 0 = Some true) /\
  (exists written g',
     write (File 0) 0 nan (writer_world small_grid)
       = (set_text 0 written (writer_world small_grid), inr tt) /\
     returned (read (File 0)) (string_io written empty_world) = inr g' /\
     cell (ma_mask (data small_grid)) 0 1 = Some true /\
     cell (ma_mask (data g')) 0 1 = Some false).
Proof.
  split.
  - exists (grid_text small_grid 5%float). eexists.
    split; [vm_compute; reflexivity |].
    split; [vm_compute; reflexivity |]. split; reflexivity.
  - exists (grid_text small_grid nan). eexists.
    split; [vm_compute; reflexivity |].
    split; [vm_compute; reflexivity |]. split; reflexivity.
Qed.

Lemma write_then_read_witness :
  wf_grid example_grid /\
  Forall reads_back
    (fst (_origin example_grid) :: snd (_origin example_grid) ::
     _delta example_grid :: (-9999)%float ::
     concat (map (emit_row example_grid (-9999)%float) (range 2))) /\
  exists written g',
    write (File 0) 0 (-9999)%float (writer_world example_grid)
      = (set_text 0 (text_of (writer_world example_grid) 0 +:+ written)
           (writer_world example_grid), inr tt) /\
    (forall argr w2 w3 hr rest,
       resolve argr ReadMode w2 = (w3, inr hr) -> readable w3 hr = true ->
       text_of w3 hr = written +:+ rest ->
       returned (read argr) w2 = inr g' /\ text_of (read argr w2).1 hr = rest) /\
    ma_shape (data g') = ma_shape (data example_grid) /\
    _origin g' = _origin example_grid /\ _delta g' = _delta example_grid /\
    forall i j b v,
      cell (ma_mask (data example_grid)) i j = Some b ->
      cell (ma_data (data example_grid)) i j = Some v ->
      cell (ma_data (data g')) i j = Some (if b then (-9999)%float else v) /\
      cell (ma_mask (data g')) i j
        = Some (PrimFloat.eqb (if b then (-9999)%float else v) (-9999)%float).
Proof.
  assert (Hwf : wf_grid example_grid) by (repeat constructor).
  assert (Hrb : Forall reads_back
    (fst (_origin example_grid) :: snd (_origin example_grid) ::
     _delta example_grid :: (-9999)%float ::
     concat (map (emit_row example_grid (-9999)%float) (range 2)))).
  { repeat constructor; vm_compute; reflexivity. }
  split; [exact Hwf |]. split; [exact Hrb |].
  apply (write_then_read (File 0) 0 example_grid (-9999)%float
           (writer_world example_grid) (writer_world example_grid) 0 2 2);
    first [reflexivity | exact Hwf | exact Hrb].
Defined.

Lemma write_body_layout_witness :
  wf_grid example_grid /\
  exists body,
    write (Path "out.asc") 0 (-9999)%float (grid_world example_grid) =
      (set_text 0
         (text_of (open_ "out.asc" WriteMode (grid_world example_grid)).1 0 +:+
          Str.cat (header_lines 2 2 (_origin example_grid) (_delta example_grid)
                     (-9999)%float) +:+
          Str.cat body)
         (open_ "out.asc" WriteMode (grid_world example_grid)).1, inr tt) /\
    length body = 2%nat /\
    Str.readlines 2 (Str.cat body) = (body, EmptyString) /\
    forall i, (i < 2)%nat ->
      exists line vals,
        body !! (2 - 1 - i)%nat = Some line /\
        line = Str.cat (map (fun v => Py.format_float v +:+ " ") vals) +:+ nl /\
        Str.split line = map Py.format_float vals /\
        length vals = 2%nat /\
        forall j b v,
          cell (ma_mask (data example_grid)) i j = Some b ->
          cell (ma_data (data example_grid)) i j = Some v ->
          vals !! j = Some (if b then (-9999)%float else v).
Proof.
  assert (Hwf : wf_grid example_grid) by (repeat constructor).
  split; [exact Hwf |].
  apply (write_body_layout (Path "out.asc") 0 example_grid (-9999)%float
           (grid_world example_grid)
           (open_ "out.asc" WriteMode (grid_world example_grid)).1 0 2 2);
    first [reflexivity | exact Hwf].
Defined.

(** The text that [write] makes of the example: the masked cell, which
    holds 3.5, is written as the sentinel, in the first data line. *)
Lemma write_example_text :
  text_of (write (File 0) 0 (-9999)%float (writer_world example_grid)).1 0 =
    lines ["ncols           2"; "nrows           2"; "xllcorner       0.0";
           "yllcorner       0.0"; "cellsize        1.0"; "NODATA_value    -9999.0";
           "-9999.0 4.0 "; "1.0 2.5 "].
Proof. vm_compute. reflexivity. Qed.

End Claims.

(** * Further properties of [read] and [write] *)

Module Extras.
Import Str StrFacts PyFacts StoreFacts WriteFacts ReadFacts RowFacts CodecFacts FrameFacts.
#[local] Arguments String.append !_ _ / : simpl nomatch.

Lemma lines_complete (ls : list string) :
  List.forallb is_line ls = true -> Forall (fun l => is_line l = true) ls.
Proof.
  intros H. apply Forall_forall. intros l Hl.
  rewrite forallb_forall in H. by apply H, list_elem_of_In.
Qed.

(** A header field that does not convert, or a header line that has no
    second token. *)
Lemma field_fail_at {A B} (conv : string -> exn + A) (k : A -> M B) w h (s : string) e :
  readable w h = true ->
  header_field conv (Str.readline s).1 = inl e ->
  (t <- rd h ;; x <- lift (conv t) ;; k x) (set_text h s w)
    = (set_text h (Str.readline s).2 w, inl e).
Proof.
  intros Hr He. unfold header_field in He.
  assert (Hrd : rd h (set_text h s w) =
    (set_text h (Str.readline s).2 w,
     match Str.split (Str.readline s).1 !! 1%nat with
     | Some t => inr t
     | None => inl IndexError
     end)).
  { unfold rd. erewrite bind_inr by (by apply file_readline_at).
    by destruct (Str.split _ !! 1%nat). }
  destruct (Str.split (Str.readline s).1 !! 1%nat) as [t|].
  - erewrite bind_inr by exact Hrd.
    erewrite bind_inl; [done |]. unfold lift. by rewrite He.
  - injection He as <-. by erewrite bind_inl by exact Hrd.
Qed.

Lemma header_check_int (k : nat) (l : string) :
  (k < 2)%nat -> header_check k l = inr tt ->
  exists v, header_field Py.int_of_string l = inr v.
Proof.
  intros Hk. unfold header_check. apply Nat.ltb_lt in Hk. rewrite Hk.
  destruct (header_field Py.int_of_string l) as [e|v]; [done |]. by exists v.
Qed.

Lemma header_check_float (k : nat) (l : string) :
  (2 <= k)%nat -> header_check k l = inr tt ->
  exists v, header_field Py.float_of_string l = inr v.
Proof.
  intros Hk. unfold header_check. apply Nat.ltb_ge in Hk. rewrite Hk.
  destruct (header_field Py.float_of_string l) as [e|v]; [done |]. by exists v.
Qed.

Lemma header_check_int_fail (k : nat) (l : string) e :
  (k < 2)%nat -> header_check k l = inl e ->
  header_field Py.int_of_string l = inl e.
Proof.
  intros Hk. unfold header_check. apply Nat.ltb_lt in Hk. rewrite Hk.
  destruct (header_field Py.int_of_string l) as [e'|v]; [| done]. by intros [= ->].
Qed.

Lemma header_check_float_fail (k : nat) (l : string) e :
  (2 <= k)%nat -> header_check k l = inl e ->
  header_field Py.float_of_string l = inl e.
Proof.
  intros Hk. unfold header_check. apply Nat.ltb_ge in Hk. rewrite Hk.
  destruct (header_field Py.float_of_string l) as [e'|v]; [| done]. by intros [= ->].
Qed.

Lemma header_prefix_ok_cons (k : nat) (l : string) (ls : list string) :
  header_prefix_ok k (l :: ls) = true ->
  header_check k l = inr tt /\ header_prefix_ok (S k) ls = true.
Proof.
  simpl. destruct (header_check k l) as [e|[]]; [done |]. by split.
Qed.

(** X1. The header: when one of the six header lines has no second token
    (the stream may end there) or its second token does not convert, and the
    lines before it convert, [read] raises the exception of this line,
    IndexError or the ValueError of the conversion, having read this line and
    nothing after it; it makes no grid. *)
Theorem read_header_error (arg : file_arg) (w w1 : world) (h : nat)
    (ls : list string) (rest : string) (e : exn) :
  resolve arg ReadMode w = (w1, inr h) -> readable w1 h = true ->
  text_of w1 h = Str.cat ls +:+ rest ->
  List.forallb Str.is_line ls = true -> (length ls < 6)%nat ->
  header_prefix_ok 0 ls = true ->
  header_check (length ls) (Str.readline rest).1 = inl e ->
  read arg w = (set_text h (Str.readline rest).2 w1, inl e) /\
  w_grids (read arg w).1 = w_grids w.
Proof.
  intros Hres Hr Htext Hlines Hlen Hok Hbad.
  apply lines_complete in Hlines.
  assert (Hrun : read arg w = (set_text h (Str.readline rest).2 w1, inl e)).
  { rewrite (read_via _ _ _ _ Hres).
    rewrite <- (set_text_id h w1) at 1. rewrite Htext.
    unfold read. erewrite bind_inr by reflexivity.
    repeat match goal with
    | H : Forall _ (_ :: _) |- _ => apply Forall_cons in H as [? H]
    end.
    repeat match type of Hok with
    | header_prefix_ok _ (_ :: _) = true =>
        apply header_prefix_ok_cons in Hok as [? Hok]
    end.
    destruct ls as [|l1 [|l2 [|l3 [|l4 [|l5 [|l6 ls]]]]]];
      simpl in Hlen; try lia; cbn [Str.cat length] in *; rewrite ?app_assoc;
      repeat match goal with
      | H : Forall _ (_ :: _) |- _ => apply Forall_cons in H as [? H]
      end;
      repeat match type of Hok with
      | header_prefix_ok _ (_ :: _) = true =>
          apply header_prefix_ok_cons in Hok as [? Hok]
      end;
      repeat match goal with
      | H : header_check ?k ?l = inr tt |- _ =>
          first [ apply header_check_int in H as [? H]; [| lia]
                | apply header_check_float in H as [? H]; [| lia] ]
      end;
      repeat (erewrite field_at by eassumption);
      apply field_fail_at; try done;
      first [ apply header_check_int_fail in Hbad; [done | lia]
            | apply header_check_float_fail in Hbad; [done | lia] ]. }
  split; [done |]. rewrite Hrun. cbn [fst].
  rewrite w_grids_set_text. by eapply resolve_grids.
Qed.
Lemma read_header_error_witness :
  (length ["ncols 2" +:+ nl] < 6)%nat /\
  read (File 0) (string_io malformed_text empty_world)
    = (set_text 0 EmptyString (string_io malformed_text empty_world),
       inl (ValueError_int "two")) /\
  w_grids (read (File 0) (string_io malformed_text empty_world)).1 = [].
Proof.
  split; [simpl; lia |].
  apply (read_header_error (File 0)
           (string_io malformed_text empty_world)
           (string_io malformed_text empty_world) 0%nat
           ["ncols 2" +:+ nl] ("nrows two" +:+ nl) (ValueError_int "two"));
    first [reflexivity | simpl; lia].
Defined.

(** X2. Negative dimensions: when the header converts and [ncols] or [nrows]
    is negative, [read] raises the ValueError of [numpy.zeros]; it has read
    the six header lines and no data line, and it makes no grid. *)
Theorem read_negative_dimensions (arg : file_arg) (w w1 : world) (h : nat)
    (l1 l2 l3 l4 l5 l6 body : string) (nx ny : Z) (xo yo dx missing : float) :
  resolve arg ReadMode w = (w1, inr h) -> readable w1 h = true ->
  text_of w1 h = l1 +:+ l2 +:+ l3 +:+ l4 +:+ l5 +:+ l6 +:+ body ->
  List.forallb Str.is_line [l1; l2; l3; l4; l5; l6] = true ->
  header_field Py.int_of_string l1 = inr nx ->
  header_field Py.int_of_string l2 = inr ny ->
  header_field Py.float_of_string l3 = inr xo ->
  header_field Py.float_of_string l4 = inr yo ->
  header_field Py.float_of_string l5 = inr dx ->
  header_field Py.float_of_string l6 = inr missing ->
  nx < 0 \/ ny < 0 ->
  read arg w = (set_text h body w1, inl ValueError_negative_dimensions) /\
  w_grids (read arg w).1 = w_grids w.
Proof.
  intros Hres Hr Htext Hlines H1 H2 H3 H4 H5 H6 Hneg.
  apply lines_complete in Hlines.
  assert (Hrun : read arg w = (set_text h body w1, inl ValueError_negative_dimensions)).
  { rewrite (read_run arg w w1 h l1 l2 l3 l4 l5 l6 body nx ny xo yo dx missing)
      by assumption.
    erewrite bind_inl; [reflexivity |].
    rewrite read_data_at by done. unfold np_zeros.
    destruct (ny <? 0) eqn:Hy; [done |]. destruct (nx <? 0) eqn:Hx; [done |]. lia. }
  split; [done |]. rewrite Hrun. cbn [fst].
  rewrite w_grids_set_text. by eapply resolve_grids.
Qed.

Lemma read_negative_dimensions_witness :
  (-2 < 0 \/ 1 < 0) /\
  read (File 0)
    (string_io (lines ["ncols -2"; "nrows 1"; "xllcorner 0.0"; "yllcorner 0.0";
                       "cellsize 10.0"; "NODATA_value -1.0"; "5.0 6.0"]) empty_world)
  = (set_text 0 (lines ["5.0 6.0"])
       (string_io (lines ["ncols -2"; "nrows 1"; "xllcorner 0.0"; "yllcorner 0.0";
                          "cellsize 10.0"; "NODATA_value -1.0"; "5.0 6.0"]) empty_world),
     inl ValueError_negative_dimensions).
Proof.
  split; [lia |].
  apply (read_negative_dimensions (File 0)
           (string_io (lines ["ncols -2"; "nrows 1"; "xllcorner 0.0"; "yllcorner 0.0";
                              "cellsize 10.0"; "NODATA_value -1.0"; "5.0 6.0"]) empty_world)
           (string_io (lines ["ncols -2"; "nrows 1"; "xllcorner 0.0"; "yllcorner 0.0";
                              "cellsize 10.0"; "NODATA_value -1.0"; "5.0 6.0"]) empty_world)
           0%nat
           ("ncols -2" +:+ nl) ("nrows 1" +:+ nl) ("xllcorner 0.0" +:+ nl)
           ("yllcorner 0.0" +:+ nl) ("cellsize 10.0" +:+ nl)
           ("NODATA_value -1.0" +:+ nl) (lines ["5.0 6.0"])
           (-2) 1 0%float 0%float 10%float (-1)%float);
    first [reflexivity | lia].
Defined.
(** The assignment of a row, in terms of [row_of]. *)
Lemma set_row_row_of a i vals :
  (i < fst (nd_shape a))%nat ->
  set_row a i vals =
    match row_of (snd (nd_shape a)) vals with
    | Some r => inr {| nd_shape := nd_shape a; nd_rows := <[i := r]> (nd_rows a) |}
    | None => inl (ValueError_broadcast (length vals) (snd (nd_shape a)))
    end.
Proof.
  intros Hi. unfold set_row, row_of.
  apply Nat.ltb_lt in Hi. rewrite Hi. cbn [negb].
  destruct (length vals =? snd (nd_shape a))%nat; [done |].
  by destruct vals as [|v [|v' vals]].
Qed.

(** One turn of the loop of [read] on a line that gives a row. *)
Lemma row_step i rs a (d s : string) n r :
  is_line d = true -> data_row n d = inr r ->
  snd (nd_shape a) = n -> (i < fst (nd_shape a))%nat ->
  rows_of_text (i :: rs) a (d +:+ s) =
    rows_of_text rs {| nd_shape := nd_shape a; nd_rows := <[i := r]> (nd_rows a) |} s.
Proof.
  intros Hd Hr Hn Hi. cbn [rows_of_text]. rewrite (readline_line _ _ Hd).
  unfold data_row in Hr. destruct (floats (split d)) as [e|vals]; [done |].
  rewrite set_row_row_of by done. rewrite Hn.
  destruct (row_of n vals) as [r'|]; [| done]. by injection Hr as ->.
Qed.


(** The loop of [read] on data lines that give rows: the line [k] goes to
    the storage row [n - 1 - k]. *)
Lemma rows_of_text_rows (n : nat) :
  forall (ds : list string) (rws : list (list float)) (a : ndarray) (rest : string),
  Forall2 (fun d r => is_line d = true /\ data_row (snd (nd_shape a)) d = inr r) ds rws ->
  length ds = n ->
  (n <= fst (nd_shape a))%nat -> length (nd_rows a) = fst (nd_shape a) ->
  rows_of_text (range_down n) a (cat ds +:+ rest) =
    (rest, inr {| nd_shape := nd_shape a;
                  nd_rows := rev rws ++ drop n (nd_rows a) |}).
Proof.
  induction n as [|n IH]; intros ds rws a rest Hfit Hlen Hn Hrows.
  - destruct ds; [| done]. apply Forall2_nil_inv_l in Hfit as ->.
    simpl. rewrite drop_0. by destruct a.
  - destruct Hfit as [|d r ds rws (Hd & Hr) Hfit]; [done |].
    rewrite range_down_S. cbn [cat]. rewrite app_assoc.
    rewrite (row_step _ _ _ _ _ _ _ Hd Hr) by (done || lia).
    rewrite (IH ds rws) by (simpl in *; first [done | lia | by rewrite length_insert]).
    simpl. rewrite drop_insert_here by lia.
    by rewrite <- List.app_assoc.
Qed.







Lemma count_lines_empty (s : string) : count_lines s = 0%nat -> s = EmptyString.
Proof.
  destruct s as [|c r]; [done |]. intros H.
  rewrite (count_lines_readline (String c r)) in H; done.
Qed.

Lemma token_lines_empty : token_lines EmptyString = [].
Proof. reflexivity. Qed.

Lemma token_lines_readline (s : string) :
  s <> EmptyString ->
  token_lines s = split (readline s).1 :: token_lines (readline s).2.
Proof.
  intros Hs. unfold token_lines. rewrite (count_lines_readline s Hs).
  cbn [readlines]. destruct (readline s) as [l rest]. cbn [fst snd].
  by destruct (readlines (count_lines rest) rest).
Qed.

(** Texts with the same tokens give lines with the same tokens, and are left
    with the same tokens. *)
Lemma token_lines_step (s s' : string) :
  token_lines s = token_lines s' ->
  split (readline s).1 = split (readline s').1 /\
  token_lines (readline s).2 = token_lines (readline s').2.
Proof.
  intros H.
  destruct (String.string_dec s EmptyString) as [->|Hs];
    destruct (String.string_dec s' EmptyString) as [->|Hs']; [done | | |].
  - by rewrite token_lines_empty, (token_lines_readline s' Hs') in H.
  - by rewrite token_lines_empty, (token_lines_readline s Hs) in H.
  - rewrite (token_lines_readline s Hs), (token_lines_readline s' Hs') in H.
    by injection H.
Qed.

Lemma same_tokens_readline w h w' h' :
  same_tokens w h w' h' ->
  same_tokens (set_text h (readline (text_of w h)).2 w) h
              (set_text h' (readline (text_of w' h')).2 w') h'.
Proof.
  intros (Hr & Hr' & Ht). repeat split; rewrite ?readable_set_text; try done.
  rewrite !text_of_set_text by (by apply readable_is_Some).
  by apply token_lines_step.
Qed.

Lemma alike_lift {A} h h' (r : exn + A) : alike h h' (fun _ x => x) (lift r) (lift r).
Proof. by intros w w' H. Qed.

Lemma alike_bind {A B C} h h' (obs : world -> B -> C) (c c' : M A) (k k' : A -> M B) :
  alike h h' (fun _ x => x) c c' -> (forall x, alike h h' obs (k x) (k' x)) ->
  alike h h' obs (bind c k) (bind c' k').
Proof.
  intros Hc Hk w w' Hrel. destruct (Hc w w' Hrel) as [Ho Hs].
  unfold outcome, bind in *.
  destruct (c w) as [w1 [e|x]], (c' w') as [w1' [e'|x']]; cbn [fst snd] in *;
    try done.
  - by injection Ho as ->.
  - injection Ho as ->. by apply Hk.
Qed.

Lemma alike_start {A B} h h' (obs : world -> A -> B) (k k' : nat -> M A) :
  alike h h' obs (k h) (k' h') -> alike h h' obs (bind (ret h) k) (bind (ret h') k').
Proof. intros H w w' Hrel. exact (H w w' Hrel). Qed.

Lemma alike_for_fold {A S} h h' (l : list A) (body body' : A -> S -> M S) :
  (forall x s, alike h h' (fun _ x => x) (body x s) (body' x s)) ->
  forall s, alike h h' (fun _ x => x) (for_fold l s body) (for_fold l s body').
Proof.
  intros Hb. induction l as [|x l IH]; intros s; cbn [for_fold].
  - by intros w w' H.
  - apply alike_bind; [apply Hb | apply IH].
Qed.

Lemma alike_rd h h' : alike h h' (fun _ x => x) (rd h) (rd h').
Proof.
  intros w w' Hrel. pose proof (same_tokens_readline _ _ _ _ Hrel) as Hnext.
  destruct Hrel as (Hr & Hr' & Ht). apply token_lines_step in Ht as [Ht _].
  unfold rd.
  erewrite (bind_inr (file_readline h)) by (by apply file_readline_run).
  erewrite (bind_inr (file_readline h')) by (by apply file_readline_run).
  rewrite Ht.
  by destruct (split (readline (text_of w' h')).1 !! 1%nat).
Qed.

Lemma alike_row h h' (a : ndarray) (i : nat) :
  alike h h' (fun _ x => x)
    (line <- file_readline h ;;
     vals <- lift (floats (split line)) ;;
     lift (set_row a i vals))
    (line <- file_readline h' ;;
     vals <- lift (floats (split line)) ;;
     lift (set_row a i vals)).
Proof.
  intros w w' Hrel. pose proof (same_tokens_readline _ _ _ _ Hrel) as Hnext.
  destruct Hrel as (Hr & Hr' & Ht). apply token_lines_step in Ht as [Ht _].
  erewrite (bind_inr (file_readline h)) by (by apply file_readline_run).
  erewrite (bind_inr (file_readline h')) by (by apply file_readline_run).
  rewrite Ht. unfold bind, lift.
  destruct (floats (split (readline (text_of w' h')).1)) as [e|vals]; [done |].
  by destruct (set_row a i vals).
Qed.

Lemma alike_grid_new h h' (g : GridData) :
  alike h h' (fun w q => w_grids w !! q) (grid_new g) (grid_new g).
Proof.
  intros w w' Hrel. unfold outcome, grid_new. cbn [fst snd w_grids]. split.
  - rewrite !lookup_app_r by done. by rewrite !Nat.sub_diag.
  - exact Hrel.
Qed.

Lemma alike_read h h' :
  alike h h' (fun w q => w_grids w !! q) (read (File h)) (read (File h')).
Proof.
  unfold read. apply alike_start.
  do 6 (apply alike_bind; [apply alike_rd | intros ?];
        apply alike_bind; [apply alike_lift | intros ?]).
  apply alike_bind; [| intros ?; apply alike_grid_new].
  unfold read_data.
  apply alike_bind; [apply alike_lift | intros ?].
  apply alike_for_fold. intros i a. apply alike_row.
Qed.

Lemma returned_outcome (c : M nat) (w : world) :
  returned c w =
    match outcome (fun w q => w_grids w !! q) (c w) with
    | inl e => inl e
    | inr (Some g) => inr g
    | inr None => inl AttributeError
    end.
Proof. unfold returned, outcome. by destruct (c w) as [w1 [e|q]]. Qed.

(** X5. Only the tokens count.  When two streams hold texts that have the
    same tokens line by line, whatever white space stands before, between
    and after the tokens (spaces, tabs, a carriage return before the line
    feed, a last line with or without its line feed), [read] returns the
    same on both, the same grid or the same exception, and what it leaves
    unread in them has the same tokens again. *)
Theorem read_tokens_only (arg arg' : file_arg) (w w1 w' w1' : world) (h h' : nat) :
  resolve arg ReadMode w = (w1, inr h) -> readable w1 h = true ->
  resolve arg' ReadMode w' = (w1', inr h') -> readable w1' h' = true ->
  token_lines (text_of w1 h) = token_lines (text_of w1' h') ->
  returned (read arg) w = returned (read arg') w' /\
  token_lines (text_of (read arg w).1 h) = token_lines (text_of (read arg' w').1 h').
Proof.
  intros Hres Hr Hres' Hr' Ht.
  rewrite !returned_outcome.
  rewrite (read_via _ _ _ _ Hres), (read_via _ _ _ _ Hres').
  destruct (alike_read h h' w1 w1') as [Ho (_ & _ & Hs)]; [done |].
  by rewrite Ho.
Qed.

Lemma read_tokens_only_witness :
  returned (read (File 0)) (string_io spaced_text empty_world)
    = returned (read (File 0)) (string_io scenario_text empty_world) /\
  token_lines (text_of (read (File 0) (string_io spaced_text empty_world)).1 0)
    = token_lines (text_of (read (File 0) (string_io scenario_text empty_world)).1 0).
Proof.
  apply (read_tokens_only (File 0) (File 0)
           (string_io spaced_text empty_world) (string_io spaced_text empty_world)
           (string_io scenario_text empty_world) (string_io scenario_text empty_world)
           0%nat 0%nat);
    vm_compute; reflexivity.
Defined.
(** ** What a call leaves alone *)


Section At.
Variable h : nat.
Variable R : world -> world -> Prop.
Hypothesis R_refl : forall w, R w w.
Hypothesis R_trans : forall w1 w2 w3, R w1 w2 -> R w2 w3 -> R w1 w3.
Hypothesis R_text : forall w fo t,
  w_files w !! h = Some fo -> R w (set_file h (with_text fo t) w).







End At.









(** ** The grids of the store *)

Lemma same_grids_refl w : same_grids w w.
Proof. done. Qed.

Lemma same_grids_trans w1 w2 w3 : same_grids w1 w2 -> same_grids w2 w3 -> same_grids w1 w3.
Proof. unfold same_grids. congruence. Qed.

Lemma same_grids_set_file w h fo t :
  w_files w !! h = Some fo -> same_grids w (set_file h (with_text fo t) w).
Proof. done. Qed.

Lemma same_grids_open name m : keeps same_grids (open_ name m).
Proof.
  intros w. unfold open_, same_grids.
  destruct m, (w_disk w !! name) as [[]|]; done.
Qed.

Lemma appends_one_grid_bind {A} (c : M A) (k : A -> M nat) :
  keeps same_grids c -> (forall x w, appends_one_grid (k x) w) ->
  forall w, appends_one_grid (bind c k) w.
Proof.
  intros Hc Hk w. specialize (Hc w). unfold appends_one_grid, bind in *.
  destruct (c w) as [w1 [e|x]]; cbn [fst snd] in *; [done |].
  specialize (Hk x w1). unfold same_grids in Hc.
  destruct (k x w1) as [w2 [e|q]]; cbn [fst snd] in *; by rewrite <- Hc.
Qed.

(** X8. The grids of the store after [read].  Whatever the argument and the
    store are, a call of [read] that returns has appended exactly one grid
    to the grids of the store and returns the index of this new grid, and a
    call that raises has left the grids of the store as they were: no grid
    is made from a text that is read in part. *)
Theorem read_makes_one_grid (arg : file_arg) (w : world) :
  match (read arg w).2 with
  | inl _ => w_grids (read arg w).1 = w_grids w
  | inr q => q = length (w_grids w) /\
             exists g, w_grids (read arg w).1 = w_grids w ++ [g]
  end.
Proof.
  change (appends_one_grid (read arg) w). revert w. unfold read.
  apply appends_one_grid_bind.
  { destruct arg; [apply same_grids_open | by intros w]. }
  intros h.
  do 6 (apply appends_one_grid_bind;
        [apply (keeps_rd same_grids same_grids_refl same_grids_trans same_grids_set_file)
        | intros ?];
        apply appends_one_grid_bind; [by intros w | intros ?]).
  apply appends_one_grid_bind.
  { apply (keeps_read_data same_grids same_grids_refl same_grids_trans
             same_grids_set_file). }
  intros a w. unfold appends_one_grid, grid_new. cbn [fst snd w_grids].
  split; [done |]. by eexists.
Qed.

(** ** Arguments that cannot be used *)

(** ** Calls in sequence *)

Lemma data_row_fit (n : nat) (d : string) (v : list float) :
  floats (split d) = inr v -> length v = n -> data_row n d = inr v.
Proof.
  intros Hv Hn. unfold data_row, row_of. rewrite Hv.
  apply Nat.eqb_eq in Hn. by rewrite Hn.
Qed.

Lemma grid_new_set_text g h s w :
  (grid_new g (set_text h s w)).1 = set_text h s (grid_new g w).1.
Proof.
  unfold grid_new, set_text. cbn [fst w_files].
  by destruct (w_files w !! h).
Qed.

Lemma readable_grid_new g w h : readable (grid_new g w).1 h = readable w h.
Proof. done. Qed.

(** [read] on the text that [write] prints. *)
Lemma read_grid_text_at (g : GridData) (missing : float) w h (rest : string) :
  readable w h = true -> Forall reads_back (printed g missing) ->
  read (File h) (set_text h (grid_text g missing +:+ rest) w)
    = grid_new (reread g missing) (set_text h rest w).
Proof.
  intros Hr Hrb. unfold printed in Hrb.
  destruct (ma_shape (data g)) as [ny nx] eqn:Hshape. cbn [fst] in Hrb.
  apply Forall_cons in Hrb as [Hxo Hrb]. apply Forall_cons in Hrb as [Hyo Hrb].
  apply Forall_cons in Hrb as [Hdx Hrb]. apply Forall_cons in Hrb as [Hm Hrb].
  assert (Htext : grid_text g missing +:+ rest =
    header_line "ncols" (Py.format_int (Z.of_nat nx)) +:+
    header_line "nrows" (Py.format_int (Z.of_nat ny)) +:+
    header_line "xllcorner" (Py.format_float (fst (_origin g))) +:+
    header_line "yllcorner" (Py.format_float (snd (_origin g))) +:+
    header_line "cellsize" (Py.format_float (_delta g)) +:+
    header_line "NODATA_value" (Py.format_float missing) +:+
    Str.cat (body_lines g missing) +:+ rest).
  { unfold grid_text, header_lines, keywords.
    rewrite Hshape. cbn [fst snd zip_with Str.cat].
    rewrite !app_assoc. reflexivity. }
  rewrite Htext.
  rewrite (read_file_at w h _ _ _ _ _ _ _
             (Z.of_nat nx) (Z.of_nat ny) (fst (_origin g)) (snd (_origin g))
             (_delta g) missing Hr).
  2:{ repeat constructor; apply is_line_header_line;
        first [done | apply format_int_token | apply format_float_token]. }
  2,3: rewrite header_field_header_line;
        first [apply int_of_format | done | apply format_int_token
              | (unfold keyword_width; simpl; lia)].
  2,3,4,5: rewrite header_field_header_line;
        first [done | apply format_float_token | (unfold keyword_width; simpl; lia)].
  erewrite bind_inr.
  2:{ rewrite read_data_at by done. rewrite np_zeros_ok by lia.
      rewrite !Nat2Z.id.
      rewrite (rows_of_text_rows ny (body_lines g missing)
                 (map (emit_row g missing) (range_down ny)));
        [reflexivity | | | done | simpl; by rewrite length_replicate].
      - eapply Forall2_impl; [by apply (Claims.body_lines_fit g missing ny nx) |].
        intros d v (Hd & Hv & Hl). split; [done |]. by apply data_row_fit.
      - unfold body_lines, range_down. rewrite Hshape. cbn [fst].
        by rewrite length_map, length_rev, length_seq. }
  cbn [fst snd nd_shape nd_rows].
  rewrite drop_ge, List.app_nil_r by (by rewrite length_replicate).
  unfold range_down. rewrite map_rev, rev_involutive.
  unfold reread. rewrite Hshape. cbn [fst]. by destruct (_origin g).
Qed.

(** X10. Grids in sequence.  [write] appends to what the stream holds and
    [read] stops after the last data line, so that a stream can hold
    several grids.  Take two grids and two sentinels whose printed numbers
    read back as themselves.  Two calls of [write] on one stream return
    after appending the text of the first grid followed by the text of the
    second; and on any stream that begins with what they have appended, two
    calls of [read] return two new grids, the first made of the text of the
    first grid and the second of the text of the second, and leave unread
    what follows. *)
Theorem write_twice_read_twice (hw q1 q2 : nat) (g1 g2 : GridData) (m1 m2 : float)
    (w : world) :
  writable w hw = true ->
  w_grids w !! q1 = Some g1 -> w_grids w !! q2 = Some g2 ->
  wf_grid g1 -> wf_grid g2 ->
  Forall reads_back (printed g1 m1) -> Forall reads_back (printed g2 m2) ->
  (write (File hw) q1 m1 ;; write (File hw) q2 m2) w
    = (set_text hw (text_of w hw +:+ grid_text g1 m1 +:+ grid_text g2 m2) w, inr tt) /\
  forall wr hr rest,
    readable wr hr = true ->
    text_of wr hr = grid_text g1 m1 +:+ grid_text g2 m2 +:+ rest ->
    (a <- read (File hr) ;; b <- read (File hr) ;; ret (a, b)) wr
      = ({| w_disk := w_disk wr;
            w_files := w_files (set_text hr rest wr);
            w_grids := w_grids wr ++ [reread g1 m1; reread g2 m2] |},
         inr (length (w_grids wr), S (length (w_grids wr)))).
Proof.
  intros Hw Hq1 Hq2 Hwf1 Hwf2 Hrb1 Hrb2. split.
  - erewrite bind_inr by (by apply write_file_run).
    rewrite write_file_run with (g := g2);
      [| by rewrite writable_set_text | by rewrite w_grids_set_text | done].
    rewrite text_of_set_text by (by apply writable_is_Some).
    by rewrite set_text_set_text, app_assoc.
  - intros wr hr rest Hr Htext.
    rewrite <- (set_text_id hr wr) at 1. rewrite Htext.
    erewrite bind_inr with (w' := (grid_new (reread g1 m1) (set_text hr _ wr)).1)
      by (by apply read_grid_text_at).
    rewrite grid_new_set_text.
    erewrite bind_inr
      with (w' := (grid_new (reread g2 m2) (set_text hr rest (grid_new _ wr).1)).1)
      by (apply read_grid_text_at; by rewrite ?readable_grid_new).
    unfold ret, grid_new. cbn [fst snd w_grids w_disk w_files].
    rewrite w_grids_set_text, w_disk_set_text. cbn [w_grids w_disk].
    rewrite List.length_app, <- List.app_assoc. cbn [length app].
    replace (length (w_grids wr) + 1)%nat with (S (length (w_grids wr))) by lia.
    f_equal.
    + f_equal. unfold set_text. cbn [w_files]. by destruct (w_files wr !! hr).
    + by rewrite w_grids_set_text.
Qed.
Lemma write_twice_read_twice_witness :
  wf_grid example_grid /\ wf_grid small_grid /\
  Forall reads_back (printed example_grid (-9999)%float) /\
  Forall reads_back (printed small_grid 0%float) /\
  (write (File 0) 0 (-9999)%float ;; write (File 0) 1 0%float) two_grids_world
    = (set_text 0 (text_of two_grids_world 0 +:+
                   grid_text example_grid (-9999)%float +:+ grid_text small_grid 0%float)
         two_grids_world, inr tt) /\
  forall wr hr rest,
    readable wr hr = true ->
    text_of wr hr
      = grid_text example_grid (-9999)%float +:+ grid_text small_grid 0%float +:+ rest ->
    (a <- read (File hr) ;; b <- read (File hr) ;; ret (a, b)) wr
      = ({| w_disk := w_disk wr;
            w_files := w_files (set_text hr rest wr);
            w_grids := w_grids wr ++
              [reread example_grid (-9999)%float; reread small_grid 0%float] |},
         inr (length (w_grids wr), S (length (w_grids wr)))).
Proof.
  assert (Hwf1 : wf_grid example_grid) by (repeat constructor).
  assert (Hwf2 : wf_grid small_grid) by (repeat constructor).
  assert (Hrb1 : Forall reads_back (printed example_grid (-9999)%float))
    by (repeat constructor; vm_compute; reflexivity).
  assert (Hrb2 : Forall reads_back (printed small_grid 0%float))
    by (repeat constructor; vm_compute; reflexivity).
  split; [exact Hwf1 |]. split; [exact Hwf2 |].
  split; [exact Hrb1 |]. split; [exact Hrb2 |].
  apply (write_twice_read_twice 0 0 1 example_grid small_grid (-9999)%float 0%float
           two_grids_world);
    first [reflexivity | assumption].
Defined.

(** ** A raster without columns *)

Lemma replicate_snoc {A} (n : nat) (x : A) :
  replicate n x ++ [x] = replicate (S n) x.
Proof. induction n as [|n IH]; simpl; [done |]. by rewrite IH. Qed.

(** The loop of [read] at the end of the stream, for a raster without
    columns. *)
Lemma rows_of_text_no_columns (n : nat) :
  forall a : ndarray,
  snd (nd_shape a) = 0%nat ->
  (n <= fst (nd_shape a))%nat -> length (nd_rows a) = fst (nd_shape a) ->
  rows_of_text (range_down n) a EmptyString =
    (EmptyString, inr {| nd_shape := nd_shape a;
                         nd_rows := replicate n [] ++ drop n (nd_rows a) |}).
Proof.
  induction n as [|n IH]; intros a Hz Hn Hrows.
  - simpl. rewrite drop_0. by destruct a.
  - rewrite range_down_S. cbn [rows_of_text readline split floats].
    rewrite set_row_fit by (simpl; lia).
    rewrite IH by (simpl in *; first [done | lia | by rewrite length_insert]).
    cbn [nd_shape nd_rows]. rewrite drop_insert_here by lia.
    by rewrite <- replicate_snoc, <- List.app_assoc.
Qed.

(** X11. A raster without columns.  When the header converts to [ncols = 0]
    and to a number of rows that numpy accepts, and the stream ends after
    the header, [read] returns
    all the same: the end of the stream reads as a line without tokens, and
    a line without tokens is a row of no column.  The grid has [nrows] rows,
    all empty; a text that ends too early is not noticed. *)
Theorem read_without_columns (arg : file_arg) (w w1 : world) (h : nat)
    (l1 l2 l3 l4 l5 l6 : string) (ny : Z) (xo yo dx missing : float) :
  resolve arg ReadMode w = (w1, inr h) -> readable w1 h = true ->
  text_of w1 h = l1 +:+ l2 +:+ l3 +:+ l4 +:+ l5 +:+ l6 ->
  List.forallb Str.is_line [l1; l2; l3; l4; l5; l6] = true ->
  header_field Py.int_of_string l1 = inr 0 ->
  header_field Py.int_of_string l2 = inr ny ->
  header_field Py.float_of_string l3 = inr xo ->
  header_field Py.float_of_string l4 = inr yo ->
  header_field Py.float_of_string l5 = inr dx ->
  header_field Py.float_of_string l6 = inr missing ->
  allocatable ny 0 = true ->
  returned (read arg) w =
    inr {| _origin := (xo, yo);
           _delta := dx;
           data := {| ma_shape := (Z.to_nat ny, 0%nat);
                      ma_data := replicate (Z.to_nat ny) [];
                      ma_mask := replicate (Z.to_nat ny) [] |} |}.
Proof.
  intros Hres Hr Htext Hlines H1 H2 H3 H4 H5 H6 Hshape.
  destruct (allocatable_nonneg _ _ Hshape) as [Hny _].
  apply lines_complete in Hlines.
  assert (Htext' : text_of w1 h = l1 +:+ l2 +:+ l3 +:+ l4 +:+ l5 +:+ l6 +:+ EmptyString)
    by (by rewrite app_nil_r).
  destruct (read_result arg w w1 h l1 l2 l3 l4 l5 l6 EmptyString 0 ny xo yo dx missing
              Hres Hr Htext' Hlines H1 H2 H3 H4 H5 H6) as (Hret & _ & _).
  rewrite np_zeros_ok in Hret by lia.
  rewrite rows_of_text_no_columns in Hret;
    [| done | done | simpl; by rewrite length_replicate].
  cbn [snd nd_shape nd_rows] in Hret.
  rewrite drop_ge, List.app_nil_r in Hret by (by rewrite length_replicate).
  rewrite Hret. unfold GridData_init. cbn [nd_shape nd_rows Z.to_nat].
  do 3 f_equal. by rewrite fmap_replicate.
Qed.

Lemma read_without_columns_witness :
  allocatable 3 0 = true /\
  returned (read (File 0)) (string_io header_only_text empty_world) =
    inr {| _origin := (0%float, 0%float);
           _delta := 10%float;
           data := {| ma_shape := (3%nat, 0%nat);
                      ma_data := [[]; []; []];
                      ma_mask := [[]; []; []] |} |}.
Proof.
  split; [reflexivity |].
  apply (read_without_columns (File 0)
           (string_io header_only_text empty_world)
           (string_io header_only_text empty_world) 0%nat
           ("ncols 0" +:+ nl) ("nrows 3" +:+ nl) ("xllcorner 0.0" +:+ nl)
           ("yllcorner 0.0" +:+ nl) ("cellsize 10.0" +:+ nl)
           ("NODATA_value -1.0" +:+ nl)
           3 0%float 0%float 10%float (-1)%float);
    first [reflexivity | lia].
Defined.

(** ** What [write] prints, [float] reads *)

Lemma digit_cases (c : ascii) :
  is_digit c = true ->
  Py.is_underscore c = false /\ Py.is_e c = false /\ Py.is_dot c = false /\
  nonspace c = true /\
  Ascii.eqb c "-" = false /\ Ascii.eqb c "+" = false /\
  is_digit (lower_char c) = true /\
  forall d, uint_of_char c (Some d) <> None.
Proof.
  destruct c as [[] [] [] [] [] [] [] []]; try done; intros _; repeat split; done.
Qed.

Lemma string_of_uint_digits (d : uint) :
  forallb is_digit (NilEmpty.string_of_uint d) = true.
Proof. induction d; simpl; auto. Qed.

Lemma format_int_digits (n : Z) : 0 <= n -> forallb is_digit (Py.format_int n) = true.
Proof.
  intros Hn. unfold Py.format_int. destruct n as [|p|p]; simpl; [done | | lia].
  apply string_of_uint_digits.
Qed.

Lemma format_int_nonempty (n : Z) : Py.format_int n <> EmptyString.
Proof.
  pose proof (format_int_token n) as H. by destruct (Py.format_int n).
Qed.

Lemma rstrip_zeros_digits (s : string) :
  forallb is_digit s = true -> forallb is_digit (Py.rstrip_zeros s) = true.
Proof.
  induction s as [|c s IH]; simpl; [done |].
  intros [Hc Hs]%andb_true_iff. specialize (IH Hs).
  destruct (Py.rstrip_zeros s) as [|c' s'].
  - destruct (Ascii.eqb c "0"); simpl; [done | by rewrite Hc].
  - simpl in *. by rewrite Hc, IH.
Qed.

Lemma digits_go_digits (s : string) :
  forallb is_digit s = true ->
  is_Some (Py.digits_go true s) /\
  (s <> EmptyString -> is_Some (Py.digits_go false s)).
Proof.
  induction s as [|c s IH]; simpl; [by split; [eexists |] |].
  intros [Hc Hs]%andb_true_iff. destruct (IH Hs) as [[d Hd] _].
  destruct (digit_cases c Hc) as (-> & _ & _ & _ & _ & _ & _ & Hu).
  rewrite Hd. specialize (Hu d).
  destruct (uint_of_char c (Some d)); [| done]. by split; [eexists | intros _; eexists].
Qed.

Lemma digitpart_digits (s : string) :
  forallb is_digit s = true -> s <> EmptyString -> is_Some (Py.digitpart s).
Proof. intros Hs Hne. by apply digits_go_digits. Qed.

Lemma optional_digits_digits (s : string) :
  forallb is_digit s = true -> is_Some (Py.optional_digits s).
Proof.
  intros Hs. destruct s as [|c r]; [by eexists |].
  by apply (digitpart_digits (String c r)).
Qed.

Lemma cut_none p (s : string) :
  forallb (fun c => negb (p c)) s = true -> cut p s = (s, None).
Proof.
  induction s as [|c s IH]; simpl; [done |].
  intros [Hc Hs]%andb_true_iff. apply negb_true_iff in Hc. rewrite Hc.
  by rewrite (IH Hs).
Qed.

Lemma cut_app p (a : string) c (b : string) :
  forallb (fun c => negb (p c)) a = true -> p c = true ->
  cut p (a +:+ String c b) = (a, Some b).
Proof.
  intros Ha Hc. induction a as [|c' a IH]; simpl in *; [by rewrite Hc |].
  apply andb_true_iff in Ha as [Hc' Ha]. apply negb_true_iff in Hc'.
  by rewrite Hc', (IH Ha).
Qed.

Lemma digits_no_e (s : string) :
  forallb is_digit s = true -> forallb (fun c => negb (Py.is_e c)) s = true.
Proof.
  apply forallb_impl. intros c Hc. cbv beta.
  by destruct (digit_cases c Hc) as (_ & -> & _).
Qed.

Lemma digits_no_dot (s : string) :
  forallb is_digit s = true -> forallb (fun c => negb (Py.is_dot c)) s = true.
Proof.
  apply forallb_impl. intros c Hc. cbv beta.
  by destruct (digit_cases c Hc) as (_ & _ & -> & _).
Qed.

(** The literals [digits . digits]. *)
Lemma parse_decimal_point (ip f : string) :
  forallb is_digit ip = true -> forallb is_digit f = true ->
  ip <> EmptyString \/ f <> EmptyString ->
  is_Some (Py.parse_decimal (ip +:+ String "." f)).
Proof.
  intros Hip Hf Hne. unfold Py.parse_decimal.
  rewrite cut_none.
  2:{ rewrite forallb_app. cbn [forallb]. by rewrite !digits_no_e. }
  rewrite cut_app by (by try apply digits_no_dot).
  destruct (optional_digits_digits ip Hip) as [di ->].
  destruct (optional_digits_digits f Hf) as [df ->].
  cbn. destruct ip, f; try (by eexists). by destruct Hne.
Qed.

Lemma parse_exponent_format (k : Z) :
  is_Some (Py.parse_exponent (Py.format_exponent k)).
Proof.
  unfold Py.format_exponent, Py.parse_exponent.
  pose proof (format_int_digits (Z.abs k) ltac:(lia)) as Hd.
  pose proof (format_int_nonempty (Z.abs k)) as Hne.
  assert (Hs : forall r, forallb is_digit r = true -> r <> EmptyString ->
             forall sg, sg = "-"%char \/ sg = "+"%char ->
             is_Some (let '(neg, body) := Py.signed (String sg r) in
                      d ← Py.digitpart body;
                      Some (if neg then - Z.of_uint d else Z.of_uint d))).
  { intros r Hr Hr' sg [-> | ->]; cbn [Py.signed];
      destruct (digitpart_digits r Hr Hr') as [d ->]; by eexists. }
  destruct (k <? 0), (Z.abs k <? 10); apply Hs; auto; cbn [forallb];
    by rewrite ?Hd.
Qed.

(** The literals [digit e exponent] and [digit . digits e exponent]. *)
Lemma parse_decimal_exp (d : ascii) (r ex : string) :
  is_digit d = true -> forallb is_digit r = true ->
  is_Some (Py.parse_exponent ex) ->
  is_Some (Py.parse_decimal
             (match r with
              | EmptyString => String d ("e" +:+ ex)
              | _ => String d ("." +:+ r +:+ "e" +:+ ex)
              end)).
Proof.
  intros Hd Hr [e He]. unfold Py.parse_decimal.
  destruct r as [|c r].
  - change (String d ("e" +:+ ex)) with (String d EmptyString +:+ String "e" ex).
    rewrite cut_app; [| by apply digits_no_e; cbn; rewrite Hd | done].
    rewrite cut_none by (by apply digits_no_dot; cbn; rewrite Hd).
    rewrite He. cbn [mbind option_bind].
    destruct (digitpart_digits (String d EmptyString)) as [di ->];
      [by cbn; rewrite Hd | done | by eexists].
  - change (String d ("." +:+ String c r +:+ "e" +:+ ex))
      with ((String d ("." +:+ String c r)) +:+ String "e" ex).
    rewrite cut_app; [| | done].
    2:{ change (String d ("." +:+ String c r))
          with (String d EmptyString +:+ String "." (String c r)).
        rewrite forallb_app.
        change (forallb (fun c => negb (Py.is_e c)) (String "." (String c r)))
          with (forallb (fun c => negb (Py.is_e c)) (String c r)).
        rewrite (digits_no_e (String c r) Hr). cbn [forallb].
        by destruct (digit_cases d Hd) as (_ & -> & _). }
    change (String d ("." +:+ String c r))
      with (String d EmptyString +:+ String "." (String c r)).
    rewrite cut_app; [| by apply digits_no_dot; cbn; rewrite Hd | done].
    rewrite He. cbn [mbind option_bind].
    destruct (optional_digits_digits (String d EmptyString)) as [di ->];
      [by cbn; rewrite Hd |].
    destruct (optional_digits_digits (String c r) Hr) as [df ->].
    by eexists.
Qed.

Lemma zeros_digits (n : Z) : forallb is_digit (Py.zeros n) = true.
Proof. by apply forallb_repeat. Qed.

Lemma substring_head (n : nat) c (s : string) :
  substring 0 (S n) (String c s) = String c (substring 0 n s).
Proof. done. Qed.

(** The layouts of [repr] are decimal literals that begin with a digit. *)
Lemma layout_parses (digits : string) (decpt : Z) :
  forallb is_digit digits = true ->
  starts_with_digit (Py.layout digits decpt) = true /\
  is_Some (Py.parse_decimal (Py.layout digits decpt)).
Proof.
  intros Hd. unfold Py.layout.
  pose proof (parse_exponent_format (decpt - 1)) as He.
  destruct ((decpt <=? -4) || (16 <? decpt)).
  { destruct digits as [|d r].
    - split; [done |].
      by apply (parse_decimal_exp "0" EmptyString).
    - cbn [forallb] in Hd. apply andb_true_iff in Hd as [Hd Hr].
      pose proof (parse_decimal_exp d r _ Hd Hr He) as Hp.
      by destruct r. }
  destruct (decpt <=? 0) eqn:H0.
  { split; [done |].
    apply (parse_decimal_point "0" (Py.zeros (- decpt) +:+ digits)); [done | | by left].
    by rewrite forallb_app, zeros_digits. }
  apply Z.leb_gt in H0.
  destruct (Z.of_nat (String.length digits) <=? decpt) eqn:Hn.
  { split.
    - destruct digits as [|d r]; [| by cbn in *; apply andb_true_iff in Hd as [-> _]].
      cbn [String.append String.length] in *. unfold Py.zeros.
      match goal with
      | |- context [Str.repeat _ ?n] => destruct n eqn:Hz; [lia | done]
      end.
    - rewrite <- app_assoc.
      change ((digits +:+ Py.zeros (decpt - Z.of_nat (String.length digits))) +:+ ".0")
        with ((digits +:+ Py.zeros (decpt - Z.of_nat (String.length digits)))
              +:+ String "." "0").
      apply parse_decimal_point; [| done | by right].
      by rewrite forallb_app, Hd, zeros_digits. }
  apply Z.leb_gt in Hn.
  destruct digits as [|d r]; [cbn in Hn; lia |].
  destruct (Z.to_nat decpt) as [|k] eqn:Hk; [lia |].
  rewrite substring_head. cbn [forallb] in Hd. apply andb_true_iff in Hd as [Hd Hr].
  split; [done |].
  change (String d (substring 0 k r) +:+ "." +:+ ?f)
    with (String d (substring 0 k r) +:+ String "." f).
  apply parse_decimal_point; [| | by left].
  - cbn [forallb]. by rewrite Hd, forallb_substring.
  - apply forallb_substring. cbn [forallb]. by rewrite Hd.
Qed.
Lemma scale10_pos (N D k : Z) :
  0 < N -> 0 < D -> 0 < (Py.scale10 N D k).1 /\ 0 < (Py.scale10 N D k).2.
Proof.
  intros HN HD. unfold Py.scale10. destruct (0 <=? k) eqn:Hk; cbn [fst snd].
  - apply Z.leb_le in Hk. split; [done |].
    apply Z.mul_pos_pos; [done |]. by apply Z.pow_pos_nonneg.
  - apply Z.leb_gt in Hk. split; [| done].
    apply Z.mul_pos_pos; [done |]. apply Z.pow_pos_nonneg; lia.
Qed.

Lemma candidate_nonneg (x : float) (N D p c k : Z) :
  Py.candidate x N D p = Some (c, k) -> 0 <= c.
Proof.
  unfold Py.candidate. intros H.
  destruct (Py.scale10 N D _) as [N' D'].
  repeat case_match; try done; injection H as <- _;
    match goal with
    | Hx : (0 <? ?c) && _ = true |- 0 <= ?c =>
        apply andb_true_iff in Hx as [Hx _]; apply Z.ltb_lt in Hx; lia
    end.
Qed.

Lemma shortest_nonneg (x : float) (N D : Z) (fuel : nat) :
  0 < N -> 0 < D -> forall p, 0 <= (Py.shortest x N D p fuel).1.
Proof.
  intros HN HD. induction fuel as [|fuel IH]; intros p; cbn [Py.shortest].
  - destruct (scale10_pos N D (Py.ilog10 N D - 16) HN HD) as [H1 H2].
    destruct (Py.scale10 N D _) as [N' D']. cbn [fst snd] in *.
    apply Z.div_pos; lia.
  - destruct (Py.candidate x N D p) as [[c k]|] eqn:Hc; [| apply IH].
    cbn [fst]. by eapply candidate_nonneg.
Qed.

Lemma repr_finite_parses (x : float) (m : positive) (e : Z) :
  starts_with_digit (Py.repr_finite x m e) = true /\
  is_Some (Py.parse_decimal (Py.repr_finite x m e)).
Proof.
  unfold Py.repr_finite.
  assert (HND : 0 < (if 0 <=? e then (Z.pos m * 2 ^ e, 1) else (Z.pos m, 2 ^ (- e))).1 /\
                0 < (if 0 <=? e then (Z.pos m * 2 ^ e, 1) else (Z.pos m, 2 ^ (- e))).2).
  { destruct (0 <=? e) eqn:He; cbn [fst snd].
    - apply Z.leb_le in He. split; [| done].
      apply Z.mul_pos_pos; [done |]. by apply Z.pow_pos_nonneg.
    - apply Z.leb_gt in He. split; [done |]. apply Z.pow_pos_nonneg; lia. }
  destruct (if 0 <=? e then _ else _) as [N D]. cbn [fst snd] in HND.
  destruct HND as [HN HD].
  pose proof (shortest_nonneg x N D 17 HN HD 1) as Hc.
  destruct (Py.shortest x N D 1 17) as [c k]. cbn [fst] in Hc.
  by apply layout_parses, rstrip_zeros_digits, format_int_digits.
Qed.

Lemma digit_not_name (c : ascii) (r : string) :
  is_digit c = true ->
  String.eqb (lower (String c r)) "inf" = false /\
  String.eqb (lower (String c r)) "infinity" = false /\
  String.eqb (lower (String c r)) "nan" = false.
Proof.
  intros Hc. cbn [lower String.eqb].
  assert (Ascii.eqb (lower_char c) "i" = false /\ Ascii.eqb (lower_char c) "n" = false)
    as [-> ->]; [| done].
  destruct c as [[] [] [] [] [] [] [] []]; done.
Qed.

(** [float] accepts a decimal literal that begins with a digit, with or
    without a minus sign before it. *)
Lemma float_of_literal (s : string) :
  starts_with_digit s = true -> forallb nonspace s = true ->
  is_Some (Py.parse_decimal s) ->
  (exists y, Py.float_of_string s = inr y) /\
  (exists y, Py.float_of_string (String "-" s) = inr y).
Proof.
  intros Hd Hs [[M E] Hp].
  destruct s as [|c r]; [done |]. cbn [starts_with_digit] in Hd.
  destruct (digit_not_name c r Hd) as (Hi & Hy & Hn).
  destruct (digit_cases c Hd) as (_ & _ & _ & _ & Hm & Hpl & _).
  assert (Hsigned : Py.signed (String c r) = (false, String c r)).
  { unfold Py.signed.
    destruct c as [[] [] [] [] [] [] [] []]; done. }
  split.
  - unfold Py.float_of_string. rewrite (strip_token _ Hs), Hsigned.
    rewrite Hi, Hy, Hn, Hp. cbn [orb]. by eexists.
  - unfold Py.float_of_string. rewrite strip_token
      by (change (forallb nonspace (String "-" (String c r)))
            with (nonspace "-" && forallb nonspace (String c r)); by rewrite Hs).
    cbn [Py.signed]. rewrite Hi, Hy, Hn, Hp. cbn [orb]. by eexists.
Qed.

(** [float] accepts every text that [format] prints for a float, and reads
    [reparse x] from the text of [x]. *)
Lemma float_of_format (x : float) :
  Py.float_of_string (Py.format_float x) = inr (reparse x).
Proof.
  assert (H : exists y, Py.float_of_string (Py.format_float x) = inr y).
  { unfold Py.format_float.
    destruct (Prim2SF x) as [[]|[]| |[] m e].
    1-5: eexists; vm_compute; reflexivity.
    - destruct (repr_finite_parses (abs x) m e) as [Hd Hp].
      apply float_of_literal; [done | | done].
      by apply is_token_spec, repr_finite_token.
    - destruct (repr_finite_parses (abs x) m e) as [Hd Hp].
      apply float_of_literal; [done | | done].
      by apply is_token_spec, repr_finite_token. }
  destruct H as [y Hy]. unfold reparse. by rewrite Hy.
Qed.

Lemma floats_format_any (vals : list float) :
  floats (map Py.format_float vals) = inr (map reparse vals).
Proof.
  induction vals as [|v vals IH]; simpl; [done |].
  by rewrite float_of_format, IH.
Qed.
(** [read] on the text that [write] prints, whatever the numbers are. *)
Lemma read_written_at (g : GridData) (missing : float) w h (rest : string) :
  readable w h = true ->
  read (File h) (set_text h (grid_text g missing +:+ rest) w)
    = grid_new (reread_any g missing) (set_text h rest w).
Proof.
  intros Hr.
  destruct (ma_shape (data g)) as [ny nx] eqn:Hshape.
  assert (Htext : grid_text g missing +:+ rest =
    header_line "ncols" (Py.format_int (Z.of_nat nx)) +:+
    header_line "nrows" (Py.format_int (Z.of_nat ny)) +:+
    header_line "xllcorner" (Py.format_float (fst (_origin g))) +:+
    header_line "yllcorner" (Py.format_float (snd (_origin g))) +:+
    header_line "cellsize" (Py.format_float (_delta g)) +:+
    header_line "NODATA_value" (Py.format_float missing) +:+
    Str.cat (body_lines g missing) +:+ rest).
  { unfold grid_text, header_lines, keywords.
    rewrite Hshape. cbn [fst snd zip_with Str.cat].
    rewrite !app_assoc. reflexivity. }
  rewrite Htext.
  rewrite (read_file_at w h _ _ _ _ _ _ _
             (Z.of_nat nx) (Z.of_nat ny)
             (reparse (fst (_origin g))) (reparse (snd (_origin g)))
             (reparse (_delta g)) (reparse missing) Hr).
  2:{ repeat constructor; apply is_line_header_line;
        first [done | apply format_int_token | apply format_float_token]. }
  2,3: rewrite header_field_header_line;
        first [apply int_of_format | done | apply format_int_token
              | (unfold keyword_width; simpl; lia)].
  2,3,4,5: rewrite header_field_header_line;
        first [apply float_of_format | done | apply format_float_token
              | (unfold keyword_width; simpl; lia)].
  erewrite bind_inr.
  2:{ rewrite read_data_at by done. rewrite np_zeros_ok by lia.
      rewrite !Nat2Z.id.
      rewrite (rows_of_text_rows ny (body_lines g missing)
                 (map (fun i => map reparse (emit_row g missing i)) (range_down ny)));
        [reflexivity | | | done | simpl; by rewrite length_replicate].
      - unfold body_lines. rewrite Hshape. cbn [fst].
        apply Forall2_fmap, Forall_Forall2_diag, Forall_forall.
        intros i _. split; [apply is_line_row_line |].
        apply data_row_fit.
        + rewrite split_row_line. apply floats_format_any.
        + rewrite length_map. unfold emit_row, range.
          by rewrite length_map, length_seq, Hshape.
      - unfold body_lines, range_down. rewrite Hshape. cbn [fst].
        by rewrite length_map, length_rev, length_seq. }
  cbn [fst snd nd_shape nd_rows].
  rewrite drop_ge, List.app_nil_r by (by rewrite length_replicate).
  unfold range_down. rewrite map_rev, rev_involutive.
  unfold reread_any. by rewrite Hshape.
Qed.

(** X12. What [write] prints, [read] accepts.  For every well-formed grid
    and every sentinel, whatever the numbers are (no number is asked to read
    back as itself), [write] returns after appending its text, and [read] on
    any readable stream that begins with this text does not raise: it
    returns a new grid, leaving unread what follows the text.  The grid has
    the shape of the grid that was written, and each of its cells holds the
    number that [float] reads from the text that [format] prints for the
    number that stands for the cell: the sentinel when the cell is masked,
    the stored number otherwise. *)
Theorem read_accepts_what_write_prints (hw q : nat) (g : GridData) (missing : float)
    (w : world) :
  writable w hw = true -> w_grids w !! q = Some g -> wf_grid g ->
  write (File hw) q missing w
    = (set_text hw (text_of w hw +:+ grid_text g missing) w, inr tt) /\
  forall wr hr rest,
    readable wr hr = true -> text_of wr hr = grid_text g missing +:+ rest ->
    exists g',
      returned (read (File hr)) wr = inr g' /\
      (read (File hr) wr).2 = inr (length (w_grids wr)) /\
      text_of (read (File hr) wr).1 hr = rest /\
      ma_shape (data g') = ma_shape (data g) /\
      forall i j b v,
        cell (ma_mask (data g)) i j = Some b ->
        cell (ma_data (data g)) i j = Some v ->
        exists v',
          cell (ma_data (data g')) i j = Some v' /\
          Py.float_of_string (Py.format_float (if b then missing else v)) = inr v'.
Proof.
  intros Hw Hq Hwf. split; [by apply write_file_run |].
  intros wr hr rest Hr Htext. exists (reread_any g missing).
  assert (Hrun : read (File hr) wr
                 = grid_new (reread_any g missing) (set_text hr rest wr)).
  { rewrite <- (set_text_id hr wr) at 1. rewrite Htext. by apply read_written_at. }
  unfold returned. rewrite Hrun. unfold grid_new. cbn [fst snd w_grids].
  rewrite w_grids_set_text, lookup_app_r, Nat.sub_diag by done.
  split; [done |]. split; [done |]. split.
  { unfold text_of. cbn [w_files]. fold (text_of (set_text hr rest wr) hr).
    apply text_of_set_text. by apply readable_is_Some. }
  split; [done |].
  intros i j b v Hb Hv. destruct Hwf as [Hd _].
  destruct (ma_shape (data g)) as [ny nx] eqn:Hshape.
  destruct (Claims.cell_lt _ _ _ _ _ Hd Hv) as [Hi Hj]. cbn [fst snd] in Hi, Hj.
  exists (reparse (if b then missing else v)). split; [| apply float_of_format].
  unfold reread_any, GridData_init. cbn [data ma_data nd_rows]. rewrite Hshape.
  cbn [fst].
  rewrite <- (map_map (emit_row g missing) (map reparse)).
  rewrite Claims.cell_fmap, (Claims.cell_emit_rows _ _ _ _ _ _ Hshape Hi Hj).
  by rewrite (Claims.emit_cell _ _ _ _ _ _ Hb Hv).
Qed.

Lemma read_accepts_what_write_prints_witness :
  wf_grid example_grid /\
  write (File 0) 0 nan (writer_world example_grid)
    = (set_text 0 (text_of (writer_world example_grid) 0 +:+ grid_text example_grid nan)
         (writer_world example_grid), inr tt) /\
  forall wr hr rest,
    readable wr hr = true -> text_of wr hr = grid_text example_grid nan +:+ rest ->
    exists g',
      returned (read (File hr)) wr = inr g' /\
      (read (File hr) wr).2 = inr (length (w_grids wr)) /\
      text_of (read (File hr) wr).1 hr = rest /\
      ma_shape (data g') = ma_shape (data example_grid) /\
      forall i j b v,
        cell (ma_mask (data example_grid)) i j = Some b ->
        cell (ma_data (data example_grid)) i j = Some v ->
        exists v',
          cell (ma_data (data g')) i j = Some v' /\
          Py.float_of_string (Py.format_float (if b then nan else v)) = inr v'.
Proof.
  assert (Hwf : wf_grid example_grid) by (repeat constructor).
  split; [exact Hwf |].
  apply (read_accepts_what_write_prints 0 0 example_grid nan (writer_world example_grid));
    first [reflexivity | exact Hwf].
Defined.

End Extras.
